(** * ris2csv: a shallow embedding of [ris2csv.py] and its properties

    The development follows the layout of the Python module:
    - [Py]: the string primitives of the Python runtime the module relies on
      ([str.strip], [str.startswith], [str.split], [str.join], [sorted],
      [re.match] for the one pattern used, text-mode [readlines]);
    - the data model (record values, records, schema, tabular rows);
    - the pure cores of [load_ris_standards], [parse_ris_file], the row
      construction of [convert_ris_to_csv], the source loop of
      [merge_csv_files] and the block writer of [convert_csv_to_ris];
    - the effectful functions over a file store with a trace of diagnostics;
    - the properties.

    Characters are code points below 256; a Python [dict] is a [gmap] (the
    module never observes insertion order), a Python [set] is a [gset].  A
    path is the name of a file: two spellings are two files.  What the store
    cannot tell (whether a path can be opened for writing, whether a folder
    can be created, what [glob] lists) is asked from a [Platform]. *)

From Stdlib Require Import Strings.String Strings.Ascii NArith Lia.
From stdpp Require Import base option list sorting gmap strings fin_maps.

Local Open Scope stdpp_scope.

(** ** Python string primitives *)

Module Py.

(** [str.isspace] on one code point below 256; the class [\s] of [re] on
    [str] patterns is the same set. *)
Definition isspace (c : ascii) : bool :=
  let n := N_of_ascii c in
  ((9 <=? n) && (n <=? 13) || (28 <=? n) && (n <=? 32)
   || (n =? 133) || (n =? 160))%N.

Fixpoint lstrip (s : string) : string :=
  match s with
  | EmptyString => EmptyString
  | String c s' => if isspace c then lstrip s' else s
  end.

Fixpoint rstrip (s : string) : string :=
  match s with
  | EmptyString => EmptyString
  | String c s' =>
      match rstrip s' with
      | EmptyString => if isspace c then EmptyString else String c EmptyString
      | t => String c t
      end
  end.

(** [s.strip()] *)
Definition strip (s : string) : string := rstrip (lstrip s).

(** [s.startswith(p)] *)
Definition startswith (p s : string) : bool := String.prefix p s.

(** [needle in hay] on strings *)
Fixpoint contains (needle hay : string) : bool :=
  String.prefix needle hay
  || match hay with
     | EmptyString => false
     | String _ hay' => contains needle hay'
     end.

(** [str.lower] on one code point below 256 *)
Definition lower_char (c : ascii) : ascii :=
  let n := N_of_ascii c in
  if ((65 <=? n) && (n <=? 90)
      || (192 <=? n) && (n <=? 222) && negb (n =? 215))%N
  then ascii_of_N (n + 32) else c.

Fixpoint lower (s : string) : string :=
  match s with
  | EmptyString => EmptyString
  | String c s' => String (lower_char c) (lower s')
  end.

(** [s.split(sep)] for a one-character separator *)
Fixpoint split (sep : ascii) (s : string) : list string :=
  match s with
  | EmptyString => [EmptyString]
  | String c s' =>
      if Ascii.eqb c sep then EmptyString :: split sep s'
      else match split sep s' with
           | h :: t => String c h :: t
           | [] => [String c EmptyString]
           end
  end.

(** [sep.join(l)] *)
Fixpoint join (sep : string) (l : list string) : string :=
  match l with
  | [] => EmptyString
  | [x] => x
  | x :: l' => x +:+ sep +:+ join sep l'
  end.

(** [sorted(l)] on strings: code-point lexicographic order. *)
Definition sorted (l : list string) : list string := merge_sort String.le l.

(** The lines a text-mode file yields ([readlines] with universal
    newlines): CR LF and a lone CR read as LF, every line keeps its LF, a
    last line without one is kept as it is. *)
Fixpoint readlines_go (cur : string) (s : string) : list string :=
  match s with
  | EmptyString => if decide (cur = EmptyString) then [] else [String.rev cur]
  | String c s' =>
      if Ascii.eqb c "010" then String.rev (String "010" cur) :: readlines_go EmptyString s'
      else if Ascii.eqb c "013" then
        match s' with
        | String "010" s'' => String.rev (String "010" cur) :: readlines_go EmptyString s''
        | _ => String.rev (String "010" cur) :: readlines_go EmptyString s'
        end
      else readlines_go (String c cur) s'
  end.

Definition readlines (s : string) : list string := readlines_go EmptyString s.

(** *** The pattern of [parse_ris_file]

    Two characters of [A-Z0-9], a whitespace run, a dash, a whitespace
    run, then the rest of the line as the value. *)

Definition is_tag_char (c : ascii) : bool :=
  let n := N_of_ascii c in
  ((65 <=? n) && (n <=? 90) || (48 <=? n) && (n <=? 57))%N.

(** The trailing group and the end anchor: the dot excludes the newline,
    the anchor matches at the end or before one final newline. *)
Fixpoint dot_star_eol (s : string) : option string :=
  match s with
  | EmptyString => Some EmptyString
  | String c s' =>
      if Ascii.eqb c "010" then
        match s' with EmptyString => Some EmptyString | _ => None end
      else String c <$> dot_star_eol s'
  end.

(** The groups [(tag, value)] of a match; both whitespace runs are greedy
    and a shorter run never turns a failure into a match. *)
Definition re_match (line : string) : option (string * string) :=
  match line with
  | String c1 (String c2 rest) =>
      if is_tag_char c1 && is_tag_char c2 then
        match lstrip rest with
        | String "-" rest' =>
            (fun v => (String c1 (String c2 EmptyString), v))
              <$> dot_star_eol (lstrip rest')
        | _ => None
        end
      else None
  | _ => None
  end.

End Py.

(** ** Data model *)

(** A record value is a [str] or a [list] of [str]. *)
Inductive value :=
| Scalar (s : string)
| Multi (l : list string).

Global Instance value_eq_dec : EqDecision value.
Proof. solve_decision. Defined.

(** One parsed reference: the [dict] from tag to value. *)
Abbreviation record := (gmap string value).

(** The descriptor [load_ris_standards] keeps for a tag. *)
Record info := { description : string; notes : string }.

Global Instance info_eq_dec : EqDecision info.
Proof. solve_decision. Defined.

Abbreviation schema := (gmap string info).

(** A row as [csv.reader] yields it and [csv.writer] takes it. *)
Abbreviation row := (list string).

(** A cell of a [csv.DictReader] row: [None] is the reader's [restval]. *)
Abbreviation dict_row := (gmap string (option string)).

(** Truth value of a cell: [None] and the empty string are false. *)
Definition truthy (c : option string) : bool :=
  match c with
  | Some s => negb (String.eqb s EmptyString)
  | None => false
  end.

(** [sorted(standards.keys())]: the canonical columns. *)
Definition fields_of (standards : schema) : list string :=
  Py.sorted (map_to_list standards).*1.

(** The set comprehension of [convert_csv_to_ris]: the tags whose notes
    mention both words, whatever the case. *)
Definition multi_value_fields (standards : schema) : gset string :=
  dom (filter (fun kv => Py.contains "each" (Py.lower (notes kv.2)) = true
                         ∧ Py.contains "line" (Py.lower (notes kv.2)) = true)
              standards).

(** ** [parse_ris_file]: the loop over the lines *)

Record parser_state := {
  references : list record;
  current_ref : record
}.

(** The three branches under [if value or tag == 'TY']. *)
Definition store (tag val : string) (cur : record) : record :=
  match cur !! tag with
  | Some (Multi l) => <[tag := Multi (l ++ [val])]> cur
  | Some (Scalar s) => <[tag := Multi [s; val]]> cur
  | None => <[tag := Scalar val]> cur
  end.

(** [current_ref and 'TY' in current_ref] *)
Definition complete (cur : record) : bool :=
  bool_decide (cur ≠ ∅) && bool_decide (is_Some (cur !! "TY")).

(** One iteration of [for line in lines].  At an end marker the reset of
    [current_ref] sits under the test, next to the append. *)
Definition parse_line (st : parser_state) (raw : string) : parser_state :=
  let line := Py.strip raw in
  if String.eqb line EmptyString then st
  else if Py.startswith "ER" line then
    if complete (current_ref st)
    then {| references := references st ++ [current_ref st]; current_ref := ∅ |}
    else st
  else
    match Py.re_match line with
    | Some (tag, val) =>
        let val := Py.strip val in
        if negb (String.eqb val EmptyString) || String.eqb tag "TY"
        then {| references := references st;
                current_ref := store tag val (current_ref st) |}
        else st
    | None => st
    end.

(** The flush after the loop. *)
Definition parse_flush (st : parser_state) : list record :=
  if complete (current_ref st)
  then references st ++ [current_ref st]
  else references st.

Definition parse_ris_lines (lines : list string) : list record :=
  parse_flush (foldl parse_line {| references := []; current_ref := ∅ |} lines).

(** ** [convert_ris_to_csv]: the row construction *)

(** [ref.get(field, '')] followed by the join of a list value. *)
Definition cell_of (ref : record) (field : string) : string :=
  match ref !! field with
  | None => EmptyString
  | Some (Multi l) => Py.join ";" l
  | Some (Scalar s) => s
  end.

(** The inner loop: [row.append(value)] for every field. *)
Definition project_row (fields : list string) (ref : record) : row :=
  foldl (fun r field => r ++ [cell_of ref field]) [] fields.

(** The outer loop: one [writerow] per reference, after the header. *)
Definition project_rows (fields : list string) (refs : list record) : list row :=
  foldl (fun written ref => written ++ [project_row fields ref]) [] refs.

(** ** [csv.DictReader] *)

(** [dict(zip(fieldnames, row))], then [restval] for the names a short row
    leaves without a cell. *)
Definition dict_of_row (fieldnames : list string) (r : row) : dict_row :=
  foldl (fun d key => <[key := None]> d)
        (foldl (fun d kv => <[kv.1 := Some kv.2]> d) ∅ (zip fieldnames r))
        (drop (length r) fieldnames).

(** The rows the reader yields after the header: empty rows are skipped. *)
Definition dict_rows (fieldnames : list string) (body : list row) : list dict_row :=
  dict_of_row fieldnames <$> filter (fun r => r ≠ []) body.

(** ** The [csv] module: what is read back from what was written *)

(** The module writes its tables with [newline=''] and reads them in text
    mode: inside a cell CR LF and a lone CR come back as LF. *)
Fixpoint universal_newlines (s : string) : string :=
  match s with
  | EmptyString => EmptyString
  | String c s' =>
      if Ascii.eqb c "013" then
        match s' with
        | String "010" s'' => String "010" (universal_newlines s'')
        | _ => String "010" (universal_newlines s')
        end
      else String c (universal_newlines s')
  end.

(** [csv.field_size_limit()]: the reader refuses a longer cell. *)
Definition field_size_limit : N := 131072.

Definition oversized (c : string) : bool :=
  (field_size_limit <? N.of_nat (String.length c))%N.

(** The rows [csv.reader] yields from the rows [csv.writer] wrote, and
    whether it reaches the end: it stops at the first row with a cell over
    the limit. *)
Fixpoint read_back (rows : list row) : list row * bool :=
  match rows with
  | [] => ([], true)
  | r :: rows' =>
      let r' := universal_newlines <$> r in
      if existsb oversized r' then ([], false)
      else (r' :: (read_back rows').1, (read_back rows').2)
  end.

(** ** Files, diagnostics and effects *)

(** What a path holds: text; the rows [csv.reader] yields from a tabular
    file; a tabular file from which the reader yields [rows] and then
    refuses a cell over the field size limit; or a directory.  The encoding
    of the [csv] module is not modelled.  Opening a text file as a table, or
    a table as text, is an unreadable file. *)
Inductive file :=
| Text (content : string)
| Table (rows : list row)
| Broken (rows : list row)
| Dir.

(** The file [csv.writer] leaves after [writerow] for each of [rows], as
    [csv.reader] finds it. *)
Definition written (rows : list row) : file :=
  if (read_back rows).2 then Table (read_back rows).1
  else Broken (read_back rows).1.

Inductive exn :=
| FileNotFoundError (path : string)
| UnreadableFile (path : string)
| ValueError (msg : string)
| StopIteration
| TypeError
| KeyError (key : string)
| CsvError
| FileExistsError (path : string)
| IsADirectoryError (path : string)
| PermissionError (path : string).

(** The messages the module prints, one constructor per [print]. *)
Inductive diag :=
| SkippingInvalidRow (i : nat) (path : string) (r : row)
| EmptyTagWarning (i : nat) (path : string) (r : row)
| TYNotFound (keys : list string)
| LoadedKeys (keys : list string)
| ErrorLoading (path : string) (e : exn)
| CsvHeaderFields (output_csv : string) (fields : list string)
| TYMissingInHeader (output_csv : string)
| MissingTYValue (i : nat) (output_csv : string)
| ConvertedRis (ris_file output_csv : string)
| ErrorConvertingRis (ris_file output_csv : string) (e : exn)
| NoCsvFiles (csv_folder : string)
| HeaderMismatchWarning (csv_file : string) (expected got : list string)
| MergedFiles (n : nat) (merged_output_csv : string) (unique : nat)
| ErrorMerging (merged_output_csv : string) (e : exn)
| HeaderMismatchError (csv_file : string) (expected got : list string)
| SkippingReference (i : nat) (csv_file : string)
| ConvertedCsv (csv_file output_ris : string)
| ErrorConvertingCsv (csv_file output_ris : string) (e : exn)
| StandardsNotFound (standards_file : string)
| NoRisFiles (ris_folder : string)
| MergedNotFound (merged_output_csv : string).

Inductive event :=
| Print (d : diag)
| OpenRead (path : string)
| OpenWrite (path : string).

(** The file store and what the run did so far, oldest event first. *)
Record world := {
  fs : gmap string file;
  trace : list event
}.

Inductive result (A : Type) :=
| Ok (a : A)
| Raise (e : exn).
Arguments Ok {A} a.
Arguments Raise {A} e.

(** State and exceptions: a raise keeps the effects made before it. *)
Definition M (A : Type) : Type := world → result A * world.

Definition ret {A} (a : A) : M A := fun w => (Ok a, w).

Definition bind {A B} (m : M A) (k : A → M B) : M B :=
  fun w => match m w with
           | (Ok a, w') => k a w'
           | (Raise e, w') => (Raise e, w')
           end.

Notation "'let*' x ':=' m 'in' k" := (bind m (fun x => k))
  (at level 10, x name, m at level 100, k at level 200, only parsing).
Notation "m >> k" := (bind m (fun _ => k))
  (at level 100, k at level 200, right associativity, only parsing).

Definition raise {A} (e : exn) : M A := fun w => (Raise e, w).

(** [try: m except Exception as e: h e] *)
Definition try_except {A} (m : M A) (h : exn → M A) : M A :=
  fun w => match m w with
           | (Raise e, w') => h e w'
           | r => r
           end.

Definition emit (ev : event) : M unit :=
  fun w => (Ok tt, {| fs := fs w; trace := trace w ++ [ev] |}).

Definition print (d : diag) : M unit := emit (Print d).

(** A [csv.reader] over an open file: the rows it yields one by one, and
    the exception that ends the iteration when it does not end by itself. *)
Definition reader : Type := list row * option exn.

Definition lookup_table (path : string) : M reader :=
  fun w => match fs w !! path with
           | Some (Table rows) => (Ok (rows, None), w)
           | Some (Broken rows) => (Ok (rows, Some CsvError), w)
           | Some (Text _) => (Raise (UnreadableFile path), w)
           | Some Dir => (Raise (IsADirectoryError path), w)
           | None => (Raise (FileNotFoundError path), w)
           end.

Definition lookup_text (path : string) : M string :=
  fun w => match fs w !! path with
           | Some (Text s) => (Ok s, w)
           | Some (Table _) => (Raise (UnreadableFile path), w)
           | Some (Broken _) => (Raise (UnreadableFile path), w)
           | Some Dir => (Raise (IsADirectoryError path), w)
           | None => (Raise (FileNotFoundError path), w)
           end.

(** [open(path, 'r')] handed to [csv.reader], resp. read by [readlines]. *)
Definition read_table (path : string) : M reader :=
  emit (OpenRead path) >> lookup_table path.

Definition read_text (path : string) : M string :=
  emit (OpenRead path) >> lookup_text path.

(** The end of a loop over a reader: the exception the reader ends with. *)
Definition exhausted (err : option exn) : M unit :=
  match err with
  | Some e => raise e
  | None => ret tt
  end.

(** [f.write(s)] on a file opened for writing. *)
Definition write (path : string) (s : string) : M unit :=
  fun w => (Ok tt,
            {| fs := alter (fun f => match f with
                                     | Text c => Text (c +:+ s)
                                     | other => other
                                     end) path (fs w);
               trace := trace w |}).

(** [os.path.exists] *)
Definition exists_ (path : string) : M bool :=
  fun w => (Ok (bool_decide (is_Some (fs w !! path))), w).

(** [d[key]] *)
Definition getitem (d : dict_row) (key : string) : M (option string) :=
  match d !! key with
  | Some c => ret c
  | None => raise (KeyError key)
  end.

(** [for x in l: body x] *)
Fixpoint for_each {A} (l : list A) (body : A → M unit) : M unit :=
  match l with
  | [] => ret tt
  | x :: l' => body x >> for_each l' body
  end.

(** A loop that rebinds or mutates one local, [acc]. *)
Fixpoint fold_each {A S} (l : list A) (acc : S) (body : S → A → M S) : M S :=
  match l with
  | [] => ret acc
  | x :: l' => let* acc' := body acc x in fold_each l' acc' body
  end.

(** [enumerate(l, 1)] *)
Definition enumerate1 {A} (l : list A) : list (nat * A) :=
  zip (seq 1 (length l)) l.

(** ** [load_ris_standards] *)

Definition load_row (standards_file : string) (standards : schema)
    (ir : nat * row) : M schema :=
  let '(i, r) := ir in
  if bool_decide (r = []) || (length r <? 2) then
    print (SkippingInvalidRow i standards_file r) >> ret standards
  else
    let tag := Py.strip (nth 0 r EmptyString) in
    if negb (String.eqb tag EmptyString) then
      ret (<[tag := {| description := if 1 <? length r then nth 1 r EmptyString
                                      else EmptyString;
                       notes := if 3 <? length r then nth 3 r EmptyString
                                else EmptyString |}]> standards)
    else
      print (EmptyTagWarning i standards_file r) >> ret standards.

Definition load_ris_standards (standards_file : string) : M schema :=
  try_except
    (let* rd := read_table standards_file in
     let* standards := fold_each (enumerate1 rd.1) ∅ (load_row standards_file) in
     exhausted rd.2 >>
     if bool_decide (standards !! "TY" = None) then
       print (TYNotFound (fields_of standards)) >>
       raise (ValueError "TY field missing in RIS_stds.csv")
     else
       print (LoadedKeys (fields_of standards)) >>
       ret standards)
    (fun e => print (ErrorLoading standards_file e) >> raise e).

(** ** [parse_ris_file] *)

Definition parse_ris_file (ris_file : string) : M (list record) :=
  let* content := read_text ris_file in
  ret (parse_ris_lines (Py.readlines content)).

(** ** The platform

    What the operating system decides: [os.path.join], [Path(...).stem] and
    [glob.glob]; whether a path can be opened for writing and whether a
    missing folder can be created, each answered with the exception raised
    when it cannot (the store holds neither parent directories nor
    permissions); and what a [csv.reader] still yields, once the file it
    reads has been emptied under it, in place of the rows it had left. *)
Class Platform := {
  path_join : string → string → string;
  path_stem : string → string;
  os_glob : string → gmap string file → list string;
  os_open_w : string → gmap string file → option exn;
  os_mkdir : string → gmap string file → option exn;
  os_truncated : string → reader → reader
}.

Section Program.
Context `{Platform}.

(** The exception of [open(path, 'w')], if it raises one: a directory is
    never opened as a file, the platform decides for the rest. *)
Definition open_error (path : string) (files : gmap string file) : option exn :=
  match files !! path with
  | Some Dir => Some (IsADirectoryError path)
  | _ => os_open_w path files
  end.

(** [open(path, 'w')]: the file is created or emptied, unless the call
    raises.  A file that is open takes every write. *)
Definition open_write (path : string) (empty : file) : M unit :=
  fun w => match open_error path (fs w) with
           | Some e => (Raise e, w)
           | None => (Ok tt, {| fs := <[path := empty]> (fs w);
                                trace := trace w ++ [OpenWrite path] |})
           end.

(** [open(path, 'w', newline='')], [writerow] for each of [rows], close. *)
Definition write_table (path : string) (rows : list row) : M unit :=
  open_write path (written rows).

(** [os.makedirs(path, exist_ok=True)] *)
Definition makedirs (path : string) : M unit :=
  fun w => match fs w !! path with
           | Some Dir => (Ok tt, w)
           | Some _ => (Raise (FileExistsError path), w)
           | None =>
               match os_mkdir path (fs w) with
               | Some e => (Raise e, w)
               | None => (Ok tt, {| fs := <[path := Dir]> (fs w);
                                    trace := trace w |})
               end
           end.

Definition glob (pattern : string) : M (list string) :=
  fun w => (Ok (os_glob pattern (fs w)), w).

(** ** [convert_ris_to_csv] *)

Definition validate_row (output_csv : string) (id : nat * dict_row) : M unit :=
  let '(i, d) := id in
  let* ty := getitem d "TY" in
  if negb (truthy ty) then print (MissingTYValue i output_csv) else ret tt.

(** [reader.fieldnames] is [None] when the file has no row at all, and the
    membership test on it raises. *)
Definition convert_ris_to_csv (ris_file standards_file output_csv : string)
    : M unit :=
  try_except
    (let* standards := load_ris_standards standards_file in
     let* references := parse_ris_file ris_file in
     let fields := fields_of standards in
     print (CsvHeaderFields output_csv fields) >>
     write_table output_csv (fields :: project_rows fields references) >>
     let* rd := read_table output_csv in
     match rd.1 with
     | [] => raise (default TypeError rd.2)
     | fieldnames :: body =>
         if bool_decide ("TY" ∉ fieldnames) then
           print (TYMissingInHeader output_csv)
         else
           for_each (enumerate1 (dict_rows fieldnames body))
                    (validate_row output_csv) >>
           exhausted rd.2 >>
           print (ConvertedRis ris_file output_csv)
     end)
    (fun e => print (ErrorConvertingRis ris_file output_csv e)).

(** ** [merge_csv_files] *)

(** One iteration of [for csv_file in csv_files]; [unique_rows] is the
    set the loop fills. *)
Definition merge_source (fields : list string) (merged_output_csv : string)
    (unique_rows : gset row) (csv_file : string) : M (gset row) :=
  if String.eqb csv_file merged_output_csv then ret unique_rows
  else
    let* rd := read_table csv_file in
    match rd.1 with
    | [] => raise (default StopIteration rd.2)
    | header :: body =>
        if bool_decide (Py.sorted header ≠ fields) then
          print (HeaderMismatchWarning csv_file fields header) >>
          ret unique_rows
        else
          let unique_rows := foldl (fun u r => u ∪ {[ r ]}) unique_rows body in
          exhausted rd.2 >>
          ret unique_rows
    end.

(** The rows are written in the iteration order of the set, which
    [elements] fixes without saying which it is. *)
Definition merge_csv_files (csv_folder merged_output_csv standards_file : string)
    : M unit :=
  try_except
    (let* standards := load_ris_standards standards_file in
     let fields := fields_of standards in
     let* csv_files := glob (path_join csv_folder "*.csv") in
     if bool_decide (csv_files = []) then
       print (NoCsvFiles csv_folder)
     else
       let* unique_rows :=
         fold_each csv_files ∅ (merge_source fields merged_output_csv) in
       write_table merged_output_csv (fields :: elements unique_rows) >>
       print (MergedFiles (length csv_files) merged_output_csv
                          (size unique_rows)))
    (fun e => print (ErrorMerging merged_output_csv e)).

(** ** [convert_csv_to_ris] *)

(** A data line, two spaces before the dash. *)
Definition ris_line (tag val : string) : string :=
  tag +:+ "  - " +:+ val +:+ String "010" EmptyString.

(** A line feed, written twice after the end marker. *)
Definition er_block : string :=
  "ER  - " +:+ String "010" (String "010" EmptyString).

(** The body of [for field in fields]. *)
Definition write_field (multi_value : gset string) (output_ris : string)
    (d : dict_row) (field : string) : M unit :=
  if String.eqb field "TY" || String.eqb field "ER" then ret tt
  else
    let* c := getitem d field in
    match c with
    | Some s =>
        if String.eqb s EmptyString then ret tt
        else if bool_decide (field ∈ multi_value) then
          for_each (Py.split ";" s)
            (fun v => if negb (String.eqb (Py.strip v) EmptyString)
                      then write output_ris (ris_line field (Py.strip v))
                      else ret tt)
        else write output_ris (ris_line field s)
    | None => ret tt
    end.

(** The body of [for i, row in enumerate(reader, 1)]. *)
Definition write_reference (csv_file : string) (fields : list string)
    (multi_value : gset string) (output_ris : string)
    (id : nat * dict_row) : M unit :=
  let '(i, d) := id in
  let* ty := getitem d "TY" in
  match ty with
  | Some s =>
      if String.eqb s EmptyString then print (SkippingReference i csv_file)
      else
        write output_ris (ris_line "TY" s) >>
        for_each fields (write_field multi_value output_ris d) >>
        write output_ris er_block
  | None => print (SkippingReference i csv_file)
  end.

(** The rows after the header are read one by one while the output is
    open: when the output is the input itself, it has been emptied by then
    and the reader yields what the platform still gives it.  With no row at
    all [reader.fieldnames] is [None] and [sorted] raises. *)
Definition convert_csv_to_ris (csv_file standards_file output_ris : string)
    : M unit :=
  try_except
    (let* standards := load_ris_standards standards_file in
     let fields := fields_of standards in
     let multi_value := multi_value_fields standards in
     let* rd := read_table csv_file in
     match rd.1 with
     | [] => raise (default TypeError rd.2)
     | fieldnames :: body =>
         if bool_decide (Py.sorted fieldnames ≠ fields) then
           print (HeaderMismatchError csv_file fields fieldnames)
         else
           open_write output_ris (Text EmptyString) >>
           let rest := if String.eqb csv_file output_ris
                       then os_truncated csv_file (body, rd.2)
                       else (body, rd.2) in
           for_each (enumerate1 (dict_rows fieldnames rest.1))
                    (write_reference csv_file fields multi_value output_ris) >>
           exhausted rest.2 >>
           print (ConvertedCsv csv_file output_ris)
     end)
    (fun e => print (ErrorConvertingCsv csv_file output_ris e)).

(** ** [main] *)

Definition ris_folder : string := ".\RIS".
Definition standards_path : string := ".\RIS_stds.csv".
Definition csv_output_folder : string := ".\CSV".
Definition merged_csv_path : string := ".\merged_output.csv".
Definition merged_ris_path : string := ".\merged_output.ris".

(** The body of [for ris_file in ris_files]. *)
Definition convert_one (ris_file : string) : M unit :=
  let output_csv :=
    path_join csv_output_folder (path_stem ris_file +:+ ".csv") in
  convert_ris_to_csv ris_file standards_path output_csv.

(** The folder is created outside any handler: what [os.makedirs] raises
    leaves [main]. *)
Definition main : M unit :=
  makedirs csv_output_folder >>
  let* found := exists_ standards_path in
  if negb found then print (StandardsNotFound standards_path)
  else
    let* ris_files := glob (path_join ris_folder "*.ris") in
    if bool_decide (ris_files = []) then print (NoRisFiles ris_folder)
    else
      for_each ris_files convert_one >>
      merge_csv_files csv_output_folder merged_csv_path standards_path >>
      let* merged := exists_ merged_csv_path in
      if merged then
        convert_csv_to_ris merged_csv_path standards_path merged_ris_path
      else print (MergedNotFound merged_csv_path).

End Program.

(** ** Vocabulary of the statements *)

(** Truth value of a record value, as Python has it. *)
Definition value_nonempty (v : value) : Prop :=
  match v with
  | Scalar s => s ≠ EmptyString
  | Multi l => l ≠ []
  end.

(** What a tag holds after its values [vs] were stored in line order into a
    record that did not have it. *)
Definition pack (vs : list string) : option value :=
  match vs with
  | [] => None
  | [v] => Some (Scalar v)
  | _ => Some (Multi vs)
  end.

(** A raw line that is neither blank nor an end marker and matches the tag
    pattern with groups [tag] and, once trimmed, [val]. *)
Definition tag_line (raw : string) (p : string * string) : Prop :=
  Py.strip raw ≠ EmptyString
  ∧ Py.startswith "ER" (Py.strip raw) = false
  ∧ ∃ v0, Py.re_match (Py.strip raw) = Some (p.1, v0) ∧ p.2 = Py.strip v0.

(** The rule of the parser for keeping a pair. *)
Definition kept (p : string * string) : bool :=
  negb (String.eqb p.2 EmptyString) || String.eqb p.1 "TY".

(** The values kept for [tag] among [pairs], in order. *)
Definition values_of (tag : string) (pairs : list (string * string)) : list string :=
  (filter (fun p => p.1 = tag ∧ kept p = true) pairs).*2.

(** What one store does to the entry it finds. *)
Definition bump (o : option value) (val : string) : value :=
  match o with
  | Some (Multi l) => Multi (l ++ [val])
  | Some (Scalar s) => Multi [s; val]
  | None => Scalar val
  end.

(** The entry after storing [vs] one after the other. *)
Definition extend (o : option value) (vs : list string) : option value :=
  foldl (fun o v => Some (bump o v)) o vs.

(** [m] leaves every file as it is and adds only events that satisfy [P]. *)
Definition quiet {A} (P : event → Prop) (m : M A) : Prop :=
  ∀ w, fs (m w).2 = fs w
       ∧ ∃ evs, trace (m w).2 = trace w ++ evs ∧ Forall P evs.

(** The events of a call that touches no file but the schema source. *)
Definition schema_only (standards_file : string) (ev : event) : Prop :=
  match ev with
  | Print _ => True
  | OpenRead path => path = standards_file
  | OpenWrite _ => False
  end.

(** One row of the schema source, as [load_row] without its diagnostics. *)
Definition standards_step (standards : schema) (r : row) : schema :=
  if bool_decide (r = []) || (length r <? 2) then standards
  else
    let tag := Py.strip (nth 0 r EmptyString) in
    if negb (String.eqb tag EmptyString) then
      <[tag := {| description := if 1 <? length r then nth 1 r EmptyString
                                 else EmptyString;
                  notes := if 3 <? length r then nth 3 r EmptyString
                           else EmptyString |}]> standards
    else standards.

(** The schema the loop of [load_ris_standards] builds from [rows]. *)
Definition standards_of_rows (rows : list row) : schema :=
  foldl standards_step ∅ rows.

(** ** Vocabulary of the serializer *)

(** A tag line as the format has it: the tag, two spaces, a dash, one
    space, the value, a line feed. *)
Definition tag_text (tag val : string) : string :=
  tag +:+ "  - " +:+ val +:+ String "010" EmptyString.

(** The text of a sequence of written pieces. *)
Definition lines_text (l : list string) : string :=
  foldr String.append EmptyString l.

(** The string of a cell, empty for a missing one. *)
Definition cell (d : dict_row) (field : string) : string :=
  match d !! field with
  | Some (Some s) => s
  | _ => EmptyString
  end.

(** The columns that contribute lines after the [TY] line. *)
Definition emitted (d : dict_row) (field : string) : bool :=
  negb (String.eqb field "TY") && negb (String.eqb field "ER")
  && negb (String.eqb (cell d field) EmptyString).

(** The lines of one column: one per non-empty trimmed piece for a
    multi-value column, the cell as it is otherwise. *)
Definition field_lines (multi_value : gset string) (field s : string)
    : list string :=
  if bool_decide (field ∈ multi_value) then
    ris_line field <$> filter (fun p => p ≠ EmptyString)
                              (Py.strip <$> Py.split ";" s)
  else [ris_line field s].

(** The block of one row, line by line. *)
Definition block_lines (fields : list string) (multi_value : gset string)
    (d : dict_row) : list string :=
  [ris_line "TY" (cell d "TY")]
  ++ concat ((fun field => field_lines multi_value field (cell d field))
               <$> filter (fun field => emitted d field = true) fields)
  ++ [ris_line "ER" EmptyString; String "010" EmptyString].

(** The text [convert_csv_to_ris] writes for the rows [ds]. *)
Definition ris_text (fields : list string) (multi_value : gset string)
    (ds : list dict_row) : string :=
  lines_text (lines_text ∘ block_lines fields multi_value
                <$> filter (fun d => cell d "TY" ≠ EmptyString) ds).

(** A world whose file [out] holds the text [t]. *)
Definition with_text (base : gmap string file) (tr : list event)
    (out t : string) : world :=
  {| fs := <[out := Text t]> base; trace := tr |}.

(** ** Vocabulary of the merger *)

(** What one iteration of the source loop returns and adds to the trace,
    from the file found at [csv_file]. *)
Definition merge_outcome (fields : list string) (merged_output_csv : string)
    (unique_rows : gset row) (csv_file : string) (found : option file)
    : result (gset row) * list event :=
  if String.eqb csv_file merged_output_csv then (Ok unique_rows, [])
  else
    match found with
    | Some (Table (header :: body)) =>
        if bool_decide (Py.sorted header ≠ fields)
        then (Ok unique_rows,
              [OpenRead csv_file;
               Print (HeaderMismatchWarning csv_file fields header)])
        else (Ok (foldl (fun u r => u ∪ {[ r ]}) unique_rows body),
              [OpenRead csv_file])
    | Some (Table []) => (Raise StopIteration, [OpenRead csv_file])
    | Some (Broken (header :: body)) =>
        if bool_decide (Py.sorted header ≠ fields)
        then (Ok unique_rows,
              [OpenRead csv_file;
               Print (HeaderMismatchWarning csv_file fields header)])
        else (Raise CsvError, [OpenRead csv_file])
    | Some (Broken []) => (Raise CsvError, [OpenRead csv_file])
    | Some (Text _) => (Raise (UnreadableFile csv_file), [OpenRead csv_file])
    | Some Dir => (Raise (IsADirectoryError csv_file), [OpenRead csv_file])
    | None => (Raise (FileNotFoundError csv_file), [OpenRead csv_file])
    end.

(** A source the merger reads and accepts. *)
Definition accepted_source (fields : list string) (merged_output_csv : string)
    (w : world) (csv_file : string) (body : list row) : Prop :=
  csv_file ≠ merged_output_csv
  ∧ ∃ header, fs w !! csv_file = Some (Table (header :: body))
              ∧ header ≡ₚ fields.

(** ** Vocabulary of the orchestration *)

(** The folder at [path] exists, or is missing and can be created: the two
    cases in which [os.makedirs(path, exist_ok=True)] returns. *)
Definition folder_ready `{Platform} (path : string) (files : gmap string file)
    : Prop :=
  files !! path = Some Dir ∨ (files !! path = None ∧ os_mkdir path files = None).

(** A run that stops at the first conversion that fails: nothing follows the
    report of that failure. *)
Definition halted_at_first_failure (t : list event) : Prop :=
  ∀ pre post ris_file output_csv e,
    t = pre ++ Print (ErrorConvertingRis ris_file output_csv e) :: post →
    post = [].

(** A platform for the examples: backslash-separated paths, patterns whose
    only wildcard is a star that stops at a separator, names listed in
    sorted order; every path can be opened for writing and every folder
    created; a reader whose file is emptied under it yields nothing more. *)
Fixpoint wild (pattern s : string) : bool :=
  match pattern with
  | EmptyString => String.eqb s EmptyString
  | String p pattern' =>
      if Ascii.eqb p "*" then
        (fix star (s : string) : bool :=
           wild pattern' s
           || match s with
              | EmptyString => false
              | String c s' => negb (Ascii.eqb c "\") && star s'
              end) s
      else
        match s with
        | String c s' => Ascii.eqb c p && wild pattern' s'
        | EmptyString => false
        end
  end.

Fixpoint before_first (sep : ascii) (s : string) : string :=
  match s with
  | EmptyString => EmptyString
  | String c s' =>
      if Ascii.eqb c sep then EmptyString else String c (before_first sep s')
  end.

Fixpoint after_first (sep : ascii) (s : string) : option string :=
  match s with
  | EmptyString => None
  | String c s' => if Ascii.eqb c sep then Some s' else after_first sep s'
  end.

Definition sample_stem (path : string) : string :=
  let name := String.rev (before_first "\" (String.rev path)) in
  match after_first "." (String.rev name) with
  | Some rest =>
      if String.eqb rest EmptyString then name else String.rev rest
  | None => name
  end.

Definition sample_platform : Platform := {|
  path_join a b := a +:+ "\" +:+ b;
  path_stem := sample_stem;
  os_glob pattern files :=
    filter (fun path => wild pattern path = true)
           (Py.sorted (map_to_list files).*1);
  os_open_w _ _ := None;
  os_mkdir _ _ := None;
  os_truncated _ _ := ([], None)
|}.

(** ** Vocabulary of the tables written *)

(** No carriage return inside. *)
Fixpoint no_cr (s : string) : bool :=
  match s with
  | EmptyString => true
  | String c s' => negb (Ascii.eqb c "013") && no_cr s'
  end.

(** A cell the [csv] module gives back as it was written: no carriage
    return, and not over the field size limit. *)
Definition plain (c : string) : bool := no_cr c && negb (oversized c).

(** A table of such cells. *)
Definition plain_table (rows : list row) : Prop :=
  Forall (Forall (fun c => plain c = true)) rows.

(** ** Vocabulary of the round trip *)

(** No line break inside. *)
Fixpoint single_line (s : string) : bool :=
  match s with
  | EmptyString => true
  | String c s' =>
      negb (Ascii.eqb c "010") && negb (Ascii.eqb c "013") && single_line s'
  end.

(** No semicolon inside. *)
Fixpoint no_semicolon (s : string) : bool :=
  match s with
  | EmptyString => true
  | String c s' => negb (Ascii.eqb c ";") && no_semicolon s'
  end.

(** A value as the parser stores it from a file: not empty, trimmed, on one
    line. *)
Definition clean (s : string) : bool :=
  negb (String.eqb s EmptyString)
  && String.eqb (Py.lstrip s) s && String.eqb (Py.rstrip s) s
  && single_line s.

(** A tag the pattern of the parser matches. *)
Definition is_tag (t : string) : bool :=
  match t with
  | String c1 (String c2 EmptyString) => Py.is_tag_char c1 && Py.is_tag_char c2
  | _ => false
  end.

(** A value the serializer writes back as it was stored: a string, free of
    semicolons under a multi-value tag, or a list of two or more such strings
    under a multi-value tag. *)
Definition value_ready (multi : bool) (v : value) : bool :=
  match v with
  | Scalar s => clean s && (negb multi || no_semicolon s)
  | Multi l =>
      multi && (2 <=? length l)
      && forallb (fun s => clean s && no_semicolon s) l
  end.

(** A record the round trip gives back: one non-empty [TY] value, and under
    every other tag, which the schema has and the parser can read, a value
    the serializer writes back as it was stored. *)
Definition ready (standards : schema) (ref : record) : Prop :=
  (∃ ty, ref !! "TY" = Some (Scalar ty) ∧ clean ty = true)
  ∧ map_Forall (fun tag v =>
        is_tag tag = true ∧ tag ≠ "ER" ∧ is_Some (standards !! tag)
        ∧ (tag ≠ "TY"
           → value_ready (bool_decide (tag ∈ multi_value_fields standards)) v
             = true))
      ref.

(** The values under an entry, in order. *)
Definition vals (o : option value) : list string :=
  match o with
  | None => []
  | Some (Scalar s) => [s]
  | Some (Multi l) => l
  end.

(** The (tag, value) pairs of a record after its [TY] line, in the order of
    [fields]. *)
Definition entries (fields : list string) (ref : record)
    : list (string * string) :=
  concat ((fun field => (fun v => (field, v)) <$> vals (ref !! field))
            <$> filter (fun field => field ≠ "TY" ∧ field ≠ "ER") fields).

(** Project the records under the schema of [srows] and write the table,
    serialize it and parse the text again, on a store of its own in which
    every path can be written.  The output path holds an empty file before
    the run: what is parsed at the end is what the serializer wrote. *)
Definition round_trip (srows : list row) (refs : list record)
    : result (list record) :=
  let fields := fields_of (standards_of_rows srows) in
  let w := {| fs := {[ "stds.csv" := Table srows; "out.ris" := Text EmptyString ]};
              trace := [] |} in
  let w := (@write_table sample_platform "rows.csv"
              (fields :: project_rows fields refs) w).2 in
  (parse_ris_file "out.ris"
     (@convert_csv_to_ris sample_platform "rows.csv" "stds.csv" "out.ris" w).2).1.

(** Equal up to the order of the values under a tag. *)
Definition same_up_to_order (refs refs' : list record) : Prop :=
  Forall2 (fun r r' : record =>
             ∀ tag, match r !! tag, r' !! tag with
                    | None, None => True
                    | Some (Scalar a), Some (Scalar b) => a = b
                    | Some (Multi l), Some (Multi k) => l ≡ₚ k
                    | _, _ => False
                    end)
          refs refs'.

(** ** Vocabulary of the further properties *)

(** A row of the schema source that declares [tag]: at least two cells, the
    first of which trims to [tag]. *)
Definition declares (tag : string) (r : row) : Prop :=
  2 ≤ length r ∧ Py.strip (nth 0 r EmptyString) = tag.

Global Instance declares_dec tag r : Decision (declares tag r).
Proof. unfold declares. apply _. Defined.

(** The descriptor [load_ris_standards] takes from a declaring row: a cell
    the row does not have reads as the empty string. *)
Definition info_of (r : row) : info :=
  {| description := nth 1 r EmptyString; notes := nth 3 r EmptyString |}.


(** A string that [strip] leaves as it is. *)
Definition trimmed (s : string) : Prop := Py.strip s = s.

(** A value as the parser can have stored it under [tag]: trimmed strings,
    empty only under [TY], and a list only with two or more of them. *)
Definition stored_ok (tag : string) (v : value) : Prop :=
  match v with
  | Scalar s => trimmed s ∧ (s ≠ EmptyString ∨ tag = "TY")
  | Multi l =>
      2 ≤ length l
      ∧ Forall (fun s => trimmed s ∧ (s ≠ EmptyString ∨ tag = "TY")) l
  end.

(** A record as the parser can have built it. *)
Definition record_ok (r : record) : Prop :=
  map_Forall (fun tag v => is_tag tag = true ∧ tag ≠ "ER" ∧ stored_ok tag v) r.

(** The positions, counted from [n], of the elements of [l] that pass
    [test]. *)
Fixpoint flagged {A} (test : A → bool) (n : nat) (l : list A) : list nat :=
  match l with
  | [] => []
  | x :: l' => (if test x then [n] else []) ++ flagged test (S n) l'
  end.

(** [m] leaves every file other than [out] as it is. *)
Definition touches_only {A} (out : string) (m : M A) : Prop :=
  ∀ w path, path ≠ out → fs (m w).2 !! path = fs w !! path.

(** * Properties *)

(** ** The parser *)

Section Parser.
Implicit Types (cur : record) (st : parser_state) (tag val : string).

Lemma store_lookup tag val cur t :
  store tag val cur !! t
  = if decide (t = tag) then Some (bump (cur !! tag) val) else cur !! t.
Proof.
  unfold store, bump.
  destruct (cur !! tag) as [[s|l]|] eqn:E; case_decide; subst;
    rewrite ?lookup_insert_eq, ?lookup_insert_ne by done; done.
Qed.

Lemma store_changes tag val cur : store tag val cur ≠ cur.
Proof.
  intros Heq. assert (Hl : store tag val cur !! tag = cur !! tag) by by rewrite Heq.
  rewrite store_lookup, decide_True in Hl by done.
  destruct (cur !! tag) as [[s|l]|]; simplify_eq/=.
  assert (Hlen : length (l ++ [val]) = length l) by congruence.
  rewrite length_app in Hlen. simpl in Hlen. lia.
Qed.

Lemma extend_multi l vs : extend (Some (Multi l)) vs = Some (Multi (l ++ vs)).
Proof.
  revert l. induction vs as [|v vs IH]; intros l; simpl.
  - by rewrite app_nil_r.
  - rewrite IH. by rewrite <- app_assoc.
Qed.

Lemma extend_none vs : extend None vs = pack vs.
Proof.
  destruct vs as [|v1 [|v2 vs]]; try done.
  simpl. apply (extend_multi [v1; v2] vs).
Qed.

Lemma store_all_lookup (pairs : list (string * string)) cur t :
  foldl (fun c p => store p.1 p.2 c) cur pairs !! t
  = extend (cur !! t) (filter (fun p => p.1 = t) pairs).*2.
Proof.
  revert cur. induction pairs as [|[tag val] pairs IH]; intros cur; [done|].
  simpl. rewrite IH, store_lookup, filter_cons. simpl.
  destruct (decide (tag = t)) as [->|Hne].
  - by rewrite decide_True.
  - rewrite decide_False; [done|congruence].
Qed.

Lemma parse_line_tag st raw p :
  tag_line raw p →
  parse_line st raw
  = if kept p
    then {| references := references st;
            current_ref := store p.1 p.2 (current_ref st) |}
    else st.
Proof.
  intros (Hne & Her & v0 & Hm & Hv). unfold parse_line, kept.
  destruct (String.eqb_spec (Py.strip raw) EmptyString) as [|_]; [done|].
  rewrite Her, Hm. by rewrite <- Hv.
Qed.

Lemma parse_lines_tags (lines : list string) pairs st :
  Forall2 tag_line lines pairs →
  foldl parse_line st lines
  = {| references := references st;
       current_ref := foldl (fun c p => store p.1 p.2 c) (current_ref st)
                            (filter (fun p => kept p = true) pairs) |}.
Proof.
  intros HF. revert st. induction HF as [|raw p lines pairs Hl _ IH]; intros st.
  - by destruct st.
  - simpl. rewrite IH, (parse_line_tag _ _ _ Hl), filter_cons.
    destruct (kept p) eqn:Hk.
    + by rewrite decide_True.
    + by rewrite decide_False.
Qed.

Lemma complete_TY cur : complete cur = true → is_Some (cur !! "TY").
Proof.
  unfold complete. intros [_ H]%andb_prop. by apply bool_decide_eq_true in H.
Qed.

Lemma parse_line_references st raw :
  Forall (fun r => is_Some (r !! "TY")) (references st) →
  Forall (fun r => is_Some (r !! "TY")) (references (parse_line st raw)).
Proof.
  intros HF. unfold parse_line.
  repeat (case_match; simpl; try done).
  apply Forall_app; split; [done|]. apply Forall_singleton. by apply complete_TY.
Qed.

Lemma parse_loop_references lines st :
  Forall (fun r => is_Some (r !! "TY")) (references st) →
  Forall (fun r => is_Some (r !! "TY")) (references (foldl parse_line st lines)).
Proof.
  revert st. induction lines as [|raw lines IH]; intros st HF; [done|].
  simpl. by apply IH, parse_line_references.
Qed.

End Parser.

Ltac tag_line_tac :=
  split; [vm_compute; discriminate
         |split; [vm_compute; reflexivity | eexists; split; reflexivity]].

(** C3, as the code has it: every record [parse_ris_file] returns, whether
    appended at an end marker or flushed at the end of the input, has a
    [TY] entry; the entry may hold the empty string. *)
Theorem parsed_records_have_TY (lines : list string) :
  Forall (fun r : record => is_Some (r !! "TY")) (parse_ris_lines lines).
Proof.
  unfold parse_ris_lines, parse_flush.
  pose proof (parse_loop_references lines {| references := []; current_ref := ∅ |}
                (Forall_nil_2 _)) as HF.
  case_match; [|done].
  apply Forall_app; split; [done|]. apply Forall_singleton. by apply complete_TY.
Qed.

(** C3, as stated, fails: a [TY] line with no value followed by an end
    marker yields a record whose [TY] entry is the empty string. *)
Lemma empty_TY_record_is_emitted :
  ¬ Forall (fun r : record => ∃ v, r !! "TY" = Some v ∧ value_nonempty v)
           (parse_ris_lines ["TY  - "; "ER  - "]).
Proof.
  assert (parse_ris_lines ["TY  - "; "ER  - "] = [ {[ "TY" := Scalar "" ]} ]) as ->
    by (vm_compute; reflexivity).
  intros [(v & Hv & Hne) _]%Forall_cons.
  rewrite lookup_singleton_eq in Hv. by simplify_eq.
Qed.

(** An end marker met while the in-progress record has no [TY] entry leaves
    the parser as it is: the record is neither emitted nor emptied. *)
Lemma end_marker_without_TY (st : parser_state) (raw : string) :
  Py.strip raw ≠ EmptyString →
  Py.startswith "ER" (Py.strip raw) = true →
  complete (current_ref st) = false →
  parse_line st raw = st.
Proof.
  intros Hne Her Hc. unfold parse_line.
  destruct (String.eqb_spec (Py.strip raw) EmptyString); [done|].
  by rewrite Her, Hc.
Qed.

(** C4 on the code: the entries of a record that reaches its end marker
    without [TY] stay in the in-progress record and end up in the next
    record. *)
Lemma entries_without_TY_carry_over :
  parse_ris_lines ["AU  - X"; "ER  - "; "TY  - JOUR"; "ER  - "]
  = [ {[ "AU" := Scalar "X"; "TY" := Scalar "JOUR" ]} ].
Proof. vm_compute. reflexivity. Qed.

(** C5: a line that is neither blank nor an end marker and matches the tag
    pattern changes the in-progress record exactly when its trimmed value is
    non-empty or its tag is [TY]; over a run of such lines no record is
    emitted, and a tag the record did not have ends up with the kept values
    in line order: one value as a string, two or more as a list. *)
Theorem tag_lines_are_stored (lines : list string)
    (pairs : list (string * string)) (st : parser_state) :
  Forall2 tag_line lines pairs →
  (∀ raw p, tag_line raw p →
     current_ref (parse_line st raw) ≠ current_ref st ↔ kept p = true)
  ∧ references (foldl parse_line st lines) = references st
  ∧ ∀ tag, current_ref st !! tag = None →
      current_ref (foldl parse_line st lines) !! tag = pack (values_of tag pairs).
Proof.
  intros HF. split; [|split].
  - intros raw p Hl. rewrite (parse_line_tag _ _ _ Hl).
    destruct (kept p); simpl; split; try done.
    intros _. apply store_changes.
  - by rewrite (parse_lines_tags _ _ _ HF).
  - intros tag Hnone. rewrite (parse_lines_tags _ _ _ HF). simpl.
    rewrite store_all_lookup, Hnone, extend_none. unfold values_of.
    f_equal. f_equal. by rewrite list_filter_filter.
Qed.

Lemma tag_lines_are_stored_witness :
  current_ref (foldl parse_line {| references := []; current_ref := ∅ |}
                 ["TY  - JOUR"; "AU  - Smith, J"; "N1  -"; "AU  - Doe, A"])
    !! "AU"
  = Some (Multi ["Smith, J"; "Doe, A"]).
Proof.
  apply (tag_lines_are_stored
           ["TY  - JOUR"; "AU  - Smith, J"; "N1  -"; "AU  - Doe, A"]
           [("TY", "JOUR"); ("AU", "Smith, J"); ("N1", ""); ("AU", "Doe, A")]
           {| references := []; current_ref := ∅ |}).
  - repeat (constructor; [tag_line_tac|]). constructor.
  - reflexivity.
Defined.

(** ** Canonical columns and the row construction *)

Section Columns.
Implicit Types (standards : schema) (l k : list string).

Lemma sorted_Sorted l : Sorted String.le (Py.sorted l).
Proof. apply (Sorted_merge_sort String.le). Qed.

Lemma sorted_Permutation l : Py.sorted l ≡ₚ l.
Proof. apply (merge_sort_Permutation String.le). Qed.

Lemma sorted_eq_iff l k : Py.sorted l = Py.sorted k ↔ l ≡ₚ k.
Proof.
  split.
  - intros Heq. rewrite <- (sorted_Permutation l), <- (sorted_Permutation k).
    by rewrite Heq.
  - intros Hp. apply (Sorted_unique String.le); try apply sorted_Sorted.
    by rewrite !sorted_Permutation.
Qed.

Lemma fields_of_elem standards t :
  t ∈ fields_of standards ↔ is_Some (standards !! t).
Proof.
  unfold fields_of. rewrite sorted_Permutation, list_elem_of_fmap. split.
  - intros ([t' i] & -> & Hin). apply elem_of_map_to_list in Hin. by eexists.
  - intros [i Hi]. exists (t, i). split; [done|]. by apply elem_of_map_to_list.
Qed.

Lemma fields_of_NoDup standards : NoDup (fields_of standards).
Proof.
  unfold fields_of. rewrite sorted_Permutation. apply NoDup_fst_map_to_list.
Qed.

(** The header test of the merger and of the serializer. *)
Lemma header_accepted_iff standards header :
  Py.sorted header = fields_of standards ↔ header ≡ₚ fields_of standards.
Proof.
  unfold fields_of at 1. rewrite sorted_eq_iff.
  by rewrite <- (sorted_Permutation (map_to_list standards).*1) at 1.
Qed.

Lemma foldl_snoc_map {A B} (f : A → B) (l : list A) (acc : list B) :
  foldl (fun r x => r ++ [f x]) acc l = acc ++ map f l.
Proof.
  revert acc. induction l as [|x l IH]; intros acc; simpl.
  - by rewrite app_nil_r.
  - rewrite IH. by rewrite <- app_assoc.
Qed.

Lemma project_row_map fields (ref : record) :
  project_row fields ref = map (cell_of ref) fields.
Proof. unfold project_row. by rewrite foldl_snoc_map. Qed.

Lemma project_rows_map fields (refs : list record) :
  project_rows fields refs = map (fun ref => map (cell_of ref) fields) refs.
Proof.
  unfold project_rows. rewrite foldl_snoc_map. simpl.
  apply map_ext. intros ref. apply project_row_map.
Qed.

End Columns.

(** ** Effects: what a call may touch *)

Section Quiet.
Context (P : event → Prop).

Lemma quiet_ret {A} (a : A) : quiet P (ret a).
Proof. intros w. split; [done|]. exists []. by rewrite app_nil_r. Qed.

Lemma quiet_raise {A} e : quiet P (@raise A e).
Proof. intros w. split; [done|]. exists []. by rewrite app_nil_r. Qed.

Lemma quiet_emit ev : P ev → quiet P (emit ev).
Proof. intros HP w. split; [done|]. exists [ev]. by split; [|constructor]. Qed.

Lemma quiet_print d : (∀ d', P (Print d')) → quiet P (print d).
Proof. intros HP. by apply quiet_emit. Qed.

Lemma quiet_bind {A B} (m : M A) (k : A → M B) :
  quiet P m → (∀ a, quiet P (k a)) → quiet P (bind m k).
Proof.
  intros Hm Hk w. destruct (Hm w) as (Hfs & evs & Htr & HP).
  unfold bind. destruct (m w) as [[a|e] w1]; simpl in *.
  - destruct (Hk a w1) as (Hfs' & evs' & Htr' & HP').
    split; [congruence|]. exists (evs ++ evs').
    rewrite Htr', Htr, app_assoc. split; [done|]. by apply Forall_app.
  - split; [done|]. by exists evs.
Qed.

Lemma quiet_try {A} (m : M A) (h : exn → M A) :
  quiet P m → (∀ e, quiet P (h e)) → quiet P (try_except m h).
Proof.
  intros Hm Hh w. destruct (Hm w) as (Hfs & evs & Htr & HP).
  unfold try_except. destruct (m w) as [[a|e] w1]; simpl in *.
  - split; [done|]. by exists evs.
  - destruct (Hh e w1) as (Hfs' & evs' & Htr' & HP').
    split; [congruence|]. exists (evs ++ evs').
    rewrite Htr', Htr, app_assoc. split; [done|]. by apply Forall_app.
Qed.

Lemma quiet_for_each {A} (l : list A) (body : A → M unit) :
  (∀ x, quiet P (body x)) → quiet P (for_each l body).
Proof.
  intros Hb. induction l as [|x l IH]; simpl.
  - apply quiet_ret.
  - by apply quiet_bind.
Qed.

Lemma quiet_fold_each {A S} (l : list A) (acc : S) (body : S → A → M S) :
  (∀ s x, quiet P (body s x)) → quiet P (fold_each l acc body).
Proof.
  intros Hb. revert acc. induction l as [|x l IH]; intros acc; simpl.
  - apply quiet_ret.
  - by apply quiet_bind.
Qed.

Lemma quiet_lookup_table path : quiet P (lookup_table path).
Proof.
  intros w. unfold lookup_table.
  destruct (fs w !! path) as [[c|rows|rows|]|]; simpl;
    (split; [done|]; exists []; by rewrite app_nil_r).
Qed.

Lemma quiet_read_table path : P (OpenRead path) → quiet P (read_table path).
Proof.
  intros HP. apply quiet_bind; [by apply quiet_emit|].
  intros _. apply quiet_lookup_table.
Qed.

Lemma quiet_exhausted err : quiet P (exhausted err).
Proof. destruct err; [apply quiet_raise|apply quiet_ret]. Qed.

Lemma quiet_getitem d key : quiet P (getitem d key).
Proof.
  unfold getitem. destruct (d !! key); [apply quiet_ret|apply quiet_raise].
Qed.

End Quiet.

(** ** [load_ris_standards] *)

Section Loader.
Implicit Types (rows : list row) (w : world).

Lemma load_row_quiet f standards ir : quiet (schema_only f) (load_row f standards ir).
Proof.
  destruct ir as [i r]. unfold load_row.
  repeat case_match;
    repeat first [apply quiet_bind; [|intros ?] | by apply quiet_print | apply quiet_ret].
Qed.

Lemma load_quiet f : quiet (schema_only f) (load_ris_standards f).
Proof.
  unfold load_ris_standards. apply quiet_try.
  - apply quiet_bind; [by apply quiet_read_table|]. intros rd.
    apply quiet_bind; [apply quiet_fold_each, load_row_quiet|]. intros standards.
    apply quiet_bind; [apply quiet_exhausted|]. intros _.
    case_match;
      repeat first [apply quiet_bind; [|intros ?] | by apply quiet_print
                   | apply quiet_ret | apply quiet_raise].
  - intros e. apply quiet_bind; [by apply quiet_print|]. intros _. apply quiet_raise.
Qed.

(** The value of the loop over the rows. *)
Lemma load_rows_value f rows n acc w :
  (fold_each (zip (seq n (length rows)) rows) acc (load_row f) w).1
  = Ok (foldl standards_step acc rows).
Proof.
  revert n acc w. induction rows as [|r rows IH]; intros n acc w; [done|].
  simpl. unfold standards_step at 2.
  destruct (bool_decide (r = []) || (length r <? 2));
    [|destruct (negb (String.eqb (Py.strip (nth 0 r EmptyString)) EmptyString))];
    unfold bind at 1; simpl; apply IH.
Qed.

(** The outcome of a load depends on the rows of the schema source only. *)
Lemma load_value f rows w :
  fs w !! f = Some (Table rows) →
  (load_ris_standards f w).1
  = if bool_decide (standards_of_rows rows !! "TY" = None)
    then Raise (ValueError "TY field missing in RIS_stds.csv")
    else Ok (standards_of_rows rows).
Proof.
  intros Hf. unfold load_ris_standards, try_except, read_table.
  unfold bind at 1. unfold bind at 1. simpl. unfold lookup_table. simpl. rewrite Hf.
  unfold bind at 1. cbn [fst snd].
  pose proof (load_rows_value f rows 1 ∅
    {| fs := fs w; trace := trace w ++ [OpenRead f] |}) as Hv.
  unfold enumerate1.
  destruct (fold_each _ _ _ _) as [[s|e] w1]; simpl in Hv; [|done].
  injection Hv as ->. fold (standards_of_rows rows).
  by destruct (bool_decide (standards_of_rows rows !! "TY" = None)).
Qed.

End Loader.

(** ** The serializer *)

Section Strings.
Implicit Types (s t u : string) (c : ascii).

Lemma app_cons c s t : String c s +:+ t = String c (s +:+ t).
Proof. reflexivity. Qed.

Lemma app_empty_l s : EmptyString +:+ s = s.
Proof. reflexivity. Qed.

Lemma app_empty_r s : s +:+ EmptyString = s.
Proof. induction s as [|c s IH]; [done|]. by rewrite app_cons, IH. Qed.

Lemma app_assoc_str s t u : (s +:+ t) +:+ u = s +:+ (t +:+ u).
Proof. induction s as [|c s IH]; [done|]. by rewrite !app_cons, IH. Qed.

Lemma lines_text_app (l k : list string) :
  lines_text (l ++ k) = lines_text l +:+ lines_text k.
Proof.
  induction l as [|s l IH]; [done|]. simpl. by rewrite IH, app_assoc_str.
Qed.

Lemma lines_text_concat (ls : list (list string)) :
  lines_text (concat ls) = lines_text (lines_text <$> ls).
Proof.
  induction ls as [|l ls IH]; [done|]. simpl. by rewrite lines_text_app, IH.
Qed.

End Strings.

Section Serializer.
Context (multi_value : gset string) (out : string).
Implicit Types (base : gmap string file) (tr : list event) (d : dict_row).
Local Arguments write : simpl never.
Local Arguments print : simpl never.
Local Arguments with_text : simpl never.

Lemma for_each_cons {A} (x : A) l (body : A → M unit) :
  for_each (x :: l) body = bind (body x) (fun _ => for_each l body).
Proof. reflexivity. Qed.

Lemma bind_run {A B} (m : M A) (k : A → M B) w :
  bind m k w = match m w with
               | (Ok a, w') => k a w'
               | (Raise e, w') => (Raise e, w')
               end.
Proof. reflexivity. Qed.

Lemma with_text_id w t :
  fs w !! out = Some (Text t) → w = with_text (fs w) (trace w) out t.
Proof. intros Hf. destruct w as [f tr]. unfold with_text. simpl in *. by rewrite insert_id. Qed.

Lemma write_run base tr t s :
  write out s (with_text base tr out t) = (Ok tt, with_text base tr out (t +:+ s)).
Proof.
  unfold write, with_text. simpl. f_equal. f_equal.
  by rewrite alter_insert_eq.
Qed.

Lemma print_run base tr t dg :
  print dg (with_text base tr out t) = (Ok tt, with_text base (tr ++ [Print dg]) out t).
Proof. reflexivity. Qed.

Lemma write_pieces_run field (pieces : list string) base tr t :
  for_each pieces
    (fun v => if negb (String.eqb (Py.strip v) EmptyString)
              then write out (ris_line field (Py.strip v))
              else ret tt)
    (with_text base tr out t)
  = (Ok tt, with_text base tr out
              (t +:+ lines_text (ris_line field
                       <$> filter (fun p => p ≠ EmptyString) (Py.strip <$> pieces)))).
Proof.
  revert t. induction pieces as [|v pieces IH]; intros t.
  - simpl. by rewrite app_empty_r.
  - rewrite for_each_cons, bind_run, fmap_cons, filter_cons.
    destruct (String.eqb_spec (Py.strip v) EmptyString) as [He|Hne]; cbn [negb].
    + rewrite decide_False by (by intros ?). apply IH.
    + rewrite decide_True by done. rewrite write_run, IH, fmap_cons.
      cbn [lines_text foldr]. by rewrite app_assoc_str.
Qed.

Lemma write_field_run d field base tr t :
  is_Some (d !! field) ∨ field = "TY" ∨ field = "ER" →
  write_field multi_value out d field (with_text base tr out t)
  = (Ok tt, with_text base tr out
              (t +:+ lines_text (if emitted d field
                                 then field_lines multi_value field (cell d field)
                                 else []))).
Proof.
  intros Hk. unfold write_field, emitted, cell.
  destruct (String.eqb field "TY" || String.eqb field "ER") eqn:Hte.
  - replace (negb (String.eqb field "TY") && negb (String.eqb field "ER")) with false
      by (by destruct (String.eqb field "TY"), (String.eqb field "ER")).
    cbn [andb lines_text foldr]. by rewrite app_empty_r.
  - apply orb_false_elim in Hte as [Ht He]. rewrite Ht, He. cbn [negb andb].
    destruct Hk as [[c Hc]|[->| ->]]; [|done..].
    rewrite bind_run. unfold getitem. rewrite Hc. destruct c as [s|]; cbn [ret].
    + destruct (String.eqb_spec s EmptyString) as [->|Hne]; cbn [negb].
      * cbn [lines_text foldr]. by rewrite app_empty_r.
      * unfold field_lines. case_bool_decide.
        -- apply write_pieces_run.
        -- rewrite write_run. cbn [lines_text foldr]. by rewrite app_empty_r.
    + cbn [lines_text foldr]. by rewrite app_empty_r.
Qed.

Lemma write_fields_run d (fields : list string) base tr t :
  (∀ field, field ∈ fields → is_Some (d !! field)) →
  for_each fields (write_field multi_value out d) (with_text base tr out t)
  = (Ok tt, with_text base tr out
              (t +:+ lines_text
                 (concat ((fun field => field_lines multi_value field (cell d field))
                            <$> filter (fun field => emitted d field = true) fields)))).
Proof.
  revert t. induction fields as [|field fields IH]; intros t Hk.
  - simpl. by rewrite app_empty_r.
  - rewrite for_each_cons, bind_run, write_field_run by (left; apply Hk; left).
    rewrite IH by (intros f Hf; apply Hk; by right).
    rewrite filter_cons. destruct (emitted d field).
    + rewrite decide_True by done. rewrite fmap_cons. cbn [concat].
      by rewrite lines_text_app, app_assoc_str.
    + rewrite decide_False by done. cbn [lines_text foldr].
      by rewrite app_empty_r.
Qed.

Lemma write_reference_run csv_file (fields : list string) i d base tr t :
  (∀ field, field ∈ fields → is_Some (d !! field)) →
  is_Some (d !! "TY") →
  write_reference csv_file fields multi_value out (i, d) (with_text base tr out t)
  = if String.eqb (cell d "TY") EmptyString
    then (Ok tt, with_text base (tr ++ [Print (SkippingReference i csv_file)]) out t)
    else (Ok tt, with_text base tr out
                   (t +:+ lines_text (block_lines fields multi_value d))).
Proof.
  intros Hk [c Hty]. unfold write_reference. rewrite bind_run.
  unfold getitem, cell at 1. rewrite Hty.
  destruct c as [s|]; cbn [ret]; [|done].
  destruct (String.eqb_spec s EmptyString) as [->|Hne]; [done|].
  rewrite bind_run, write_run, bind_run, write_fields_run by done. rewrite write_run.
  assert (Hc : cell d "TY" = s) by (unfold cell; by rewrite Hty).
  unfold block_lines. rewrite Hc. f_equal. f_equal.
  rewrite !lines_text_app, !app_assoc_str. f_equal.
  cbn [lines_text foldr]. rewrite app_empty_r. f_equal.
Qed.

End Serializer.

(** ** [csv.DictReader] rows *)

Section DictRows.
Implicit Types (d : dict_row) (l : list string) (r : row).

Lemma fill_none_lookup l d f :
  foldl (fun d key => <[key := None]> d) d l !! f
  = if decide (f ∈ l) then Some None else d !! f.
Proof.
  revert d. induction l as [|k l IH]; intros d; cbn [foldl zip zip_with fmap list_fmap].
  - rewrite decide_False; [done|]. by intros ?%elem_of_nil.
  - rewrite IH. destruct (decide (f ∈ l)) as [Hin|Hnin].
    + rewrite decide_True; [done|]. by right.
    + destruct (decide (f = k)) as [->|Hne].
      * cbn [fst snd]. rewrite lookup_insert_eq, decide_True; [done|]. by left.
      * cbn [fst snd]. rewrite lookup_insert_ne by done. rewrite decide_False; [done|].
        by intros [?|?]%elem_of_cons.
Qed.

Lemma fill_cells_is_Some (kvs : list (string * string)) d f :
  is_Some (foldl (fun d kv => <[kv.1 := Some kv.2]> d) d kvs !! f)
  ↔ is_Some (d !! f) ∨ f ∈ kvs.*1.
Proof.
  revert d. induction kvs as [|[k v] kvs IH]; intros d; simpl.
  - rewrite elem_of_nil. tauto.
  - rewrite IH, elem_of_cons. destruct (decide (f = k)) as [->|Hne].
    + rewrite lookup_insert_eq. split; [|by eauto]. intros _. by right; left.
    + rewrite lookup_insert_ne by done. tauto.
Qed.

Lemma fst_zip_take l r : (zip l r).*1 = take (length r) l.
Proof.
  revert r. induction l as [|k l IH]; intros [|c r]; simpl; try done.
  by rewrite IH.
Qed.

Lemma dict_of_row_keys l r f : f ∈ l → is_Some (dict_of_row l r !! f).
Proof.
  intros Hin. unfold dict_of_row. rewrite fill_none_lookup.
  case_decide as Hd; [by eexists|].
  apply fill_cells_is_Some. right. rewrite fst_zip_take.
  rewrite <- (take_drop (length r) l) in Hin.
  by apply elem_of_app in Hin as [?|?].
Qed.

Lemma fill_cells_map (g : string → string) l d f :
  foldl (fun d kv => <[kv.1 := Some kv.2]> d) d (zip l (g <$> l)) !! f
  = if decide (f ∈ l) then Some (Some (g f)) else d !! f.
Proof.
  revert d. induction l as [|k l IH]; intros d; cbn [foldl zip zip_with fmap list_fmap].
  - rewrite decide_False; [done|]. by intros ?%elem_of_nil.
  - rewrite IH. destruct (decide (f ∈ l)) as [Hin|Hnin].
    + rewrite decide_True; [done|]. by right.
    + destruct (decide (f = k)) as [->|Hne].
      * cbn [fst snd]. rewrite lookup_insert_eq, decide_True; [done|]. by left.
      * cbn [fst snd]. rewrite lookup_insert_ne by done. rewrite decide_False; [done|].
        by intros [?|?]%elem_of_cons.
Qed.

(** The cells of the row built from a record. *)
Lemma dict_of_projected_row l (ref : record) f :
  dict_of_row l (project_row l ref) !! f
  = if decide (f ∈ l) then Some (Some (cell_of ref f)) else None.
Proof.
  unfold dict_of_row. rewrite project_row_map.
  rewrite drop_ge by (by rewrite length_map). simpl.
  rewrite (fill_cells_map (cell_of ref)). by rewrite lookup_empty.
Qed.

End DictRows.

(** ** [convert_csv_to_ris] as a whole *)

Section SerializerRun.
Implicit Types (base : gmap string file) (tr : list event) (d : dict_row).
Local Arguments write : simpl never.
Local Arguments print : simpl never.
Local Arguments with_text : simpl never.

Lemma write_references_run csv_file fields multi_value out (ds : list dict_row)
    n base tr t :
  Forall (fun d => ∀ field, field ∈ "TY" :: fields → is_Some (d !! field)) ds →
  ∃ evs,
    for_each (zip (seq n (length ds)) ds)
      (write_reference csv_file fields multi_value out) (with_text base tr out t)
    = (Ok tt, with_text base (tr ++ evs) out
                (t +:+ ris_text fields multi_value ds))
    ∧ Forall (fun ev => ∃ dg, ev = Print dg) evs.
Proof.
  intros HF. revert n tr t.
  induction HF as [|d ds Hd _ IH]; intros n tr t.
  - exists []. simpl. unfold ris_text. simpl. by rewrite app_empty_r, app_nil_r.
  - cbn [length seq zip zip_with]. rewrite for_each_cons, bind_run.
    rewrite write_reference_run
      by first [by apply Hd; left | intros f Hf; apply Hd; by right].
    unfold ris_text. rewrite filter_cons.
    destruct (String.eqb_spec (cell d "TY") EmptyString) as [He|Hne].
    + rewrite decide_False by (by intros ?).
      destruct (IH (S n) (tr ++ [Print (SkippingReference n csv_file)]) t)
        as (evs & -> & Hevs).
      exists (Print (SkippingReference n csv_file) :: evs).
      split; [|constructor; eauto].
      by rewrite <- app_assoc.
    + rewrite decide_True by done.
      destruct (IH (S n) tr (t +:+ lines_text (block_lines fields multi_value d)))
        as (evs & -> & Hevs).
      exists evs. split; [|done].
      rewrite fmap_cons. cbn [lines_text foldr]. unfold compose at 2.
      by rewrite app_assoc_str.
Qed.

Lemma load_run f rows w :
  fs w !! f = Some (Table rows) →
  standards_of_rows rows !! "TY" ≠ None →
  ∃ evs, load_ris_standards f w
         = (Ok (standards_of_rows rows), {| fs := fs w; trace := trace w ++ evs |})
         ∧ Forall (schema_only f) evs.
Proof.
  intros Hf HTY. pose proof (load_value f rows w Hf) as Hv.
  destruct (load_quiet f w) as (Hfs & evs & Htr & Hevs).
  rewrite bool_decide_eq_false_2 in Hv by done.
  exists evs. split; [|done].
  destruct (load_ris_standards f w) as [r [f' tr']]. simpl in *. by subst.
Qed.

Lemma load_fails f rows w :
  fs w !! f = Some (Table rows) →
  standards_of_rows rows !! "TY" = None →
  ∃ evs, load_ris_standards f w
         = (Raise (ValueError "TY field missing in RIS_stds.csv"),
            {| fs := fs w; trace := trace w ++ evs |})
         ∧ Forall (schema_only f) evs.
Proof.
  intros Hf HTY. pose proof (load_value f rows w Hf) as Hv.
  destruct (load_quiet f w) as (Hfs & evs & Htr & Hevs).
  rewrite bool_decide_eq_true_2 in Hv by done.
  exists evs. split; [|done].
  destruct (load_ris_standards f w) as [r [f' tr']]. simpl in *. by subst.
Qed.

Lemma try_ok {A} (m : M A) h w a w' :
  m w = (Ok a, w') → try_except m h w = (Ok a, w').
Proof. intros Hm. unfold try_except. by rewrite Hm. Qed.

(** The serializer on a store whose schema source loads, for an input that
    is not the output and an output that can be opened. *)
Lemma convert_csv_to_ris_run `{Platform} csv_file standards_file output_ris
    srows header body w :
  fs w !! standards_file = Some (Table srows) →
  standards_of_rows srows !! "TY" ≠ None →
  fs w !! csv_file = Some (Table (header :: body)) →
  let standards := standards_of_rows srows in
  (Py.sorted header = fields_of standards →
   csv_file ≠ output_ris ∧ open_error output_ris (fs w) = None) →
  ∃ evs,
    convert_csv_to_ris csv_file standards_file output_ris w
    = (Ok tt,
       if bool_decide (Py.sorted header ≠ fields_of standards)
       then {| fs := fs w;
               trace := trace w ++ evs
                        ++ [Print (HeaderMismatchError csv_file
                                     (fields_of standards) header)] |}
       else with_text (fs w) (trace w ++ evs) output_ris
              (ris_text (fields_of standards) (multi_value_fields standards)
                        (dict_rows header body)))
    ∧ Forall (fun ev => ∀ path, ev = OpenWrite path →
                path = output_ris ∧ Py.sorted header = fields_of standards) evs.
Proof.
  intros Hs HTY Hc standards Hout.
  destruct (load_run standards_file srows w Hs HTY) as (evs1 & Hload & Hevs1).
  assert (Hevs1' : Forall (fun ev => ∀ path, ev = OpenWrite path →
                path = output_ris ∧ Py.sorted header = fields_of standards) evs1).
  { eapply Forall_impl; [exact Hevs1|]. by intros [dg|p|p] Hev path. }
  unfold convert_csv_to_ris.
  case_bool_decide as Hhead.
  - exists (evs1 ++ [OpenRead csv_file]). split.
    + apply try_ok. rewrite bind_run, Hload. unfold read_table.
      rewrite bind_run, bind_run. cbn [emit fs trace]. unfold lookup_table.
      cbn [fs]. rewrite Hc. cbn [fst snd]. fold standards.
      rewrite bool_decide_eq_true_2 by done.
      unfold print, emit. cbn [fs trace]. by rewrite <- !app_assoc.
    + apply Forall_app; split; [done|]. by constructor.
  - assert (Hsorted : Py.sorted header = fields_of standards)
      by (by destruct (decide (Py.sorted header = fields_of standards))).
    destruct (Hout Hsorted) as [Hne Hopen].
    assert (Hkeys : Forall (fun d => ∀ field, field ∈ "TY" :: fields_of standards
                                → is_Some (d !! field)) (dict_rows header body)).
    { apply Forall_forall. intros d Hd field Hfield.
      unfold dict_rows in Hd. apply list_elem_of_fmap in Hd as (r & -> & _).
      apply dict_of_row_keys.
      assert (Hp : header ≡ₚ fields_of standards) by by apply header_accepted_iff.
      rewrite Hp. apply elem_of_cons in Hfield as [->|?]; [|done].
      apply fields_of_elem. by apply not_eq_None_Some. }
    destruct (write_references_run csv_file (fields_of standards)
                (multi_value_fields standards) output_ris
                (dict_rows header body) 1 (fs w)
                (trace w ++ evs1 ++ [OpenRead csv_file] ++ [OpenWrite output_ris])
                EmptyString Hkeys)
      as (evs2 & Hrun & Hevs2).
    exists (evs1 ++ [OpenRead csv_file] ++ [OpenWrite output_ris] ++ evs2
            ++ [Print (ConvertedCsv csv_file output_ris)]). split.
    + apply try_ok. rewrite bind_run, Hload. unfold read_table.
      rewrite bind_run, bind_run. cbn [emit fs trace]. unfold lookup_table.
      cbn [fs]. rewrite Hc. cbn [fst snd]. fold standards.
      rewrite bool_decide_eq_false_2 by (by intros Hn).
      rewrite bind_run. unfold open_write. cbn [fs trace]. rewrite Hopen.
      apply String.eqb_neq in Hne. rewrite Hne. cbn [fst snd].
      rewrite bind_run. unfold enumerate1.
      replace {| fs := <[output_ris:=Text ""]> (fs w);
                 trace := ((trace w ++ evs1) ++ [OpenRead csv_file]) ++ [OpenWrite output_ris] |}
        with (with_text (fs w) (trace w ++ evs1 ++ [OpenRead csv_file] ++ [OpenWrite output_ris])
                        output_ris EmptyString)
        by (unfold with_text; by rewrite <- !app_assoc).
      rewrite Hrun. rewrite bind_run. cbn [exhausted ret].
      rewrite print_run, app_empty_l. by rewrite <- !app_assoc.
    + repeat (apply Forall_app; split); try done.
      * by constructor.
      * constructor; [|done]. by intros path [= ->].
      * eapply Forall_impl; [exact Hevs2|]. by intros ev [dg ->] path.
      * by constructor.
Qed.

End SerializerRun.

(** C9: for a row whose [TY] cell is not empty the serializer appends one
    block to the output: the [TY] line, then, for the canonical columns in
    their sorted order without [TY], [ER] and the columns whose cell is
    empty, the lines of the column (one line per non-empty trimmed piece of
    the cell split at the semicolon for a multi-value column, the cell as it
    is on one line otherwise), then the end-marker line with no value and an
    empty line; a line is the tag, two spaces, a dash, one space, the value
    and a line feed. *)
Theorem serialized_block (standards : schema) (fieldnames : list string)
    (r : row) (csv_file out : string) (i : nat) (w : world) (pre : string) :
  Py.sorted fieldnames = fields_of standards →
  cell (dict_of_row fieldnames r) "TY" ≠ EmptyString →
  fs w !! out = Some (Text pre) →
  Sorted String.le (fields_of standards)
  ∧ write_reference csv_file (fields_of standards) (multi_value_fields standards)
      out (i, dict_of_row fieldnames r) w
    = (Ok tt,
       {| fs := <[out := Text (pre +:+ lines_text
                   ([tag_text "TY" (cell (dict_of_row fieldnames r) "TY")]
                    ++ concat
                         ((fun field =>
                             if bool_decide (field ∈ multi_value_fields standards)
                             then tag_text field
                                    <$> filter (fun p => p ≠ EmptyString)
                                          (Py.strip <$> Py.split ";"
                                             (cell (dict_of_row fieldnames r) field))
                             else [tag_text field (cell (dict_of_row fieldnames r) field)])
                            <$> filter (fun field =>
                                          field ≠ "TY" ∧ field ≠ "ER"
                                          ∧ cell (dict_of_row fieldnames r) field
                                            ≠ EmptyString)
                                       (fields_of standards))
                    ++ ["ER  - " +:+ String "010" EmptyString;
                        String "010" EmptyString]))]>
                (fs w);
          trace := trace w |}).
Proof.
  intros Hhead HTY Hout. split; [apply sorted_Sorted|].
  rewrite (with_text_id out w pre Hout) at 1.
  assert (Hp : fieldnames ≡ₚ fields_of standards) by by apply header_accepted_iff.
  rewrite write_reference_run.
  - destruct (String.eqb_spec (cell (dict_of_row fieldnames r) "TY") EmptyString);
      [done|].
    unfold with_text, block_lines. repeat f_equal.
    apply list_filter_iff. intros field. unfold emitted.
    destruct (String.eqb_spec field "TY"), (String.eqb_spec field "ER"),
      (String.eqb_spec (cell (dict_of_row fieldnames r) field) EmptyString);
      cbn [negb andb]; intuition congruence.
  - intros field Hfield. apply dict_of_row_keys. by rewrite Hp.
  - unfold cell in HTY. by destruct (dict_of_row fieldnames r !! "TY").
Qed.

Lemma serialized_block_witness :
  write_reference "merged.csv"
    (fields_of (standards_of_rows
       [["TY"; "Type"]; ["AU"; "Author"; ""; "Each author on its own line"];
        ["TI"; "Title"]; ["ER"; "End"]; ["N1"; "Notes"]]))
    (multi_value_fields (standards_of_rows
       [["TY"; "Type"]; ["AU"; "Author"; ""; "Each author on its own line"];
        ["TI"; "Title"]; ["ER"; "End"]; ["N1"; "Notes"]]))
    "out.ris"
    (1, dict_of_row ["AU"; "ER"; "N1"; "TI"; "TY"]
          [" Smith, J ; ;Doe, A;"; "x"; ""; " A;B"; "JOUR"])
    {| fs := {[ "out.ris" := Text "" ]}; trace := [] |}
  = (Ok tt,
     {| fs := {[ "out.ris" :=
                   Text ("TY  - JOUR" +:+ String "010"
                         ("AU  - Smith, J" +:+ String "010"
                         ("AU  - Doe, A" +:+ String "010"
                         ("TI  -  A;B" +:+ String "010"
                         ("ER  - " +:+ String "010"
                         (String "010" EmptyString)))))) ]};
        trace := [] |}).
Proof.
  pose proof (serialized_block
    (standards_of_rows
       [["TY"; "Type"]; ["AU"; "Author"; ""; "Each author on its own line"];
        ["TI"; "Title"]; ["ER"; "End"]; ["N1"; "Notes"]])
    ["AU"; "ER"; "N1"; "TI"; "TY"]
    [" Smith, J ; ;Doe, A;"; "x"; ""; " A;B"; "JOUR"]
    "merged.csv" "out.ris" 1
    {| fs := {[ "out.ris" := Text "" ]}; trace := [] |} "") as H.
  destruct H as [_ ->].
  - vm_compute. reflexivity.
  - vm_compute. discriminate.
  - reflexivity.
  - vm_compute. reflexivity.
Defined.

(** C8, as the code has it: the serializer sorts the header of its input
    before comparing it with the canonical header, so it accepts every
    permutation of the canonical columns and, when the output is another
    path than the input and can be opened, writes the text of the rows; a
    header that is no permutation of them makes the call report the mismatch
    and return without opening the output. *)
Theorem serializer_header_check `{Platform}
    (csv_file standards_file output_ris : string)
    (srows : list row) (header : row) (body : list row) (w : world) :
  fs w !! standards_file = Some (Table srows) →
  standards_of_rows srows !! "TY" ≠ None →
  fs w !! csv_file = Some (Table (header :: body)) →
  (header ≡ₚ fields_of (standards_of_rows srows) →
   csv_file ≠ output_ris →
   open_error output_ris (fs w) = None →
     fs (convert_csv_to_ris csv_file standards_file output_ris w).2
     = <[output_ris :=
           Text (ris_text (fields_of (standards_of_rows srows))
                          (multi_value_fields (standards_of_rows srows))
                          (dict_rows header body))]> (fs w))
  ∧ (¬ header ≡ₚ fields_of (standards_of_rows srows) →
     fs (convert_csv_to_ris csv_file standards_file output_ris w).2 = fs w
     ∧ (∃ evs,
          trace (convert_csv_to_ris csv_file standards_file output_ris w).2
          = trace w ++ evs
              ++ [Print (HeaderMismatchError csv_file
                           (fields_of (standards_of_rows srows)) header)]
          ∧ Forall (fun ev => ∀ path, ev ≠ OpenWrite path) evs)).
Proof.
  intros Hs HTY Hc. split.
  - intros Hp Hne Hopen.
    destruct (convert_csv_to_ris_run csv_file standards_file output_ris
                srows header body w Hs HTY Hc) as (evs & Hrun & Hevs); [done|].
    rewrite Hrun. apply header_accepted_iff in Hp.
    by rewrite bool_decide_eq_false_2 by (by intros Hn).
  - intros Hp. rewrite <- header_accepted_iff in Hp.
    destruct (convert_csv_to_ris_run csv_file standards_file output_ris
                srows header body w Hs HTY Hc) as (evs & Hrun & Hevs); [done|].
    rewrite Hrun.
    rewrite bool_decide_eq_true_2 by done. split; [done|].
    exists evs. split; [done|].
    eapply Forall_impl; [exact Hevs|]. intros ev Hev path Heq.
    destruct (Hev path Heq) as [_ Hsorted]. done.
Qed.

Lemma serializer_header_check_witness :
  fs (@convert_csv_to_ris sample_platform "merged.csv" "stds.csv" "out.ris"
        {| fs := {[ "stds.csv" := Table [["TY"; "Type"]; ["AU"; "Author"]];
                    "merged.csv" := Table [["TY"; "AU"]; ["JOUR"; "Smith, J"]] ]};
           trace := [] |}).2 !! "out.ris"
  = Some (Text (ris_line "TY" "JOUR" +:+ ris_line "AU" "Smith, J" +:+ er_block)).
Proof.
  destruct (@serializer_header_check sample_platform "merged.csv" "stds.csv" "out.ris"
    [["TY"; "Type"]; ["AU"; "Author"]] ["TY"; "AU"] [["JOUR"; "Smith, J"]]
    {| fs := {[ "stds.csv" := Table [["TY"; "Type"]; ["AU"; "Author"]];
                "merged.csv" := Table [["TY"; "AU"]; ["JOUR"; "Smith, J"]] ]};
       trace := [] |}) as [H _].
  - reflexivity.
  - vm_compute. discriminate.
  - reflexivity.
  - rewrite H.
    + vm_compute. reflexivity.
    + replace (fields_of (standards_of_rows [["TY"; "Type"]; ["AU"; "Author"]]))
        with ["AU"; "TY"] by (vm_compute; reflexivity).
      apply Permutation_swap.
    + discriminate.
    + reflexivity.
Defined.

(** C8, as stated, fails: a header that lists the canonical columns in
    another order is accepted and its rows are serialized. *)
Lemma permuted_header_is_serialized :
  ["TY"; "AU"] ≠ fields_of (standards_of_rows [["TY"; "Type"]; ["AU"; "Author"]])
  ∧ fs (@convert_csv_to_ris sample_platform "merged.csv" "stds.csv" "out.ris"
          {| fs := {[ "stds.csv" := Table [["TY"; "Type"]; ["AU"; "Author"]];
                      "merged.csv" := Table [["TY"; "AU"]; ["JOUR"; "Smith, J"]] ]};
             trace := [] |}).2 !! "out.ris"
    = Some (Text (ris_line "TY" "JOUR" +:+ ris_line "AU" "Smith, J" +:+ er_block)).
Proof. split; [vm_compute; discriminate | vm_compute; reflexivity]. Qed.

(** ** The merger *)

Section Merger.
Context (fields : list string) (out : string).
Implicit Types (u : gset row) (w : world) (csv_files : list string).

Lemma add_rows_elem (body : list row) u r :
  r ∈ foldl (fun u r => u ∪ {[ r ]}) u body ↔ r ∈ u ∨ r ∈ body.
Proof.
  revert u. induction body as [|r' body IH]; intros u; simpl.
  - rewrite elem_of_nil. tauto.
  - rewrite IH, elem_of_cons, elem_of_union, elem_of_singleton. tauto.
Qed.

Lemma merge_source_run u f w :
  merge_source fields out u f w
  = ((merge_outcome fields out u f (fs w !! f)).1,
     {| fs := fs w;
        trace := trace w ++ (merge_outcome fields out u f (fs w !! f)).2 |}).
Proof.
  unfold merge_source, merge_outcome.
  destruct (String.eqb f out).
  - destruct w. simpl. by rewrite app_nil_r.
  - unfold read_table. rewrite !bind_run. cbn [emit]. unfold lookup_table. cbn [fs].
    destruct (fs w !! f) as [[c|[|header body]|[|header body]|]|]; try done;
      cbn [fst snd]; (case_bool_decide; [|done]);
      rewrite bind_run; unfold print, emit; cbn [fs trace ret fst snd];
      by rewrite <- app_assoc.
Qed.

(** The loop over sources that can all be read. *)
Lemma merge_sources_run csv_files u w :
  Forall (fun f => f ≠ out → ∃ header body, fs w !! f = Some (Table (header :: body)))
         csv_files →
  ∃ u' evs,
    fold_each csv_files u (merge_source fields out) w
    = (Ok u', {| fs := fs w; trace := trace w ++ evs |})
    ∧ (∀ r, r ∈ u' ↔
            r ∈ u ∨ ∃ f header body,
                      f ∈ csv_files ∧ f ≠ out
                      ∧ fs w !! f = Some (Table (header :: body))
                      ∧ Py.sorted header = fields ∧ r ∈ body)
    ∧ OpenRead out ∉ evs.
Proof.
  intros HF. revert u w HF.
  induction csv_files as [|f csv_files IH]; intros u w HF.
  - exists u, []. simpl. split; [|split].
    + destruct w. unfold ret. simpl. by rewrite app_nil_r.
    + intros r. split; [by left|]. intros [?|(f & h & b & Hin & _)]; [done|].
      by apply elem_of_nil in Hin.
    + by intros ?%elem_of_nil.
  - apply Forall_cons in HF as [Hf HF].
    cbn [fold_each]. rewrite bind_run, merge_source_run.
    unfold merge_outcome.
    destruct (String.eqb_spec f out) as [->|Hne].
    + cbn [fst snd].
      destruct (IH u {| fs := fs w; trace := trace w ++ [] |} HF)
        as (u' & evs & -> & Hu' & Hevs).
      exists u', evs. cbn [fs trace]. rewrite app_nil_r. split; [done|]. split; [|done].
      intros r. rewrite Hu'. cbn [fs]. split.
      * intros [?|(f & h & b & Hin & Hrest)]; [by left|].
        right. exists f, h, b. split; [by right|done].
      * intros [?|(f & h & b & Hin & Hfo & Hrest)]; [by left|].
        right. exists f, h, b. apply elem_of_cons in Hin as [->|Hin]; [done|].
        done.
    + destruct (Hf Hne) as (header & body & Hfile). rewrite Hfile.
      case_bool_decide as Hhead; cbn [fst snd].
      * destruct (IH u {| fs := fs w;
                          trace := trace w ++ [OpenRead f;
                                     Print (HeaderMismatchWarning f fields header)] |} HF)
          as (u' & evs & -> & Hu' & Hevs).
        exists u', ([OpenRead f; Print (HeaderMismatchWarning f fields header)] ++ evs).
        cbn [fs trace]. rewrite <- app_assoc. split; [done|]. split.
        -- intros r. rewrite Hu'. cbn [fs]. split.
           ++ intros [?|(f' & h & b & Hin & Hrest)]; [by left|].
              right. exists f', h, b. split; [by right|done].
           ++ intros [?|(f' & h & b & Hin & Hfo & Hf' & Hs & Hr)]; [by left|].
              right. exists f', h, b. apply elem_of_cons in Hin as [->|Hin]; [|done].
              rewrite Hfile in Hf'. by simplify_eq.
        -- intros [Hin|Hin]%elem_of_app; [|done].
           apply elem_of_cons in Hin as [?|Hin]; [by simplify_eq|].
           apply elem_of_cons in Hin as [?|Hin]; [done|]. by apply elem_of_nil in Hin.
      * destruct (IH (foldl (fun u r => u ∪ {[ r ]}) u body)
                     {| fs := fs w; trace := trace w ++ [OpenRead f] |} HF)
          as (u' & evs & -> & Hu' & Hevs).
        exists u', ([OpenRead f] ++ evs).
        cbn [fs trace]. rewrite <- app_assoc. split; [done|]. split.
        -- intros r. rewrite Hu', add_rows_elem. cbn [fs]. split.
           ++ intros [[?|Hr]|(f' & h & b & Hin & Hrest)]; [by left|..].
              ** right. exists f, header, body. split; [by left|done].
              ** right. exists f', h, b. split; [by right|done].
           ++ intros [?|(f' & h & b & Hin & Hfo & Hf' & Hs & Hr)]; [by left; left|].
              apply elem_of_cons in Hin as [->|Hin].
              ** rewrite Hfile in Hf'. simplify_eq. by left; right.
              ** right. by exists f', h, b.
        -- intros [Hin|Hin]%elem_of_app; [|done].
           apply elem_of_cons in Hin as [?|Hin]; [by simplify_eq|].
           by apply elem_of_nil in Hin.
Qed.



End Merger.

(** C7, as the code has it: the merger sorts the header of a source and
    compares the result with the canonical columns, so a source is accepted
    exactly when its header is a permutation of them; over sources that can
    be read the loop runs to its end, and the set it returns holds exactly
    the data rows, as whole tuples, of the accepted sources other than the
    merged output itself. *)
Theorem merger_accepts_permuted_headers (standards : schema) (out : string)
    (csv_files : list string) (w : world) :
  Forall (fun f => f ≠ out
                   → ∃ header body, fs w !! f = Some (Table (header :: body)))
         csv_files →
  ∃ u evs,
    fold_each csv_files ∅ (merge_source (fields_of standards) out) w
    = (Ok u, {| fs := fs w; trace := trace w ++ evs |})
    ∧ ∀ r : row,
        r ∈ u ↔ ∃ f body, f ∈ csv_files
                          ∧ accepted_source (fields_of standards) out w f body
                          ∧ r ∈ body.
Proof.
  intros HF.
  destruct (merge_sources_run (fields_of standards) out csv_files ∅ w HF)
    as (u & evs & Hrun & Hu & _).
  exists u, evs. split; [done|]. intros r. rewrite Hu. split.
  - intros [Hin|(f & header & body & Hin & Hne & Hfile & Hs & Hr)].
    + by apply elem_of_empty in Hin.
    + exists f, body. split; [done|]. split; [|done]. split; [done|].
      exists header. split; [done|]. by apply header_accepted_iff.
  - intros (f & body & Hin & (Hne & header & Hfile & Hp) & Hr).
    right. exists f, header, body. repeat split; try done.
    by apply header_accepted_iff.
Qed.

Lemma merger_accepts_permuted_headers_witness :
  ∃ u evs,
    fold_each ["a.csv"; "b.csv"] ∅
      (merge_source (fields_of (standards_of_rows [["TY"; "Type"]; ["AU"; "Author"]]))
                    "merged.csv")
      {| fs := {[ "a.csv" := Table [["TY"; "AU"]; ["JOUR"; "Smith, J"]];
                  "b.csv" := Table [["TY"; "ZZ"]; ["BOOK"; "x"]] ]};
         trace := [] |}
    = (Ok u,
       {| fs := {[ "a.csv" := Table [["TY"; "AU"]; ["JOUR"; "Smith, J"]];
                   "b.csv" := Table [["TY"; "ZZ"]; ["BOOK"; "x"]] ]};
          trace := [] ++ evs |})
    ∧ ∀ r : row,
        r ∈ u ↔ ∃ f body,
                  f ∈ ["a.csv"; "b.csv"]
                  ∧ accepted_source
                      (fields_of (standards_of_rows [["TY"; "Type"]; ["AU"; "Author"]]))
                      "merged.csv"
                      {| fs := {[ "a.csv" := Table [["TY"; "AU"]; ["JOUR"; "Smith, J"]];
                                  "b.csv" := Table [["TY"; "ZZ"]; ["BOOK"; "x"]] ]};
                         trace := [] |}
                      f body
                  ∧ r ∈ body.
Proof.
  refine (merger_accepts_permuted_headers
            (standards_of_rows [["TY"; "Type"]; ["AU"; "Author"]]) "merged.csv"
            ["a.csv"; "b.csv"]
            {| fs := {[ "a.csv" := Table [["TY"; "AU"]; ["JOUR"; "Smith, J"]];
                        "b.csv" := Table [["TY"; "ZZ"]; ["BOOK"; "x"]] ]};
               trace := [] |} _).
  repeat constructor; intros _; eexists _, _; reflexivity.
Defined.

(** C7, as stated, fails: a header that repeats a column equals the
    canonical columns as a set, and the source is skipped all the same. *)
Lemma duplicated_column_header_is_skipped :
  (∀ t, t ∈ ["TY"; "TY"] ↔ t ∈ fields_of (standards_of_rows [["TY"; "Type"]]))
  ∧ (fold_each ["a.csv"] ∅
       (merge_source (fields_of (standards_of_rows [["TY"; "Type"]])) "merged.csv")
       {| fs := {[ "a.csv" := Table [["TY"; "TY"]; ["JOUR"; "BOOK"]] ]};
          trace := [] |}).1
    = Ok ∅.
Proof.
  split; [|vm_compute; reflexivity].
  replace (fields_of (standards_of_rows [["TY"; "Type"]])) with ["TY"]
    by (vm_compute; reflexivity).
  intros t. rewrite !elem_of_cons. tauto.
Qed.




(** ** [convert_ris_to_csv] as a whole *)

Section Projector.

Lemma quiet_fs {A} P (m : M A) w : quiet P m → fs (m w).2 = fs w.
Proof. intros Hq. by destruct (Hq w). Qed.

Lemma validate_quiet output_csv id : quiet (fun _ => True) (validate_row output_csv id).
Proof.
  destruct id as [i d]. unfold validate_row.
  apply quiet_bind; [apply quiet_getitem|]. intros ty.
  destruct (negb (truthy ty)); [by apply quiet_print|apply quiet_ret].
Qed.

(** What the converter leaves at [output_csv] when it can open it. *)
Lemma convert_ris_to_csv_run `{Platform} ris_file standards_file output_csv
    srows content w :
  fs w !! standards_file = Some (Table srows) →
  standards_of_rows srows !! "TY" ≠ None →
  fs w !! ris_file = Some (Text content) →
  open_error output_csv (fs w) = None →
  fs (convert_ris_to_csv ris_file standards_file output_csv w).2
  = <[output_csv :=
        written (fields_of (standards_of_rows srows)
                 :: project_rows (fields_of (standards_of_rows srows))
                                 (parse_ris_lines (Py.readlines content)))]> (fs w).
Proof.
  intros Hs HTY Hr Hopen.
  destruct (load_run standards_file srows w Hs HTY) as (evs1 & Hload & _).
  unfold convert_ris_to_csv, try_except.
  rewrite bind_run, Hload. unfold parse_ris_file, read_text.
  rewrite !bind_run. cbn [emit fs trace]. unfold lookup_text. cbn [fs]. rewrite Hr.
  cbn [ret]. rewrite bind_run. unfold print at 1. cbn [emit fs trace].
  rewrite bind_run. unfold write_table, open_write. cbn [fs trace]. rewrite Hopen.
  set (tbl := fields_of (standards_of_rows srows)
              :: project_rows (fields_of (standards_of_rows srows))
                   (parse_ris_lines (Py.readlines content))).
  set (w3 := {| fs := <[output_csv:=written tbl]> (fs w); trace := _ |}).
  match goal with |- fs (match ?m w3 with _ => _ end).2 = _ => set (rest := m) end.
  assert (Hq : quiet (fun _ => True) rest).
  { unfold rest. apply quiet_bind; [by apply quiet_read_table|]. intros rd.
    destruct (rd.1) as [|fieldnames body]; [apply quiet_raise|].
    case_bool_decide; [by apply quiet_print|].
    apply quiet_bind; [apply quiet_for_each, validate_quiet|].
    intros _. apply quiet_bind; [apply quiet_exhausted|].
    intros _. by apply quiet_print. }
  pose proof (quiet_fs _ rest w3 Hq) as Hfs.
  destruct (rest w3) as [[[]|e] w4]; simpl in *; by rewrite Hfs.
Qed.

End Projector.

(** C6: the header the projector writes is the sorted list of the schema
    tags, which no record enters; for every sequence of records the rows
    follow the records in their order, and the cell of a record under a
    column is the empty string when the record lacks the tag, the values
    joined by a semicolon when it holds a list, and the string itself
    otherwise. *)
Theorem projected_table (standards : schema) :
  Sorted String.le (fields_of standards)
  ∧ NoDup (fields_of standards)
  ∧ (∀ tag, tag ∈ fields_of standards ↔ is_Some (standards !! tag))
  ∧ (∀ refs : list record,
       project_rows (fields_of standards) refs
       = map (fun ref : record =>
                map (fun field =>
                       match ref !! field with
                       | None => EmptyString
                       | Some (Multi l) => Py.join ";" l
                       | Some (Scalar s) => s
                       end)
                    (fields_of standards))
             refs).
Proof.
  split; [apply sorted_Sorted|]. split; [apply fields_of_NoDup|].
  split; [apply fields_of_elem|]. apply project_rows_map.
Qed.

(** ** The orchestration when the schema source has no [TY] row *)

Section SchemaFailure.
Context `{Platform}.
Context (srows : list row).
Hypothesis no_TY : standards_of_rows srows !! "TY" = None.

Local Abbreviation missing := (ValueError "TY field missing in RIS_stds.csv").

Lemma convert_ris_to_csv_fails ris_file standards_file output_csv w :
  fs w !! standards_file = Some (Table srows) →
  ∃ evs, convert_ris_to_csv ris_file standards_file output_csv w
         = (Ok tt, {| fs := fs w;
                      trace := trace w ++ evs
                               ++ [Print (ErrorConvertingRis ris_file output_csv missing)] |})
         ∧ Forall (schema_only standards_file) evs.
Proof.
  intros Hs. destruct (load_fails standards_file srows w Hs no_TY) as (evs & Hload & Hevs).
  exists evs. split; [|done].
  unfold convert_ris_to_csv, try_except. rewrite bind_run, Hload.
  unfold print, emit. cbn [fs trace]. by rewrite app_assoc.
Qed.

Lemma merge_csv_files_fails csv_folder merged_output_csv standards_file w :
  fs w !! standards_file = Some (Table srows) →
  ∃ evs, merge_csv_files csv_folder merged_output_csv standards_file w
         = (Ok tt, {| fs := fs w;
                      trace := trace w ++ evs
                               ++ [Print (ErrorMerging merged_output_csv missing)] |})
         ∧ Forall (schema_only standards_file) evs.
Proof.
  intros Hs. destruct (load_fails standards_file srows w Hs no_TY) as (evs & Hload & Hevs).
  exists evs. split; [|done].
  unfold merge_csv_files, try_except. rewrite bind_run, Hload.
  unfold print, emit. cbn [fs trace]. by rewrite app_assoc.
Qed.

Lemma convert_csv_to_ris_fails csv_file standards_file output_ris w :
  fs w !! standards_file = Some (Table srows) →
  ∃ evs, convert_csv_to_ris csv_file standards_file output_ris w
         = (Ok tt, {| fs := fs w;
                      trace := trace w ++ evs
                               ++ [Print (ErrorConvertingCsv csv_file output_ris missing)] |})
         ∧ Forall (schema_only standards_file) evs.
Proof.
  intros Hs. destruct (load_fails standards_file srows w Hs no_TY) as (evs & Hload & Hevs).
  exists evs. split; [|done].
  unfold convert_csv_to_ris, try_except. rewrite bind_run, Hload.
  unfold print, emit. cbn [fs trace]. by rewrite app_assoc.
Qed.

Lemma convert_all_fail (ris_files : list string) w :
  fs w !! standards_path = Some (Table srows) →
  ∃ evs, for_each ris_files convert_one w
         = (Ok tt, {| fs := fs w; trace := trace w ++ evs |})
         ∧ Forall (schema_only standards_path) evs
         ∧ ∀ ris_file, ris_file ∈ ris_files →
             Print (ErrorConvertingRis ris_file
                      (path_join csv_output_folder (path_stem ris_file +:+ ".csv"))
                      missing) ∈ evs.
Proof.
  revert w. induction ris_files as [|f ris_files IH]; intros w Hs.
  - exists []. split; [|split]; [|done|by intros ? ?%elem_of_nil].
    destruct w as [f t]. unfold for_each, ret. cbn [fs trace]. by rewrite app_nil_r.
  - rewrite for_each_cons, bind_run. unfold convert_one at 1.
    destruct (convert_ris_to_csv_fails f standards_path
                (path_join csv_output_folder (path_stem f +:+ ".csv")) w Hs)
      as (evs1 & -> & Hevs1).
    destruct (IH {| fs := fs w;
                    trace := trace w ++ evs1
                      ++ [Print (ErrorConvertingRis f
                            (path_join csv_output_folder (path_stem f +:+ ".csv"))
                            missing)] |} Hs)
      as (evs2 & -> & Hevs2 & Hall).
    exists ((evs1 ++ [Print (ErrorConvertingRis f
                        (path_join csv_output_folder (path_stem f +:+ ".csv"))
                        missing)]) ++ evs2).
    cbn [fs trace]. split; [by rewrite <- !app_assoc|]. split.
    + repeat (apply Forall_app; split); try done. by constructor.
    + intros rf [->|Hin]%elem_of_cons.
      * apply elem_of_app. left. apply elem_of_app. right. by left.
      * apply elem_of_app. right. by apply Hall.
Qed.

End SchemaFailure.

Section Folder.
Context `{Platform}.

Lemma makedirs_run path w :
  folder_ready path (fs w) →
  makedirs path w = (Ok tt, {| fs := <[path := Dir]> (fs w); trace := trace w |}).
Proof.
  intros [Hdir|[Hnone Hmk]]; unfold makedirs.
  - rewrite Hdir. destruct w as [f tr]. cbn [fs trace] in *. by rewrite insert_id.
  - by rewrite Hnone, Hmk.
Qed.

Lemma makedirs_blocked path w :
  is_Some (fs w !! path) → fs w !! path ≠ Some Dir →
  makedirs path w = (Raise (FileExistsError path), w).
Proof.
  intros [f Hf] Hnd. unfold makedirs. rewrite Hf. by destruct f.
Qed.

End Folder.

(** C2, as the code has it: when no row of the schema source has the tag
    [TY], loading the schema raises; every entry point catches the error at
    its own boundary, reports it and returns, and the orchestrator, once
    the output folder is there, goes on to the next file and the next
    stage, each of which loads the schema again and fails the same way.
    The run ends normally; it opens no file but the schema source and
    writes none; with no input file it only says so, and otherwise every
    input file is reported as not converted, the merge is reported as
    failed, and the run ends with the report of the failed serialization
    of a merged table that was already there, or of the missing merged
    table. *)
Theorem schema_without_TY_fails_each_stage `{Platform} (srows : list row)
    (w : world) :
  fs w !! standards_path = Some (Table srows) →
  standards_of_rows srows !! "TY" = None →
  folder_ready csv_output_folder (fs w) →
  (load_ris_standards standards_path w).1
  = Raise (ValueError "TY field missing in RIS_stds.csv")
  ∧ ∃ evs,
      main w = (Ok tt, {| fs := <[csv_output_folder := Dir]> (fs w);
                          trace := trace w ++ evs |})
      ∧ Forall (schema_only standards_path) evs
      ∧ (os_glob (path_join ris_folder "*.ris")
                 (<[csv_output_folder := Dir]> (fs w)) = [] →
         evs = [Print (NoRisFiles ris_folder)])
      ∧ (os_glob (path_join ris_folder "*.ris")
                 (<[csv_output_folder := Dir]> (fs w)) ≠ [] →
         (∀ ris_file,
            ris_file ∈ os_glob (path_join ris_folder "*.ris")
                               (<[csv_output_folder := Dir]> (fs w)) →
            Print (ErrorConvertingRis ris_file
                     (path_join csv_output_folder (path_stem ris_file +:+ ".csv"))
                     (ValueError "TY field missing in RIS_stds.csv")) ∈ evs)
         ∧ Print (ErrorMerging merged_csv_path
                    (ValueError "TY field missing in RIS_stds.csv")) ∈ evs
         ∧ last evs
           = Some (Print
               (if bool_decide (is_Some (fs w !! merged_csv_path))
                then ErrorConvertingCsv merged_csv_path merged_ris_path
                       (ValueError "TY field missing in RIS_stds.csv")
                else MergedNotFound merged_csv_path))).
Proof.
  intros Hs HTY Hfolder. split.
  { rewrite (load_value _ srows) by done. by rewrite bool_decide_eq_true_2. }
  unfold main. rewrite bind_run, (makedirs_run _ _ Hfolder).
  set (w0 := {| fs := <[csv_output_folder := Dir]> (fs w); trace := trace w |}).
  assert (Hs0 : fs w0 !! standards_path = Some (Table srows))
    by (unfold w0; cbn [fs]; by rewrite lookup_insert_ne).
  assert (Hm0 : fs w0 !! merged_csv_path = fs w !! merged_csv_path)
    by (unfold w0; cbn [fs]; by rewrite lookup_insert_ne).
  rewrite bind_run. unfold exists_ at 1. cbn [fst snd].
  rewrite bool_decide_eq_true_2 by (by rewrite Hs0). cbn [negb].
  rewrite bind_run. unfold glob at 1.
  set (ris_files := os_glob (path_join ris_folder "*.ris")
                            (<[csv_output_folder := Dir]> (fs w))).
  change (os_glob (path_join ris_folder "*.ris") (fs w0)) with ris_files.
  case_bool_decide as Hnil.
  - exists [Print (NoRisFiles ris_folder)]. split; [done|]. split; [by constructor|].
    split; [done|]. by intros Hne.
  - rewrite bind_run.
    destruct (convert_all_fail srows HTY ris_files w0 Hs0) as (evs1 & -> & Hevs1 & Hall).
    rewrite bind_run.
    destruct (merge_csv_files_fails srows HTY csv_output_folder merged_csv_path
                standards_path {| fs := fs w0; trace := trace w0 ++ evs1 |} Hs0)
      as (evs2 & -> & Hevs2).
    rewrite bind_run. unfold exists_ at 1. cbn [fs trace]. rewrite Hm0.
    destruct (bool_decide (is_Some (fs w !! merged_csv_path))).
    + destruct (convert_csv_to_ris_fails srows HTY merged_csv_path standards_path
                  merged_ris_path
                  {| fs := fs w0;
                     trace := (trace w0 ++ evs1) ++ evs2
                       ++ [Print (ErrorMerging merged_csv_path
                                    (ValueError "TY field missing in RIS_stds.csv"))] |} Hs0)
        as (evs3 & -> & Hevs3).
      exists (evs1 ++ evs2
              ++ [Print (ErrorMerging merged_csv_path
                           (ValueError "TY field missing in RIS_stds.csv"))]
              ++ evs3
              ++ [Print (ErrorConvertingCsv merged_csv_path merged_ris_path
                           (ValueError "TY field missing in RIS_stds.csv"))]).
      cbn [fs trace]. split; [by rewrite <- !app_assoc|]. split.
      * repeat (apply Forall_app; split); try done; by constructor.
      * split; [done|]. intros _. split; [|split].
        -- intros rf Hin. apply elem_of_app. left. by apply Hall.
        -- apply elem_of_app. right. apply elem_of_app. right.
           apply elem_of_app. left. by left.
        -- rewrite !app_assoc. apply last_snoc.
    + exists (evs1 ++ evs2
              ++ [Print (ErrorMerging merged_csv_path
                           (ValueError "TY field missing in RIS_stds.csv"))]
              ++ [Print (MergedNotFound merged_csv_path)]).
      unfold print, emit. cbn [fs trace]. split; [by rewrite <- !app_assoc|]. split.
      * repeat (apply Forall_app; split); try done; by constructor.
      * split; [done|]. intros _. split; [|split].
        -- intros rf Hin. apply elem_of_app. left. by apply Hall.
        -- apply elem_of_app. right. apply elem_of_app. right.
           apply elem_of_app. left. by left.
        -- rewrite !app_assoc. apply last_snoc.
Qed.

Lemma schema_without_TY_fails_each_stage_witness :
  (load_ris_standards standards_path
     {| fs := {[ ".\RIS_stds.csv" := Table [["AU"; "Author"]];
                 ".\RIS\a.ris" := Text (ris_line "TY" "JOUR" +:+ er_block) ]};
        trace := [] |}).1
  = Raise (ValueError "TY field missing in RIS_stds.csv").
Proof.
  refine (proj1 (@schema_without_TY_fails_each_stage sample_platform
                   [["AU"; "Author"]]
                   {| fs := {[ ".\RIS_stds.csv" := Table [["AU"; "Author"]];
                               ".\RIS\a.ris" := Text (ris_line "TY" "JOUR" +:+ er_block) ]};
                      trace := [] |} _ _ _)).
  - reflexivity.
  - vm_compute. reflexivity.
  - right. split; reflexivity.
Defined.

(** C2, as stated, fails: the run does not halt at the schema error.  After
    the first file is reported as not converted, the merge stage is entered,
    loads the schema again and reports its own failure. *)
Lemma run_continues_after_schema_error :
  ¬ halted_at_first_failure
      (trace (@main sample_platform
                {| fs := {[ ".\RIS_stds.csv" := Table [["AU"; "Author"]];
                            ".\RIS\a.ris" := Text (ris_line "TY" "JOUR" +:+ er_block) ]};
                   trace := [] |}).2).
Proof.
  intros Hhalt.
  specialize (Hhalt
    [OpenRead ".\RIS_stds.csv"; Print (TYNotFound ["AU"]);
     Print (ErrorLoading ".\RIS_stds.csv" (ValueError "TY field missing in RIS_stds.csv"))]
    [OpenRead ".\RIS_stds.csv"; Print (TYNotFound ["AU"]);
     Print (ErrorLoading ".\RIS_stds.csv" (ValueError "TY field missing in RIS_stds.csv"));
     Print (ErrorMerging ".\merged_output.csv" (ValueError "TY field missing in RIS_stds.csv"));
     Print (MergedNotFound ".\merged_output.csv")]
    ".\RIS\a.ris" ".\CSV\a.csv" (ValueError "TY field missing in RIS_stds.csv")).
  discriminate Hhalt. vm_compute. reflexivity.
Qed.

(** ** The round trip: strings *)

Section RoundTripStrings.
Implicit Types (s t v body rest : string) (c : ascii).

Lemma tag_char_not_space c : Py.is_tag_char c = true → Py.isspace c = false.
Proof.
  destruct c as [[] [] [] [] [] [] [] []]; vm_compute; congruence.
Qed.

Lemma tag_char_single_line c :
  Py.is_tag_char c = true → Ascii.eqb c "010" = false ∧ Ascii.eqb c "013" = false.
Proof.
  destruct c as [[] [] [] [] [] [] [] []]; vm_compute; split; congruence.
Qed.

Lemma rstrip_app_newline s : Py.rstrip (s +:+ String "010" EmptyString) = Py.rstrip s.
Proof.
  induction s as [|c s IH]; [done|].
  rewrite app_cons. cbn [Py.rstrip]. by rewrite IH.
Qed.

Lemma rstrip_app_fixed s v :
  Py.rstrip v = v → v ≠ EmptyString → Py.rstrip (s +:+ v) = s +:+ v.
Proof.
  intros Hv Hne. induction s as [|c s IH]; [done|].
  rewrite app_cons. cbn [Py.rstrip]. rewrite IH.
  destruct (s +:+ v) eqn:E; [|done].
  destruct s; [|done]. by rewrite app_empty_l in E.
Qed.

Lemma single_line_app s t :
  single_line (s +:+ t) = single_line s && single_line t.
Proof.
  induction s as [|c s IH]; [done|].
  rewrite app_cons. cbn [single_line]. rewrite IH. by rewrite andb_assoc.
Qed.

Lemma dot_star_single_line v : single_line v = true → Py.dot_star_eol v = Some v.
Proof.
  induction v as [|c v IH]; [done|]. cbn [single_line Py.dot_star_eol].
  intros [[Hn _]%andb_prop Hv]%andb_prop.
  apply negb_true_iff in Hn. rewrite Hn, IH by done. done.
Qed.

Lemma clean_spec v :
  clean v = true
  ↔ v ≠ EmptyString ∧ Py.lstrip v = v ∧ Py.rstrip v = v ∧ single_line v = true.
Proof.
  unfold clean. rewrite !andb_true_iff, negb_true_iff, String.eqb_neq, !String.eqb_eq.
  tauto.
Qed.

Lemma rev_app_rev_app s t u :
  String.rev_app (String.rev_app s t) u = String.rev_app t (s +:+ u).
Proof.
  revert t u. induction s as [|c s IH]; intros t u; [done|].
  cbn [String.rev_app]. by rewrite IH.
Qed.

Lemma readlines_go_line body cur rest :
  single_line body = true →
  Py.readlines_go cur (body +:+ String "010" rest)
  = String.rev (String "010" (String.rev_app body cur))
    :: Py.readlines_go EmptyString rest.
Proof.
  revert cur. induction body as [|c body IH]; intros cur Hb.
  - done.
  - cbn [single_line] in Hb. apply andb_prop in Hb as [[Hn Hr]%andb_prop Hb].
    apply negb_true_iff in Hn, Hr.
    rewrite app_cons. cbn [Py.readlines_go]. rewrite Hn, Hr. by rewrite IH.
Qed.

Lemma split_no_semicolon s : no_semicolon s = true → Py.split ";" s = [s].
Proof.
  induction s as [|c s IH]; [done|]. cbn [no_semicolon Py.split].
  intros [Hc Hs]%andb_prop. apply negb_true_iff in Hc. rewrite Hc, IH by done. done.
Qed.

Lemma split_app_semicolon s t :
  no_semicolon s = true →
  Py.split ";" (s +:+ ";" +:+ t) = s :: Py.split ";" t.
Proof.
  induction s as [|c s IH]; [done|]. cbn [no_semicolon].
  intros [Hc Hs]%andb_prop. apply negb_true_iff in Hc.
  rewrite app_cons. cbn [Py.split]. rewrite Hc, IH by done. done.
Qed.

Lemma split_join (l : list string) :
  l ≠ [] → Forall (fun s => no_semicolon s = true) l →
  Py.split ";" (Py.join ";" l) = l.
Proof.
  intros Hne HF. induction HF as [|s l Hs HF IH]; [done|].
  destruct l as [|s' l].
  - by apply split_no_semicolon.
  - cbn [Py.join]. rewrite split_app_semicolon by done. f_equal. by apply IH.
Qed.

Lemma join_nonempty (l : list string) :
  l ≠ [] → Forall (fun s => s ≠ EmptyString) l → Py.join ";" l ≠ EmptyString.
Proof.
  intros Hne HF. destruct HF as [|s l Hs HF]; [done|].
  destruct l as [|s' l]; [done|]. cbn [Py.join].
  destruct s; [done|]. by rewrite app_cons.
Qed.

(** The parser reads a line of the serializer as the pair it was written
    from. *)
Lemma ris_line_tag_line tag v :
  is_tag tag = true → tag ≠ "ER" → clean v = true →
  tag_line (ris_line tag v) (tag, v).
Proof.
  intros Htag Her (Hne & Hl & Hr & Hs)%clean_spec.
  destruct tag as [|c1 [|c2 [|]]]; try done.
  cbn [is_tag] in Htag. apply andb_prop in Htag as [H1 H2].
  assert (Hstrip : Py.strip (ris_line (String c1 (String c2 EmptyString)) v)
                   = String c1 (String c2 (String " " (String " " (String "-" (String " " v)))))).
  { unfold Py.strip, ris_line.
    change (String c1 (String c2 "") +:+ "  - " +:+ v +:+ String "010" EmptyString)
      with (String c1 (String c2 (String " " (String " " (String "-" (String " " (v +:+ String "010" EmptyString))))))).
    cbn [Py.lstrip]. rewrite (tag_char_not_space c1 H1).
    change (String c1 (String c2 (String " " (String " " (String "-" (String " " (v +:+ String "010" EmptyString)))))))
      with ((String c1 (String c2 (String " " (String " " (String "-" (String " " v)))))) +:+ String "010" EmptyString).
    rewrite rstrip_app_newline.
    change (String c1 (String c2 (String " " (String " " (String "-" (String " " v))))))
      with ((String c1 (String c2 (String " " (String " " (String "-" (String " " EmptyString)))))) +:+ v).
    by apply rstrip_app_fixed. }
  unfold tag_line. rewrite Hstrip. split; [done|]. split.
  - unfold Py.startswith. cbn [String.prefix].
    destruct (ascii_dec "E" c1) as [<-|]; [|done].
    destruct (ascii_dec "R" c2) as [<-|]; done.
  - exists v. cbn [fst snd]. split.
    + unfold Py.re_match. rewrite H1, H2. cbn [andb Py.lstrip].
      change (Py.isspace " ") with true. cbn [Py.lstrip].
      change (Py.isspace "-") with false. cbn match. cbn [Py.lstrip].
      change (Py.isspace " ") with true. cbn match. rewrite Hl.
      by rewrite dot_star_single_line.
    + unfold Py.strip. by rewrite Hl, Hr.
Qed.

Lemma ris_line_body tag v :
  ris_line tag v = (tag +:+ "  - " +:+ v) +:+ String "010" EmptyString.
Proof. unfold ris_line. by rewrite !app_assoc_str. Qed.

Lemma ris_line_single tag v :
  is_tag tag = true → single_line v = true →
  single_line (tag +:+ "  - " +:+ v) = true.
Proof.
  intros Htag Hv. destruct tag as [|c1 [|c2 [|]]]; try done.
  cbn [is_tag] in Htag. apply andb_prop in Htag as [H1 H2].
  destruct (tag_char_single_line c1 H1) as [Ha Hb].
  destruct (tag_char_single_line c2 H2) as [Hc Hd].
  rewrite !app_cons, app_empty_l. cbn [single_line]. rewrite Ha, Hb, Hc, Hd.
  rewrite single_line_app, Hv. reflexivity.
Qed.

End RoundTripStrings.

(** ** The round trip: blocks and records *)

Section RoundTripBlocks.
Context (standards : schema).
Implicit Types (ref : record) (t f tag : string) (pairs : list (string * string)).

Local Abbreviation fields := (fields_of standards).
Local Abbreviation multi_value := (multi_value_fields standards).
Local Abbreviation written := (fun p : string * string => ris_line p.1 p.2).

(** A text made of single lines, each closed by a line feed, reads back as
    these lines. *)
Lemma readlines_closed_lines (ls : list string) :
  Forall (fun l => ∃ body, l = body +:+ String "010" EmptyString
                           ∧ single_line body = true) ls →
  Py.readlines (lines_text ls) = ls.
Proof.
  unfold Py.readlines. induction 1 as [|l ls (body & -> & Hb) _ IH]; [done|].
  cbn [lines_text foldr]. fold (lines_text ls).
  rewrite app_assoc_str, app_cons, app_empty_l.
  rewrite readlines_go_line by done. rewrite IH. f_equal.
  unfold String.rev. cbn [String.rev_app]. by rewrite rev_app_rev_app.
Qed.

Lemma filter_all {A} (P : A → Prop) `{∀ x, Decision (P x)} (l : list A) :
  Forall P l → filter P l = l.
Proof.
  induction 1 as [|x l Hx _ IH]; [done|].
  rewrite filter_cons_True by done. by rewrite IH.
Qed.

Lemma pack_vals (o : option value) :
  match o with Some (Multi l) => 2 ≤ length l | _ => True end →
  pack (vals o) = o.
Proof.
  destruct o as [[s|l]|]; try done. destruct l as [|a [|b l]]; simpl; try done; lia.
Qed.

Lemma filter_tag_concat (g : string → list string) (fl : list string) t :
  NoDup fl →
  (filter (fun p : string * string => p.1 = t)
          (concat ((fun f => (fun v => (f, v)) <$> g f) <$> fl))).*2
  = if decide (t ∈ fl) then g t else [].
Proof.
  induction 1 as [|f fl Hnin Hnd IH].
  - cbn. rewrite decide_False; [done|]. by intros ?%elem_of_nil.
  - rewrite fmap_cons. cbn [concat]. rewrite filter_app, fmap_app, IH.
    destruct (decide (f = t)) as [->|Hne].
    + destruct (decide (t ∈ fl)) as [|_]; [done|].
      destruct (decide (t ∈ t :: fl)) as [_|Hn]; [|by destruct Hn; left].
      rewrite app_nil_r. induction (g t) as [|v l IHl]; [done|].
      rewrite fmap_cons, filter_cons. rewrite decide_True by done.
      rewrite fmap_cons. cbn [snd]. by rewrite IHl.
    + assert (Hnone : filter (fun p : string * string => p.1 = t)
                             ((fun v => (f, v)) <$> g f) = []).
      { induction (g f) as [|v l IHl]; [done|].
        rewrite fmap_cons, filter_cons. by rewrite decide_False. }
      rewrite Hnone. cbn [fmap list_fmap app].
      destruct (decide (t ∈ fl)) as [Hin|Hnin'].
      * rewrite decide_True; [done|]. by right.
      * rewrite decide_False; [done|]. by intros [?|?]%elem_of_cons.
Qed.

Lemma value_ready_vals multi v :
  value_ready multi v = true →
  Forall (fun s => clean s = true) (vals (Some v))
  ∧ match v with Multi l => 2 ≤ length l | _ => True end.
Proof.
  destruct v as [s|l]; cbn [value_ready vals].
  - intros [Hc _]%andb_prop. split; [|done]. by constructor.
  - intros [[_ Hlen]%andb_prop Hall]%andb_prop. split.
    + apply Forall_forall. intros s Hs. rewrite forallb_forall in Hall.
      specialize (Hall s). rewrite <- list_elem_of_In in Hall.
      by apply Hall, andb_prop in Hs as [? _].
    + by apply Nat.leb_le in Hlen.
Qed.

Lemma clean_strip s : clean s = true → Py.strip s = s.
Proof.
  intros (_ & Hl & Hr & _)%clean_spec. unfold Py.strip. by rewrite Hl, Hr.
Qed.

(** The lines of a column holding a value the round trip gives back. *)
Lemma field_lines_ready f v :
  value_ready (bool_decide (f ∈ multi_value)) v = true →
  cell_of {[ f := v ]} f ≠ EmptyString
  ∧ field_lines multi_value f (cell_of {[ f := v ]} f) = ris_line f <$> vals (Some v).
Proof.
  unfold cell_of, field_lines. rewrite lookup_singleton_eq.
  destruct v as [s|l]; cbn [value_ready vals].
  - intros [Hc Hm]%andb_prop. pose proof (clean_strip s Hc) as Hstrip.
    apply clean_spec in Hc as (Hne & _).
    split; [done|]. destruct (bool_decide (f ∈ multi_value)); [|done].
    cbn [negb orb] in Hm. rewrite split_no_semicolon by done.
    rewrite fmap_cons, Hstrip.
    rewrite filter_cons. by rewrite decide_True.
  - intros [[Hm Hlen]%andb_prop Hall]%andb_prop. rewrite Hm.
    apply Nat.leb_le in Hlen.
    assert (HF : Forall (fun s => clean s = true ∧ no_semicolon s = true) l).
    { apply Forall_forall. intros s Hs. rewrite forallb_forall in Hall.
      specialize (Hall s). rewrite <- list_elem_of_In in Hall.
      by apply Hall, andb_prop in Hs. }
    assert (Hnil : l ≠ []) by (destruct l; [simpl in Hlen; lia|done]).
    split.
    + apply join_nonempty; [done|]. eapply Forall_impl; [exact HF|].
      intros s [Hc _]. by apply clean_spec in Hc as [? _].
    + rewrite split_join; [|done|by eapply Forall_impl; [exact HF|]; intros s [_ ?]].
      f_equal. clear Hall Hlen Hnil. induction HF as [|s l [Hc _] _ IH]; [done|].
      pose proof (clean_strip s Hc) as Hstrip.
      apply clean_spec in Hc as (Hne & _).
      rewrite fmap_cons, Hstrip, filter_cons.
      rewrite decide_True by done. by rewrite IH.
Qed.

Section OneRecord.
Context (ref : record) (ty : string).
Hypothesis ref_ready : ready standards ref.
Hypothesis ref_TY : ref !! "TY" = Some (Scalar ty).

Local Abbreviation d := (dict_of_row fields (project_row fields ref)).

Lemma ready_key tag v :
  ref !! tag = Some v →
  is_tag tag = true ∧ tag ≠ "ER" ∧ tag ∈ fields
  ∧ (tag ≠ "TY"
     → value_ready (bool_decide (tag ∈ multi_value)) v = true).
Proof.
  intros Hv. destruct ref_ready as [_ Hall].
  destruct (Hall tag v Hv) as (H1 & H2 & H3 & H4).
  repeat split; try done. by apply fields_of_elem.
Qed.

Lemma ready_TY_clean : clean ty = true.
Proof.
  destruct ref_ready as [(ty' & Hty & Hc) _]. rewrite ref_TY in Hty. by simplify_eq.
Qed.

Lemma TY_in_fields : "TY" ∈ fields.
Proof. by destruct (ready_key "TY" _ ref_TY) as (_ & _ & ? & _). Qed.

Lemma cell_projected f : f ∈ fields → cell d f = cell_of ref f.
Proof.
  intros Hf. unfold cell. rewrite dict_of_projected_row. by rewrite decide_True.
Qed.

Lemma cell_of_singleton f v : ref !! f = Some v → cell_of ref f = cell_of {[ f := v ]} f.
Proof. intros Hv. unfold cell_of. by rewrite Hv, lookup_singleton_eq. Qed.

(** The lines between the [TY] line and the end marker. *)
Lemma middle_lines (fl : list string) :
  (∀ f, f ∈ fl → f ∈ fields) →
  concat ((fun field => field_lines multi_value field (cell d field))
            <$> filter (fun field => emitted d field = true) fl)
  = written <$> concat ((fun field => (fun v => (field, v)) <$> vals (ref !! field))
                          <$> filter (fun field => field ≠ "TY" ∧ field ≠ "ER") fl).
Proof.
  induction fl as [|f fl IH]; intros Hfl; [done|].
  rewrite !filter_cons.
  assert (IH' := IH (fun f' Hf' => Hfl f' (list_elem_of_further _ _ _ Hf'))). clear IH.
  assert (Hcell : cell d f = cell_of ref f) by (apply cell_projected, Hfl; by left).
  destruct (decide (f = "TY")) as [->|HnTY].
  { assert (Hem : emitted d "TY" = false) by done.
    rewrite Hem. rewrite decide_False by done.
    rewrite decide_False by (by intros [? _]). done. }
  destruct (decide (f = "ER")) as [->|HnER].
  { assert (Hem : emitted d "ER" = false) by done.
    rewrite Hem. rewrite decide_False by done.
    rewrite decide_False by (by intros [_ ?]). done. }
  rewrite (decide_True (P := f ≠ "TY" ∧ f ≠ "ER")) by done.
  rewrite fmap_cons. cbn [concat]. rewrite fmap_app, <- IH'.
  assert (Hem : emitted d f = negb (String.eqb (cell_of ref f) EmptyString)).
  { unfold emitted. rewrite Hcell.
    apply String.eqb_neq in HnTY, HnER. by rewrite HnTY, HnER. }
  destruct (ref !! f) as [v|] eqn:Hv.
  - destruct (ready_key f v Hv) as (_ & _ & _ & Hready).
    destruct (field_lines_ready f v (Hready HnTY)) as [Hne Hlines].
    rewrite (cell_of_singleton f v Hv) in Hem, Hcell.
    apply String.eqb_neq in Hne. rewrite Hne in Hem. cbn [negb] in Hem.
    rewrite Hem. rewrite decide_True by done.
    rewrite fmap_cons. cbn [concat]. rewrite Hcell, Hlines. f_equal.
    by rewrite <- list_fmap_compose.
  - unfold cell_of in Hem. rewrite Hv in Hem. cbn in Hem.
    rewrite Hem. by rewrite decide_False.
Qed.

Lemma block_ready :
  block_lines fields multi_value d
  = (written <$> (("TY", ty) :: entries fields ref))
    ++ [ris_line "ER" EmptyString; String "010" EmptyString].
Proof.
  unfold block_lines, entries. rewrite middle_lines by done.
  rewrite cell_projected by apply TY_in_fields.
  unfold cell_of. rewrite ref_TY. by rewrite fmap_cons.
Qed.

Lemma entries_ok :
  Forall (fun p : string * string =>
            is_tag p.1 = true ∧ p.1 ≠ "ER" ∧ clean p.2 = true)
         (("TY", ty) :: entries fields ref).
Proof.
  constructor; [by split; [|split; [|apply ready_TY_clean]]|].
  unfold entries. apply Forall_concat, Forall_fmap, Forall_forall.
  intros f [[HnTY HnER] Hf]%list_elem_of_filter. cbn.
  apply Forall_fmap, Forall_forall. intros v Hv. cbn.
  destruct (ref !! f) as [val|] eqn:Hval; [|by apply elem_of_nil in Hv].
  destruct (ready_key f val Hval) as (Htag & _ & _ & Hready).
  destruct (value_ready_vals _ val (Hready HnTY)) as [Hclean _].
  repeat split; try done. rewrite Forall_forall in Hclean. by apply Hclean.
Qed.

(** Storing the pairs of the block one after the other rebuilds the
    record. *)
Lemma stored_entries :
  foldl (fun c p => store p.1 p.2 c) ∅ (("TY", ty) :: entries fields ref) = ref.
Proof.
  apply map_eq. intros t. rewrite store_all_lookup, lookup_empty, extend_none.
  rewrite filter_cons. unfold entries.
  assert (Hnd : NoDup (filter (fun field => field ≠ "TY" ∧ field ≠ "ER") fields))
    by apply NoDup_filter, fields_of_NoDup.
  destruct (decide (t = "TY")) as [->|HnTY].
  - rewrite decide_True by done. rewrite fmap_cons, filter_tag_concat by done.
    rewrite decide_False by (by intros [[? _] _]%list_elem_of_filter).
    by rewrite ref_TY.
  - rewrite decide_False by (cbn; congruence). rewrite filter_tag_concat by done.
    destruct (ref !! t) as [v|] eqn:Hv.
    + destruct (ready_key t v Hv) as (_ & HnER & Hin & Hready).
      rewrite decide_True by (by apply list_elem_of_filter).
      apply pack_vals. by apply (value_ready_vals _ v (Hready HnTY)).
    + case_decide; by rewrite ?Hv.
Qed.

Lemma block_parsed (st : parser_state) :
  current_ref st = ∅ →
  foldl parse_line st (block_lines fields multi_value d)
  = {| references := references st ++ [ref]; current_ref := ∅ |}.
Proof.
  intros Hcur. rewrite block_ready, foldl_app.
  assert (Htags : Forall2 tag_line (written <$> (("TY", ty) :: entries fields ref))
                          (("TY", ty) :: entries fields ref)).
  { apply Forall2_fmap_l, Forall_Forall2_diag.
    eapply Forall_impl; [apply entries_ok|].
    intros [tag v] (H1 & H2 & H3). by apply ris_line_tag_line. }
  rewrite (parse_lines_tags _ _ _ Htags).
  assert (Hkept : filter (fun p => kept p = true) (("TY", ty) :: entries fields ref)
                  = ("TY", ty) :: entries fields ref).
  { apply filter_all. eapply Forall_impl; [apply entries_ok|].
    intros [tag v] (_ & _ & Hc). apply clean_spec in Hc as [Hne _].
    unfold kept. apply orb_true_intro. left. apply negb_true_iff.
    by apply String.eqb_neq. }
  rewrite Hkept, Hcur, stored_entries.
  cbn [foldl]. unfold parse_line at 2.
  change (Py.strip (ris_line "ER" EmptyString)) with "ER  -".
  cbn [String.eqb Ascii.eqb Bool.eqb]. 
  change (Py.startswith "ER" "ER  -") with true. cbn match. cbn [current_ref references].
  assert (Hcomplete : complete ref = true).
  { unfold complete. apply andb_true_intro. split; apply bool_decide_eq_true_2.
    - intros ->. by rewrite lookup_empty in ref_TY.
    - by rewrite ref_TY. }
  rewrite Hcomplete. reflexivity.
Qed.

Lemma block_closed :
  Forall (fun l => ∃ body, l = body +:+ String "010" EmptyString
                           ∧ single_line body = true)
         (block_lines fields multi_value d).
Proof.
  rewrite block_ready. apply Forall_app. split.
  - apply Forall_fmap. eapply Forall_impl; [apply entries_ok|].
    intros [tag v] (H1 & _ & (_ & _ & _ & H3)%clean_spec). cbn.
    exists (tag +:+ "  - " +:+ v). split; [apply ris_line_body|].
    by apply ris_line_single.
  - constructor; [by exists "ER  - "|]. constructor; [by exists EmptyString|done].
Qed.

End OneRecord.
End RoundTripBlocks.

(** ** The round trip: the whole text *)

Section RoundTripText.
Context (standards : schema).
Implicit Types (refs : list record) (st : parser_state).

Local Abbreviation fields := (fields_of standards).
Local Abbreviation multi_value := (multi_value_fields standards).
Local Abbreviation block :=
  (fun ref : record =>
     block_lines fields multi_value (dict_of_row fields (project_row fields ref))).

Lemma project_rows_fmap refs :
  project_rows fields refs = project_row fields <$> refs.
Proof. unfold project_rows. by rewrite foldl_snoc_map. Qed.

Lemma dict_rows_projected refs :
  fields ≠ [] →
  dict_rows fields (project_rows fields refs)
  = (fun ref => dict_of_row fields (project_row fields ref)) <$> refs.
Proof.
  intros Hne. unfold dict_rows. rewrite project_rows_fmap.
  rewrite filter_all.
  - by rewrite <- list_fmap_compose.
  - apply Forall_fmap, Forall_forall. intros ref _. cbn.
    rewrite project_row_map. by destruct fields.
Qed.

Lemma blocks_parsed refs st :
  Forall (ready standards) refs →
  current_ref st = ∅ →
  foldl parse_line st (concat (block <$> refs))
  = {| references := references st ++ refs; current_ref := ∅ |}.
Proof.
  intros HF. revert st. induction HF as [|ref refs Href _ IH]; intros st Hcur.
  - cbn. rewrite app_nil_r. destruct st. cbn in *. by subst.
  - rewrite fmap_cons. cbn [concat]. rewrite foldl_app.
    pose proof Href as [(ty & Hty & Hc) _].
    rewrite (block_parsed standards ref ty Href Hty) by done.
    rewrite IH by done. cbn [references]. by rewrite <- app_assoc.
Qed.

Lemma blocks_closed refs :
  Forall (ready standards) refs →
  Forall (fun l => ∃ body, l = body +:+ String "010" EmptyString
                           ∧ single_line body = true)
         (concat (block <$> refs)).
Proof.
  intros HF. apply Forall_concat, Forall_fmap.
  eapply Forall_impl; [exact HF|]. intros ref Href. cbn.
  pose proof Href as [(ty & Hty & Hc) _].
  by apply (block_closed standards ref ty Href Hty).
Qed.

Lemma ris_text_blocks refs :
  Forall (ready standards) refs →
  ris_text fields multi_value (dict_rows fields (project_rows fields refs))
  = lines_text (concat (block <$> refs)).
Proof.
  intros HF. destruct HF as [|ref refs Href HF]; [done|].
  assert (Hne : fields ≠ []).
  { destruct Href as [(ty & Hty & _) Hall].
    intros Hnil. destruct (Hall "TY" _ Hty) as (_ & _ & Hin & _).
    apply fields_of_elem in Hin. rewrite Hnil in Hin. by apply elem_of_nil in Hin. }
  assert (HF' : Forall (ready standards) (ref :: refs)) by by constructor.
  clear Href HF. revert HF'. generalize (ref :: refs). clear ref refs. intros refs HF.
  unfold ris_text. rewrite dict_rows_projected by done.
  rewrite filter_all.
  - rewrite lines_text_concat. by rewrite <- !list_fmap_compose.
  - apply Forall_fmap. eapply Forall_impl; [exact HF|]. intros ref Href. cbn.
    pose proof Href as [(ty & Hty & Hc) _].
    rewrite (cell_projected standards ref) by (by eapply TY_in_fields).
    unfold cell_of. rewrite Hty. by apply clean_spec in Hc as [? _].
Qed.

End RoundTripText.

(** ** Tables written and read back *)

Section ReadBack.

Lemma universal_newlines_no_cr s : no_cr s = true → universal_newlines s = s.
Proof.
  induction s as [|c s IH]; [done|]. cbn [no_cr universal_newlines].
  intros [Hc Hs]%andb_prop. apply negb_true_iff in Hc. rewrite Hc.
  by rewrite IH.
Qed.

Lemma read_back_plain rows : plain_table rows → read_back rows = (rows, true).
Proof.
  induction 1 as [|r rows Hr _ IH]; [done|]. cbn [read_back].
  assert (Hsame : universal_newlines <$> r = r).
  { clear -Hr. induction Hr as [|c r Hc _ IH]; [done|].
    rewrite fmap_cons, IH. f_equal. apply universal_newlines_no_cr.
    by apply andb_prop in Hc as [? _]. }
  rewrite Hsame.
  assert (Hfit : existsb oversized r = false).
  { clear -Hr. induction Hr as [|c r Hc _ IH]; [done|].
    cbn [existsb]. rewrite IH. apply andb_prop in Hc as [_ Hc].
    apply negb_true_iff in Hc. by rewrite Hc. }
  by rewrite Hfit, IH.
Qed.

Lemma written_plain rows : plain_table rows → written rows = Table rows.
Proof. intros Hp. unfold written. by rewrite (read_back_plain rows Hp). Qed.

End ReadBack.

(** C1, as the code has it: records that hold one non-empty [TY] value, only
    tags of the schema that the parser reads (none of them [ER]), values
    that are non-empty, trimmed and on one line, lists of two or more values
    only under tags the schema classifies as multi-value, and no semicolon
    in a value under such a tag, come back from projection, serialization
    and parsing exactly as they were, the values of a list in their order,
    when no cell of the table written in between, header included, holds a
    carriage return or is over the field size limit of the [csv] reader. *)
Theorem round_trip_gives_back (srows : list row) (refs : list record) :
  standards_of_rows srows !! "TY" ≠ None →
  Forall (ready (standards_of_rows srows)) refs →
  plain_table (fields_of (standards_of_rows srows)
               :: project_rows (fields_of (standards_of_rows srows)) refs) →
  round_trip srows refs = Ok refs.
Proof.
  intros HTY HF Hplain. unfold round_trip.
  set (standards := standards_of_rows srows) in *.
  unfold write_table, open_write.
  replace (open_error "rows.csv" _) with (@None exn) by reflexivity.
  cbn [snd fs trace]. rewrite (written_plain _ Hplain).
  set (w := {| fs := <["rows.csv" := Table (fields_of standards
                                       :: project_rows (fields_of standards) refs)]>
                       {[ "stds.csv" := Table srows; "out.ris" := Text EmptyString ]};
               trace := _ |}).
  destruct (@convert_csv_to_ris_run sample_platform "rows.csv" "stds.csv" "out.ris" srows
              (fields_of standards) (project_rows (fields_of standards) refs) w)
    as (evs & Hrun & _); [done..| |].
  { intros _. split; [done|]. reflexivity. }
  rewrite Hrun. cbn [snd].
  rewrite bool_decide_eq_false_2
    by (intros Hn; apply Hn; apply header_accepted_iff; reflexivity).
  unfold parse_ris_file, read_text. rewrite !bind_run. cbn [emit fs trace with_text].
  unfold lookup_text. cbn [fs]. rewrite lookup_insert_eq. cbn [ret fst].
  f_equal. fold standards. rewrite (ris_text_blocks standards refs HF).
  rewrite readlines_closed_lines by (by apply blocks_closed).
  unfold parse_ris_lines. rewrite (blocks_parsed standards refs _ HF) by done.
  done.
Qed.

Lemma round_trip_gives_back_witness :
  round_trip [["TY"; "Type"]; ["AU"; "Author"; ""; "Each author on its own line"];
              ["TI"; "Title"]]
             [ {[ "TY" := Scalar "JOUR"; "AU" := Multi ["Smith, J"; "Doe, A"];
                  "TI" := Scalar "A Study; part one" ]} ]
  = Ok [ {[ "TY" := Scalar "JOUR"; "AU" := Multi ["Smith, J"; "Doe, A"];
            "TI" := Scalar "A Study; part one" ]} ].
Proof.
  apply round_trip_gives_back.
  - vm_compute. discriminate.
  - constructor; [|constructor]. split.
    + exists "JOUR". split; reflexivity.
    + apply (bool_decide_unpack _). vm_compute. exact I.
  - apply (bool_decide_unpack _). vm_compute. exact I.
Defined.

(** C1, as stated, fails: a tag the schema does not classify as multi-value
    and that occurs twice in a record comes back as one string, the values
    joined by a semicolon. *)
Lemma unclassified_list_is_flattened :
  round_trip [["TY"; "Type"]; ["KW"; "Keywords"]]
             [ {[ "TY" := Scalar "JOUR"; "KW" := Multi ["a"; "b"] ]} ]
  = Ok [ {[ "TY" := Scalar "JOUR"; "KW" := Scalar "a;b" ]} ]
  ∧ ¬ same_up_to_order
        [ {[ "TY" := Scalar "JOUR"; "KW" := Multi ["a"; "b"] ]} ]
        [ {[ "TY" := Scalar "JOUR"; "KW" := Scalar "a;b" ]} ].
Proof.
  split; [vm_compute; reflexivity|].
  intros H. apply Forall2_cons in H as [H _]. specialize (H "KW").
  vm_compute in H. exact H.
Qed.

(** ** The example of the format description, end to end *)

Example end_to_end :
  round_trip [["TY"; "Type"]; ["AU"; "Author"; ""; "Each value on its own line"];
              ["TI"; "Title"]; ["ER"; "End of reference"]]
             (parse_ris_lines ["TY  - JOUR"; "AU  - Smith, J"; "AU  - Doe, A";
                               "TI  - A Study"; "ER  -"])
  = Ok [ {[ "TY" := Scalar "JOUR"; "AU" := Multi ["Smith, J"; "Doe, A"];
            "TI" := Scalar "A Study" ]} ].
Proof. vm_compute. reflexivity. Qed.

Example end_to_end_row :
  project_rows ["AU"; "ER"; "TI"; "TY"]
    (parse_ris_lines ["TY  - JOUR"; "AU  - Smith, J"; "AU  - Doe, A";
                      "TI  - A Study"; "ER  -"])
  = [["Smith, J;Doe, A"; ""; "A Study"; "JOUR"]].
Proof. vm_compute. reflexivity. Qed.

(** * Further properties *)

(** ** The schema loader *)

Section SchemaContent.
Implicit Types (standards : schema) (rows : list row) (r : row) (tag : string).

Lemma standards_step_lookup standards r tag :
  standards_step standards r !! tag
  = if decide (declares tag r ∧ tag ≠ EmptyString) then Some (info_of r)
    else standards !! tag.
Proof.
  unfold standards_step, declares, info_of.
  destruct (bool_decide (r = []) || (length r <? 2)) eqn:Hshort.
  - rewrite decide_False; [done|]. intros [[Hlen _] _].
    apply orb_prop in Hshort as [Hnil|Hlt].
    + apply bool_decide_eq_true in Hnil. subst. simpl in Hlen. lia.
    + apply Nat.ltb_lt in Hlt. lia.
  - apply orb_false_elim in Hshort as [_ Hlen]. apply Nat.ltb_ge in Hlen.
    cbn zeta.
    destruct (String.eqb_spec (Py.strip (nth 0 r EmptyString)) EmptyString) as [He|Hne];
      cbn [negb].
    + rewrite decide_False; [done|]. intros [[_ <-] Hn]. done.
    + destruct (decide (tag = Py.strip (nth 0 r EmptyString))) as [->|Hother].
      * rewrite lookup_insert_eq, decide_True by done. f_equal. f_equal.
        -- by rewrite (proj2 (Nat.ltb_lt 1 (length r))) by lia.
        -- destruct (3 <? length r) eqn:H3; [done|].
           apply Nat.ltb_ge in H3. by rewrite nth_overflow by lia.
      * rewrite lookup_insert_ne by done. rewrite decide_False; [done|].
        intros [[_ Heq] _]. by subst.
Qed.

Lemma standards_fold_untouched standards rows tag :
  Forall (fun r => ¬ declares tag r) rows →
  foldl standards_step standards rows !! tag = standards !! tag.
Proof.
  intros HF. revert standards. induction HF as [|r rows Hr _ IH]; intros standards; [done|].
  cbn [foldl]. rewrite IH, standards_step_lookup.
  rewrite decide_False; [done|]. by intros [? _].
Qed.

Lemma standards_fold_keys standards rows tag :
  is_Some (foldl standards_step standards rows !! tag)
  ↔ is_Some (standards !! tag) ∨ (tag ≠ EmptyString ∧ Exists (declares tag) rows).
Proof.
  revert standards. induction rows as [|r rows IH]; intros standards; cbn [foldl].
  - rewrite Exists_nil. tauto.
  - rewrite IH, standards_step_lookup, Exists_cons.
    destruct (decide (declares tag r ∧ tag ≠ EmptyString)) as [[Hd Hne]|Hn].
    + split; [|by eauto]. intros _. right. split; [done|]. by left.
    + tauto.
Qed.

End SchemaContent.

(** X1: a schema source that does not exist makes the loader report the
    error and raise it again; no file is touched. *)
Theorem load_missing_file (standards_file : string) (w : world) :
  fs w !! standards_file = None →
  load_ris_standards standards_file w
  = (Raise (FileNotFoundError standards_file),
     {| fs := fs w;
        trace := trace w
                 ++ [OpenRead standards_file;
                     Print (ErrorLoading standards_file
                              (FileNotFoundError standards_file))] |}).
Proof.
  intros Hnone. unfold load_ris_standards, try_except, read_table.
  rewrite !bind_run. cbn [emit]. unfold lookup_table. cbn [fs]. rewrite Hnone.
  rewrite bind_run. unfold print, emit, raise. cbn [fs trace].
  by rewrite <- app_assoc.
Qed.

Lemma load_missing_file_witness :
  load_ris_standards "stds.csv" {| fs := ∅; trace := [] |}
  = (Raise (FileNotFoundError "stds.csv"),
     {| fs := ∅;
        trace := [OpenRead "stds.csv";
                  Print (ErrorLoading "stds.csv" (FileNotFoundError "stds.csv"))] |}).
Proof. apply (load_missing_file "stds.csv" {| fs := ∅; trace := [] |}). reflexivity. Defined.

(** X2: the loader succeeds exactly when some row with at least two cells
    has a first cell that trims to [TY]; the tags of the schema it returns
    are then the non-empty trimmed first cells of the rows with at least two
    cells, and without such a [TY] row it raises the error of the missing
    tag. *)
Theorem loader_accepts_iff_TY_row (standards_file : string) (rows : list row)
    (w : world) :
  fs w !! standards_file = Some (Table rows) →
  (Exists (declares "TY") rows →
     ∃ standards,
       (load_ris_standards standards_file w).1 = Ok standards
       ∧ ∀ tag, is_Some (standards !! tag)
                ↔ tag ≠ EmptyString ∧ Exists (declares tag) rows)
  ∧ (¬ Exists (declares "TY") rows →
     (load_ris_standards standards_file w).1
     = Raise (ValueError "TY field missing in RIS_stds.csv")).
Proof.
  intros Hf. rewrite (load_value _ rows) by done.
  assert (HTY : is_Some (standards_of_rows rows !! "TY") ↔ Exists (declares "TY") rows).
  { unfold standards_of_rows. rewrite standards_fold_keys, lookup_empty.
    split; [by intros [[? ?]|[_ ?]]|]. intros ?. by right. }
  split; intros Hex.
  - exists (standards_of_rows rows). split.
    + rewrite bool_decide_eq_false_2; [done|].
      apply HTY in Hex as [i Hi]. by rewrite Hi.
    + intros tag. unfold standards_of_rows.
      rewrite standards_fold_keys, lookup_empty. split; [|by right].
      by intros [[? ?]|?].
  - rewrite bool_decide_eq_true_2; [done|].
    destruct (standards_of_rows rows !! "TY") eqn:E; [|done].
    destruct Hex. apply HTY. by eexists.
Qed.

Lemma loader_accepts_iff_TY_row_witness :
  ∃ standards,
    (load_ris_standards "stds.csv"
       {| fs := {[ "stds.csv" := Table [["Tag"]; [" TY "; "Type"]; [""; "x"]] ]};
          trace := [] |}).1 = Ok standards
    ∧ ∀ tag, is_Some (standards !! tag)
             ↔ tag ≠ EmptyString
               ∧ Exists (declares tag) [["Tag"]; [" TY "; "Type"]; [""; "x"]].
Proof.
  refine (proj1 (loader_accepts_iff_TY_row "stds.csv"
                   [["Tag"]; [" TY "; "Type"]; [""; "x"]]
                   {| fs := {[ "stds.csv" := Table [["Tag"]; [" TY "; "Type"]; [""; "x"]] ]};
                      trace := [] |} _) _).
  - reflexivity.
  - apply Exists_cons. right. apply Exists_cons. left. split; [simpl; lia|reflexivity].
Defined.

(** X3: when several rows declare the same tag, the schema keeps the
    description and the notes of the last of them; a row without a fourth
    cell gives empty notes. *)
Theorem last_declaring_row_wins (standards_file : string)
    (rows1 rows2 : list row) (r : row) (tag : string) (standards : schema)
    (w : world) :
  fs w !! standards_file = Some (Table (rows1 ++ r :: rows2)) →
  (load_ris_standards standards_file w).1 = Ok standards →
  declares tag r → tag ≠ EmptyString →
  Forall (fun r' => ¬ declares tag r') rows2 →
  standards !! tag
  = Some {| description := nth 1 r EmptyString; notes := nth 3 r EmptyString |}.
Proof.
  intros Hf Hload Hd Hne Hlater.
  rewrite (load_value _ (rows1 ++ r :: rows2)) in Hload by done.
  case_bool_decide; [done|]. injection Hload as <-.
  unfold standards_of_rows. rewrite foldl_app. cbn [foldl].
  rewrite standards_fold_untouched by done.
  rewrite standards_step_lookup. by rewrite decide_True.
Qed.

Lemma last_declaring_row_wins_witness :
  standards_of_rows [["TY"; "Type"]; ["AU"; "Author"; ""; "old"]; ["AU"; "Writer"]] !! "AU"
  = Some {| description := "Writer"; notes := "" |}.
Proof.
  apply (last_declaring_row_wins "stds.csv"
           [["TY"; "Type"]; ["AU"; "Author"; ""; "old"]] [] ["AU"; "Writer"] "AU"
           (standards_of_rows [["TY"; "Type"]; ["AU"; "Author"; ""; "old"]; ["AU"; "Writer"]])
           {| fs := {[ "stds.csv" :=
                         Table [["TY"; "Type"]; ["AU"; "Author"; ""; "old"]; ["AU"; "Writer"]] ]};
              trace := [] |}).
  - reflexivity.
  - vm_compute. reflexivity.
  - split; [simpl; lia|reflexivity].
  - discriminate.
  - constructor.
Defined.

(** ** The parser, further *)

Section ParserFurther.
Implicit Types (st : parser_state) (cur : record) (lines : list string).



Lemma parse_line_prefix refs cur raw :
  parse_line {| references := refs; current_ref := cur |} raw
  = {| references :=
         refs ++ references (parse_line {| references := []; current_ref := cur |} raw);
       current_ref :=
         current_ref (parse_line {| references := []; current_ref := cur |} raw) |}.
Proof.
  unfold parse_line. cbn [references current_ref].
  repeat case_match; cbn [references current_ref]; by rewrite ?app_nil_r.
Qed.

Lemma parse_loop_prefix lines refs cur :
  foldl parse_line {| references := refs; current_ref := cur |} lines
  = {| references :=
         refs ++ references (foldl parse_line {| references := []; current_ref := cur |} lines);
       current_ref :=
         current_ref (foldl parse_line {| references := []; current_ref := cur |} lines) |}.
Proof.
  revert refs cur. induction lines as [|raw lines IH]; intros refs cur.
  - cbn. by rewrite app_nil_r.
  - cbn [foldl]. rewrite parse_line_prefix.
    destruct (parse_line {| references := []; current_ref := cur |} raw) as [refs1 cur1].
    cbn [references current_ref]. rewrite IH, (IH refs1 cur1).
    cbn [references current_ref]. by rewrite app_assoc.
Qed.

Lemma pack_is_Some (vs : list string) : is_Some (pack vs) ↔ vs ≠ [].
Proof.
  destruct vs as [|v [|v' vs]]; cbn; split; try done; by intros [? ?].
Qed.

Lemma rstrip_idemp s : Py.rstrip (Py.rstrip s) = Py.rstrip s.
Proof.
  induction s as [|c s IH]; [done|]. cbn [Py.rstrip].
  destruct (Py.rstrip s) as [|c' t] eqn:E.
  - destruct (Py.isspace c) eqn:Hc; [done|]. cbn [Py.rstrip]. by rewrite Hc.
  - cbn [Py.rstrip]. cbn [Py.rstrip] in IH. by rewrite IH.
Qed.

Lemma lstrip_head s :
  Py.lstrip s = EmptyString
  ∨ ∃ c t, Py.lstrip s = String c t ∧ Py.isspace c = false.
Proof.
  induction s as [|c s IH]; [by left|]. cbn [Py.lstrip].
  destruct (Py.isspace c) eqn:Hc; [done|]. right. by exists c, s.
Qed.

Lemma strip_idemp s : Py.strip (Py.strip s) = Py.strip s.
Proof.
  unfold Py.strip. destruct (lstrip_head s) as [->|(c & t & -> & Hc)]; [done|].
  assert (Hl : Py.lstrip (Py.rstrip (String c t)) = Py.rstrip (String c t)).
  { cbn [Py.rstrip]. destruct (Py.rstrip t); rewrite ?Hc; cbn [Py.lstrip]; by rewrite Hc. }
  by rewrite Hl, rstrip_idemp.
Qed.

Lemma re_match_tag line tag v :
  Py.re_match line = Some (tag, v) →
  is_tag tag = true ∧ (Py.startswith "ER" line = false → tag ≠ "ER").
Proof.
  unfold Py.re_match. destruct line as [|c1 [|c2 rest]]; try done.
  destruct (Py.is_tag_char c1 && Py.is_tag_char c2) eqn:Htag; [|done].
  destruct (Py.lstrip rest) as [|c rest']; [done|].
  destruct c as [[] [] [] [] [] [] [] []]; try done.
  destruct (Py.dot_star_eol (Py.lstrip rest')); [|done].
  intros [= <- <-]. split; [done|].
  unfold Py.startswith. cbn [String.prefix]. intros Hp [= -> ->].
  cbn in Hp. by destruct rest.
Qed.

Lemma store_ok tag val cur :
  is_tag tag = true → tag ≠ "ER" → trimmed val →
  val ≠ EmptyString ∨ tag = "TY" →
  record_ok cur → record_ok (store tag val cur).
Proof.
  intros Htag Her Htrim Hval Hcur. unfold store.
  destruct (cur !! tag) as [[s|l]|] eqn:E; apply map_Forall_insert_2; try done;
    (split; [done|]); (split; [done|]); cbn [stored_ok].
  - destruct (Hcur tag _ E) as (_ & _ & Hs). cbn [stored_ok] in Hs.
    split; [cbn; lia|]. constructor; [done|]. by constructor.
  - destruct (Hcur tag _ E) as (_ & _ & Hlen & Hl).
    split; [rewrite length_app; lia|].
    apply Forall_app. split; [done|]. by constructor.
Qed.

Lemma parse_line_ok st raw :
  record_ok (current_ref st) → Forall record_ok (references st) →
  record_ok (current_ref (parse_line st raw))
  ∧ Forall record_ok (references (parse_line st raw)).
Proof.
  intros Hcur Hrefs. unfold parse_line. cbn zeta.
  destruct (String.eqb (Py.strip raw) EmptyString); [done|].
  destruct (Py.startswith "ER" (Py.strip raw)) eqn:Her.
  - destruct (complete (current_ref st)); [|done]. cbn [references current_ref].
    split; [apply map_Forall_empty|]. apply Forall_app. split; [done|]. by constructor.
  - destruct (Py.re_match (Py.strip raw)) as [[tag val]|] eqn:Hm; [|done].
    destruct (re_match_tag _ _ _ Hm) as [Htag Hner].
    destruct (negb (String.eqb (Py.strip val) EmptyString) || String.eqb tag "TY") eqn:Hk;
      [|done].
    cbn [references current_ref]. split; [|done].
    apply store_ok; try done; [by apply Hner|apply strip_idemp|].
    apply orb_prop in Hk as [Hv|Ht].
    + left. apply negb_true_iff in Hv. by apply String.eqb_neq.
    + right. by apply String.eqb_eq.
Qed.

Lemma parse_loop_ok lines st :
  record_ok (current_ref st) → Forall record_ok (references st) →
  record_ok (current_ref (foldl parse_line st lines))
  ∧ Forall record_ok (references (foldl parse_line st lines)).
Proof.
  revert st. induction lines as [|raw lines IH]; intros st Hcur Hrefs; [done|].
  cbn [foldl]. destruct (parse_line_ok st raw Hcur Hrefs). by apply IH.
Qed.

End ParserFurther.


(** X5: an input of tag lines only, with no end marker, yields the one
    record that holds all kept values when a [TY] line is among them (the
    flush after the loop), and no record otherwise. *)
Theorem trailing_record_is_flushed (lines : list string)
    (pairs : list (string * string)) :
  Forall2 tag_line lines pairs →
  parse_ris_lines lines
  = if decide ("TY" ∈ pairs.*1)
    then [foldl (fun c p => store p.1 p.2 c) ∅
                (filter (fun p => kept p = true) pairs)]
    else [].
Proof.
  intros HF. unfold parse_ris_lines, parse_flush.
  rewrite (parse_lines_tags _ _ _ HF). cbn [references current_ref].
  assert (HTY : is_Some (foldl (fun c p => store p.1 p.2 c) ∅
                           (filter (fun p => kept p = true) pairs) !! "TY")
                ↔ "TY" ∈ pairs.*1).
  { rewrite store_all_lookup, lookup_empty, extend_none, pack_is_Some.
    rewrite list_filter_filter. split.
    - intros Hne. destruct (filter _ pairs) as [|p l] eqn:E; [by destruct Hne|].
      assert (Hp : p ∈ filter (fun p => p.1 = "TY" ∧ kept p = true) pairs)
        by (rewrite E; by left).
      apply list_elem_of_filter in Hp as [[Ht _] Hin].
      apply list_elem_of_fmap. by exists p.
    - intros ([t v] & Ht & Hin)%list_elem_of_fmap Hnil. cbn in Ht. subst t.
      assert (Hp : ("TY", v) ∈ filter (fun p => p.1 = "TY" ∧ kept p = true) pairs).
      { apply list_elem_of_filter. split; [|done]. split; [done|].
        unfold kept. cbn. by rewrite orb_true_r. }
      apply fmap_nil_inv in Hnil. rewrite Hnil in Hp. by apply elem_of_nil in Hp. }
  set (cur := foldl (fun c p => store p.1 p.2 c) ∅
                (filter (fun p => kept p = true) pairs)) in *.
  unfold complete. destruct (decide ("TY" ∈ pairs.*1)) as [Hin|Hnin].
  - apply HTY in Hin. rewrite (bool_decide_eq_true_2 (is_Some _)) by done.
    rewrite bool_decide_eq_true_2; [done|].
    intros Hempty. rewrite Hempty, lookup_empty in Hin. by destruct Hin.
  - rewrite (bool_decide_eq_false_2 (is_Some _)) by (by rewrite HTY).
    by rewrite andb_false_r.
Qed.

Lemma trailing_record_is_flushed_witness :
  parse_ris_lines ["TY  - JOUR"; "AU  - Smith, J"; "N1  -"]
  = if decide ("TY" ∈ [("TY", "JOUR"); ("AU", "Smith, J"); ("N1", "")].*1)
    then [foldl (fun c p => store p.1 p.2 c) ∅
                (filter (fun p => kept p = true)
                        [("TY", "JOUR"); ("AU", "Smith, J"); ("N1", "")])]
    else [].
Proof.
  apply (trailing_record_is_flushed ["TY  - JOUR"; "AU  - Smith, J"; "N1  -"]
           [("TY", "JOUR"); ("AU", "Smith, J"); ("N1", "")]).
  repeat (constructor; [tag_line_tac|]). constructor.
Defined.

(** X6: when the lines read so far leave no record in progress, the records
    of a longer input are those of the lines read so far followed by those
    of the rest parsed on its own. *)
Theorem parse_concatenation (lines1 lines2 : list string) :
  current_ref (foldl parse_line {| references := []; current_ref := ∅ |} lines1) = ∅ →
  parse_ris_lines (lines1 ++ lines2)
  = parse_ris_lines lines1 ++ parse_ris_lines lines2.
Proof.
  intros Hcur. unfold parse_ris_lines. rewrite foldl_app.
  destruct (foldl parse_line {| references := []; current_ref := ∅ |} lines1)
    as [refs1 cur1] eqn:E1.
  cbn [current_ref] in Hcur. subst cur1. rewrite parse_loop_prefix.
  unfold parse_flush. cbn [references current_ref].
  assert (Hempty : complete ∅ = false) by done. rewrite Hempty. clear Hempty.
  destruct (complete (current_ref _)); by rewrite <- ?app_assoc.
Qed.

Lemma parse_concatenation_witness :
  parse_ris_lines (["TY  - JOUR"; "ER  - "] ++ ["TY  - BOOK"; "AU  - Doe, A"])
  = parse_ris_lines ["TY  - JOUR"; "ER  - "]
    ++ parse_ris_lines ["TY  - BOOK"; "AU  - Doe, A"].
Proof.
  apply (parse_concatenation ["TY  - JOUR"; "ER  - "] ["TY  - BOOK"; "AU  - Doe, A"]).
  vm_compute. reflexivity.
Defined.

(** X7: in every record the parser returns, each key is two characters of
    [A-Z0-9] and is not [ER], each stored string is trimmed and is empty
    only under [TY], and a list holds two or more strings. *)
Theorem parsed_records_are_well_formed (lines : list string) :
  Forall record_ok (parse_ris_lines lines).
Proof.
  unfold parse_ris_lines, parse_flush.
  destruct (parse_loop_ok lines {| references := []; current_ref := ∅ |})
    as [Hcur Hrefs]; [apply map_Forall_empty|done|].
  destruct (complete _); [|done].
  apply Forall_app. split; [done|]. by constructor.
Qed.

(** ** The projector, further *)

Section ProjectorFurther.
Implicit Types (fields : list string) (ref : record) (refs : list record).

Lemma cell_of_restricted fields ref field :
  field ∈ fields →
  cell_of (filter (fun kv : string * value => kv.1 ∈ fields) ref) field
  = cell_of ref field.
Proof.
  intros Hin. unfold cell_of.
  destruct (ref !! field) as [v|] eqn:Hv.
  - assert (Hf : filter (fun kv : string * value => kv.1 ∈ fields) ref !! field = Some v)
      by (by apply map_lookup_filter_Some).
    by rewrite Hf.
  - assert (Hf : filter (fun kv : string * value => kv.1 ∈ fields) ref !! field = None).
    { apply map_lookup_filter_None. by left. }
    by rewrite Hf.
Qed.

Lemma flagged_fmap {A B} (f : A → B) (test : B → bool) n (l : list A) :
  flagged test n (f <$> l) = flagged (test ∘ f) n l.
Proof.
  revert n. induction l as [|x l IH]; intros n; [done|].
  rewrite fmap_cons. cbn [flagged]. by rewrite IH.
Qed.

Lemma flagged_ext {A} (test1 test2 : A → bool) n (l : list A) :
  Forall (fun x => test1 x = test2 x) l → flagged test1 n l = flagged test2 n l.
Proof.
  intros HF. revert n. induction HF as [|x l Hx _ IH]; intros n; [done|].
  cbn [flagged]. by rewrite Hx, IH.
Qed.

(** The validation loop of the converter over rows that have a [TY] cell. *)
Lemma validate_rows_run output_csv (ds : list dict_row) n w :
  Forall (fun d => is_Some (d !! "TY")) ds →
  for_each (zip (seq n (length ds)) ds) (validate_row output_csv) w
  = (Ok tt,
     {| fs := fs w;
        trace := trace w
                 ++ ((fun i => Print (MissingTYValue i output_csv))
                       <$> flagged (fun d => String.eqb (cell d "TY") EmptyString) n ds) |}).
Proof.
  intros HF. revert n w. induction HF as [|d ds [c Hc] _ IH]; intros n w.
  - cbn. destruct w as [f t]. unfold ret. cbn. by rewrite app_nil_r.
  - cbn [length seq zip zip_with]. rewrite for_each_cons, bind_run.
    unfold validate_row. rewrite bind_run. unfold getitem. rewrite Hc. cbn [ret].
    cbn [flagged]. unfold cell at 1. rewrite Hc.
    destruct c as [s|]; cbn [truthy].
    + destruct (String.eqb s EmptyString); cbn [negb].
      * unfold print, emit. rewrite IH. cbn [fs trace]. rewrite fmap_app.
        by rewrite <- app_assoc.
      * cbn [ret]. by rewrite IH.
    + cbn [negb String.eqb]. unfold print, emit. rewrite IH. cbn [fs trace].
      rewrite fmap_app. by rewrite <- app_assoc.
Qed.

End ProjectorFurther.

(** X8: the rows the projector builds are as many as the records, each as
    long as the header, and they do not change when the entries under tags
    outside the header are removed from the records. *)
Theorem projection_keeps_header_tags_only (fields : list string)
    (refs : list record) :
  length (project_rows fields refs) = length refs
  ∧ Forall (fun r => length r = length fields) (project_rows fields refs)
  ∧ project_rows fields
      (filter (fun kv : string * value => kv.1 ∈ fields) <$> refs)
    = project_rows fields refs.
Proof.
  rewrite !project_rows_map. split; [by rewrite length_map|]. split.
  - apply Forall_forall. intros r (ref & <- & _)%list_elem_of_In%in_map_iff.
    by rewrite length_map.
  - rewrite map_map. apply map_ext. intros ref.
    apply map_ext_in. intros field Hin%list_elem_of_In. by apply cell_of_restricted.
Qed.

(** X9: when the schema loads, the input can be read, the output can be
    opened and no cell of the table holds a carriage return or is over the
    field size limit, the converter ends with its success message: it writes
    the table, never reports a missing [TY] column, and warns about exactly
    the records whose [TY] cell is empty, numbered from one. *)
Theorem converter_reports `{Platform} (ris_file standards_file output_csv : string)
    (srows : list row) (content : string) (w : world) :
  fs w !! standards_file = Some (Table srows) →
  standards_of_rows srows !! "TY" ≠ None →
  fs w !! ris_file = Some (Text content) →
  open_error output_csv (fs w) = None →
  plain_table (fields_of (standards_of_rows srows)
               :: project_rows (fields_of (standards_of_rows srows))
                    (parse_ris_lines (Py.readlines content))) →
  ∃ evs,
    convert_ris_to_csv ris_file standards_file output_csv w
    = (Ok tt,
       {| fs := <[output_csv :=
                    Table (fields_of (standards_of_rows srows)
                           :: project_rows (fields_of (standards_of_rows srows))
                                (parse_ris_lines (Py.readlines content)))]> (fs w);
          trace :=
            trace w ++ evs
            ++ [OpenRead ris_file;
                Print (CsvHeaderFields output_csv (fields_of (standards_of_rows srows)));
                OpenWrite output_csv; OpenRead output_csv]
            ++ ((fun i => Print (MissingTYValue i output_csv))
                  <$> flagged (fun ref => String.eqb (cell_of ref "TY") EmptyString) 1
                        (parse_ris_lines (Py.readlines content)))
            ++ [Print (ConvertedRis ris_file output_csv)] |})
    ∧ Forall (schema_only standards_file) evs.
Proof.
  intros Hs HTY Hr Hopen Hplain.
  destruct (load_run standards_file srows w Hs HTY) as (evs & Hload & Hevs).
  exists evs. split; [|done].
  set (standards := standards_of_rows srows) in *.
  set (refs := parse_ris_lines (Py.readlines content)) in *.
  assert (HinTY : "TY" ∈ fields_of standards)
    by (apply fields_of_elem; by apply not_eq_None_Some).
  assert (Hne : fields_of standards ≠ [])
    by (intros Hnil; rewrite Hnil in HinTY; by apply elem_of_nil in HinTY).
  apply try_ok. rewrite bind_run, Hload. unfold parse_ris_file, read_text.
  rewrite !bind_run. cbn [emit fs trace]. unfold lookup_text. cbn [fs]. rewrite Hr.
  cbn [ret]. fold refs. rewrite bind_run. unfold print at 1. cbn [emit fs trace].
  rewrite bind_run. unfold write_table, open_write. cbn [fs trace].
  rewrite Hopen, (written_plain _ Hplain).
  unfold read_table. rewrite !bind_run. cbn [emit fs trace]. unfold lookup_table.
  cbn [fs]. rewrite lookup_insert_eq. cbn [fst snd].
  rewrite bool_decide_eq_false_2 by (by intros Hn).
  rewrite bind_run. unfold enumerate1.
  rewrite (dict_rows_projected standards refs Hne).
  rewrite validate_rows_run.
  - rewrite bind_run. cbn [exhausted ret].
    unfold print, emit. cbn [fs trace]. rewrite flagged_fmap.
    rewrite (flagged_ext _ (fun ref => String.eqb (cell_of ref "TY") EmptyString)).
    + by rewrite <- !app_assoc.
    + apply Forall_forall. intros ref _. unfold compose, cell.
      rewrite dict_of_projected_row. by rewrite decide_True.
  - apply Forall_fmap, Forall_forall. intros ref _. cbn.
    rewrite dict_of_projected_row. by rewrite decide_True.
Qed.

Lemma converter_reports_witness :
  ∃ evs,
    @convert_ris_to_csv sample_platform "a.ris" "stds.csv" "a.csv"
      {| fs := {[ "stds.csv" := Table [["TY"; "Type"]; ["AU"; "Author"]];
                  "a.ris" := Text (ris_line "TY" "" +:+ ris_line "AU" "Doe, A" +:+ er_block) ]};
         trace := [] |}
    = (Ok tt,
       {| fs := <["a.csv" :=
                    Table (fields_of (standards_of_rows [["TY"; "Type"]; ["AU"; "Author"]])
                           :: project_rows
                                (fields_of (standards_of_rows [["TY"; "Type"]; ["AU"; "Author"]]))
                                (parse_ris_lines
                                   (Py.readlines (ris_line "TY" "" +:+ ris_line "AU" "Doe, A"
                                                  +:+ er_block))))]>
                  {[ "stds.csv" := Table [["TY"; "Type"]; ["AU"; "Author"]];
                     "a.ris" := Text (ris_line "TY" "" +:+ ris_line "AU" "Doe, A" +:+ er_block) ]};
          trace :=
            [] ++ evs
            ++ [OpenRead "a.ris";
                Print (CsvHeaderFields "a.csv"
                         (fields_of (standards_of_rows [["TY"; "Type"]; ["AU"; "Author"]])));
                OpenWrite "a.csv"; OpenRead "a.csv"]
            ++ ((fun i => Print (MissingTYValue i "a.csv"))
                  <$> flagged (fun ref => String.eqb (cell_of ref "TY") EmptyString) 1
                        (parse_ris_lines
                           (Py.readlines (ris_line "TY" "" +:+ ris_line "AU" "Doe, A"
                                          +:+ er_block))))
            ++ [Print (ConvertedRis "a.ris" "a.csv")] |})
    ∧ Forall (schema_only "stds.csv") evs.
Proof.
  refine (@converter_reports sample_platform "a.ris" "stds.csv" "a.csv"
            [["TY"; "Type"]; ["AU"; "Author"]]
            (ris_line "TY" "" +:+ ris_line "AU" "Doe, A" +:+ er_block)
            {| fs := {[ "stds.csv" := Table [["TY"; "Type"]; ["AU"; "Author"]];
                        "a.ris" := Text (ris_line "TY" "" +:+ ris_line "AU" "Doe, A"
                                         +:+ er_block) ]};
               trace := [] |} _ _ _ _ _).
  - reflexivity.
  - vm_compute. discriminate.
  - reflexivity.
  - reflexivity.
  - apply (bool_decide_unpack _). vm_compute. exact I.
Defined.

(** X10: when the schema loads and the input file does not exist, the
    converter reports the failure for that file and returns; no file is
    created or changed. *)
Theorem converter_missing_input `{Platform}
    (ris_file standards_file output_csv : string)
    (srows : list row) (w : world) :
  fs w !! standards_file = Some (Table srows) →
  standards_of_rows srows !! "TY" ≠ None →
  fs w !! ris_file = None →
  ∃ evs,
    convert_ris_to_csv ris_file standards_file output_csv w
    = (Ok tt,
       {| fs := fs w;
          trace := trace w ++ evs
                   ++ [OpenRead ris_file;
                       Print (ErrorConvertingRis ris_file output_csv
                                (FileNotFoundError ris_file))] |})
    ∧ Forall (schema_only standards_file) evs.
Proof.
  intros Hs HTY Hr.
  destruct (load_run standards_file srows w Hs HTY) as (evs & Hload & Hevs).
  exists evs. split; [|done].
  unfold convert_ris_to_csv, try_except. rewrite bind_run, Hload.
  unfold parse_ris_file, read_text. rewrite !bind_run. cbn [emit fs trace].
  unfold lookup_text. cbn [fs]. rewrite Hr.
  unfold print, emit. cbn [fs trace]. by rewrite <- !app_assoc.
Qed.

Lemma converter_missing_input_witness :
  ∃ evs,
    @convert_ris_to_csv sample_platform "a.ris" "stds.csv" "a.csv"
      {| fs := {[ "stds.csv" := Table [["TY"; "Type"]] ]}; trace := [] |}
    = (Ok tt,
       {| fs := {[ "stds.csv" := Table [["TY"; "Type"]] ]};
          trace := [] ++ evs
                   ++ [OpenRead "a.ris";
                       Print (ErrorConvertingRis "a.ris" "a.csv"
                                (FileNotFoundError "a.ris"))] |})
    ∧ Forall (schema_only "stds.csv") evs.
Proof.
  refine (@converter_missing_input sample_platform "a.ris" "stds.csv" "a.csv"
            [["TY"; "Type"]]
            {| fs := {[ "stds.csv" := Table [["TY"; "Type"]] ]}; trace := [] |} _ _ _).
  - reflexivity.
  - vm_compute. discriminate.
  - reflexivity.
Defined.

(** ** The serializer, further *)

Section SerializerFurther.
Implicit Types (base : gmap string file) (tr : list event) (d : dict_row).
Local Arguments write : simpl never.
Local Arguments print : simpl never.
Local Arguments with_text : simpl never.

(** The loop over the rows, with the diagnostics it prints. *)
Lemma write_references_trace csv_file fields multi_value out (ds : list dict_row)
    n base tr t :
  Forall (fun d => ∀ field, field ∈ "TY" :: fields → is_Some (d !! field)) ds →
  for_each (zip (seq n (length ds)) ds)
    (write_reference csv_file fields multi_value out) (with_text base tr out t)
  = (Ok tt,
     with_text base
       (tr ++ ((fun i => Print (SkippingReference i csv_file))
                 <$> flagged (fun d => String.eqb (cell d "TY") EmptyString) n ds))
       out (t +:+ ris_text fields multi_value ds)).
Proof.
  intros HF. revert n tr t.
  induction HF as [|d ds Hd _ IH]; intros n tr t.
  - simpl. unfold ris_text. simpl. by rewrite app_empty_r, app_nil_r.
  - cbn [length seq zip zip_with]. rewrite for_each_cons, bind_run.
    rewrite write_reference_run
      by first [by apply Hd; left | intros f Hf; apply Hd; by right].
    unfold ris_text. rewrite filter_cons. cbn [flagged].
    destruct (String.eqb_spec (cell d "TY") EmptyString) as [He|Hne].
    + rewrite decide_False by (by intros ?). rewrite IH. rewrite fmap_app.
      by rewrite <- app_assoc.
    + rewrite decide_True by done. rewrite IH.
      rewrite fmap_cons. cbn [lines_text foldr app]. unfold compose at 2.
      by rewrite app_assoc_str.
Qed.

End SerializerFurther.

(** X11: on an accepted input, when the output is another path than the
    input and can be opened, the serializer ends with its success message;
    it skips, with one diagnostic each, exactly the rows whose [TY] cell is
    empty (numbered from one among the non-empty rows of the file) and
    writes the blocks of the others in their order. *)
Theorem serializer_reports `{Platform} (csv_file standards_file output_ris : string)
    (srows : list row) (header : row) (body : list row) (w : world) :
  fs w !! standards_file = Some (Table srows) →
  standards_of_rows srows !! "TY" ≠ None →
  fs w !! csv_file = Some (Table (header :: body)) →
  Py.sorted header = fields_of (standards_of_rows srows) →
  csv_file ≠ output_ris →
  open_error output_ris (fs w) = None →
  ∃ evs,
    convert_csv_to_ris csv_file standards_file output_ris w
    = (Ok tt,
       {| fs := <[output_ris :=
                    Text (lines_text
                            (lines_text
                               ∘ block_lines (fields_of (standards_of_rows srows))
                                   (multi_value_fields (standards_of_rows srows))
                               <$> filter (fun d => cell d "TY" ≠ EmptyString)
                                          (dict_rows header body)))]> (fs w);
          trace :=
            trace w ++ evs
            ++ [OpenRead csv_file; OpenWrite output_ris]
            ++ ((fun i => Print (SkippingReference i csv_file))
                  <$> flagged (fun d => String.eqb (cell d "TY") EmptyString) 1
                        (dict_rows header body))
            ++ [Print (ConvertedCsv csv_file output_ris)] |})
    ∧ Forall (schema_only standards_file) evs.
Proof.
  intros Hs HTY Hc Hhead Hne Hopen.
  destruct (load_run standards_file srows w Hs HTY) as (evs & Hload & Hevs).
  exists evs. split; [|done].
  set (standards := standards_of_rows srows) in *.
  assert (Hkeys : Forall (fun d => ∀ field, field ∈ "TY" :: fields_of standards
                                → is_Some (d !! field)) (dict_rows header body)).
  { apply Forall_forall. intros d Hd field Hfield.
    unfold dict_rows in Hd. apply list_elem_of_fmap in Hd as (r & -> & _).
    apply dict_of_row_keys.
    assert (Hp : header ≡ₚ fields_of standards) by by apply header_accepted_iff.
    rewrite Hp. apply elem_of_cons in Hfield as [->|?]; [|done].
    apply fields_of_elem. by apply not_eq_None_Some. }
  apply try_ok. rewrite bind_run, Hload. unfold read_table.
  rewrite bind_run, bind_run. cbn [emit fs trace]. unfold lookup_table.
  cbn [fs]. rewrite Hc. cbn [fst snd]. fold standards.
  rewrite bool_decide_eq_false_2 by (by intros Hn).
  rewrite bind_run. unfold open_write. cbn [fs trace]. rewrite Hopen.
  apply String.eqb_neq in Hne. rewrite Hne. cbn [fst snd].
  rewrite bind_run. unfold enumerate1.
  change {| fs := <[output_ris:=Text ""]> (fs w);
            trace := ((trace w ++ evs) ++ [OpenRead csv_file]) ++ [OpenWrite output_ris] |}
    with (with_text (fs w) (((trace w ++ evs) ++ [OpenRead csv_file]) ++ [OpenWrite output_ris])
            output_ris EmptyString).
  rewrite (write_references_trace _ _ _ _ _ _ _ _ _ Hkeys).
  rewrite bind_run. cbn [exhausted ret].
  unfold print, emit, with_text, ris_text. cbn [fs trace]. rewrite app_empty_l.
  by rewrite <- !app_assoc.
Qed.

Lemma serializer_reports_witness :
  ∃ evs,
    @convert_csv_to_ris sample_platform "merged.csv" "stds.csv" "out.ris"
      {| fs := {[ "stds.csv" := Table [["TY"; "Type"]; ["AU"; "Author"]];
                  "merged.csv" := Table [["AU"; "TY"]; ["Doe, A"; ""]; []; ["Smith, J"; "JOUR"]] ]};
         trace := [] |}
    = (Ok tt,
       {| fs := <["out.ris" :=
                    Text (lines_text
                            (lines_text
                               ∘ block_lines
                                   (fields_of (standards_of_rows [["TY"; "Type"]; ["AU"; "Author"]]))
                                   (multi_value_fields
                                      (standards_of_rows [["TY"; "Type"]; ["AU"; "Author"]]))
                               <$> filter (fun d => cell d "TY" ≠ EmptyString)
                                     (dict_rows ["AU"; "TY"]
                                        [["Doe, A"; ""]; []; ["Smith, J"; "JOUR"]])))]>
                  {[ "stds.csv" := Table [["TY"; "Type"]; ["AU"; "Author"]];
                     "merged.csv" :=
                       Table [["AU"; "TY"]; ["Doe, A"; ""]; []; ["Smith, J"; "JOUR"]] ]};
          trace :=
            [] ++ evs
            ++ [OpenRead "merged.csv"; OpenWrite "out.ris"]
            ++ ((fun i => Print (SkippingReference i "merged.csv"))
                  <$> flagged (fun d => String.eqb (cell d "TY") EmptyString) 1
                        (dict_rows ["AU"; "TY"] [["Doe, A"; ""]; []; ["Smith, J"; "JOUR"]]))
            ++ [Print (ConvertedCsv "merged.csv" "out.ris")] |})
    ∧ Forall (schema_only "stds.csv") evs.
Proof.
  refine (@serializer_reports sample_platform "merged.csv" "stds.csv" "out.ris"
            [["TY"; "Type"]; ["AU"; "Author"]] ["AU"; "TY"]
            [["Doe, A"; ""]; []; ["Smith, J"; "JOUR"]]
            {| fs := {[ "stds.csv" := Table [["TY"; "Type"]; ["AU"; "Author"]];
                        "merged.csv" :=
                          Table [["AU"; "TY"]; ["Doe, A"; ""]; []; ["Smith, J"; "JOUR"]] ]};
               trace := [] |} _ _ _ _ _ _).
  - reflexivity.
  - vm_compute. discriminate.
  - reflexivity.
  - vm_compute. reflexivity.
  - discriminate.
  - reflexivity.
Defined.

(** X12: when the schema loads but the tabular input does not exist or has
    no header row, the serializer reports the failure and returns; the
    output file is not created and no file changes. *)
Theorem serializer_without_header `{Platform}
    (csv_file standards_file output_ris : string)
    (srows : list row) (w : world) :
  fs w !! standards_file = Some (Table srows) →
  standards_of_rows srows !! "TY" ≠ None →
  fs w !! csv_file = None ∨ fs w !! csv_file = Some (Table []) →
  ∃ evs,
    convert_csv_to_ris csv_file standards_file output_ris w
    = (Ok tt,
       {| fs := fs w;
          trace := trace w ++ evs
                   ++ [OpenRead csv_file;
                       Print (ErrorConvertingCsv csv_file output_ris
                                (match fs w !! csv_file with
                                 | Some _ => TypeError
                                 | None => FileNotFoundError csv_file
                                 end))] |})
    ∧ Forall (schema_only standards_file) evs.
Proof.
  intros Hs HTY Hc.
  destruct (load_run standards_file srows w Hs HTY) as (evs & Hload & Hevs).
  exists evs. split; [|done].
  unfold convert_csv_to_ris, try_except. rewrite bind_run, Hload.
  unfold read_table. rewrite !bind_run. cbn [emit fs trace].
  unfold lookup_table. cbn [fs].
  destruct Hc as [-> | ->]; cbn [fst snd default]; unfold print, emit, raise;
    cbn [fs trace]; by rewrite <- !app_assoc.
Qed.

Lemma serializer_without_header_witness :
  ∃ evs,
    @convert_csv_to_ris sample_platform "merged.csv" "stds.csv" "out.ris"
      {| fs := {[ "stds.csv" := Table [["TY"; "Type"]]; "merged.csv" := Table [] ]};
         trace := [] |}
    = (Ok tt,
       {| fs := {[ "stds.csv" := Table [["TY"; "Type"]]; "merged.csv" := Table [] ]};
          trace := [] ++ evs
                   ++ [OpenRead "merged.csv";
                       Print (ErrorConvertingCsv "merged.csv" "out.ris"
                                (match ({[ "stds.csv" := Table [["TY"; "Type"]];
                                           "merged.csv" := Table [] ]}
                                          : gmap string file) !! "merged.csv" with
                                 | Some _ => TypeError
                                 | None => FileNotFoundError "merged.csv"
                                 end))] |})
    ∧ Forall (schema_only "stds.csv") evs.
Proof.
  refine (@serializer_without_header sample_platform "merged.csv" "stds.csv" "out.ris"
            [["TY"; "Type"]]
            {| fs := {[ "stds.csv" := Table [["TY"; "Type"]]; "merged.csv" := Table [] ]};
               trace := [] |} _ _ _).
  - reflexivity.
  - vm_compute. discriminate.
  - right. reflexivity.
Defined.

(** ** The merger, further *)

Section MergerFurther.
Context (fields : list string) (out : string).
Implicit Types (u : gset row) (w : world) (csv_files : list string).

(** A source without a header row stops the loop. *)
Lemma merge_sources_abort csv_files u w :
  Exists (fun f => f ≠ out ∧ fs w !! f = Some (Table [])) csv_files →
  ∃ e evs,
    fold_each csv_files u (merge_source fields out) w
    = (Raise e, {| fs := fs w; trace := trace w ++ evs |}).
Proof.
  revert u w. induction csv_files as [|f csv_files IH]; intros u w Hex.
  - by apply Exists_nil in Hex.
  - cbn [fold_each]. rewrite bind_run, merge_source_run.
    destruct (merge_outcome fields out u f (fs w !! f)) as [[u'|e] evs1] eqn:Hout;
      cbn [fst snd].
    + apply Exists_cons in Hex as [[Hne Hempty]|Hex].
      { unfold merge_outcome in Hout. rewrite Hempty in Hout.
        apply String.eqb_neq in Hne. by rewrite Hne in Hout. }
      destruct (IH u' {| fs := fs w; trace := trace w ++ evs1 |} Hex)
        as (e & evs & ->).
      exists e, (evs1 ++ evs). cbn [fs trace]. by rewrite app_assoc.
    + by exists e, evs1.
Qed.

End MergerFurther.

(** X13: the set the source loop returns depends on which paths are listed,
    not on their order nor on how often a path is listed: merging a source
    twice gives what merging it once gives. *)
Theorem merger_ignores_order_and_repetition (fields : list string) (out : string)
    (csv_files1 csv_files2 : list string) (w : world) :
  (∀ f, f ∈ csv_files1 ↔ f ∈ csv_files2) →
  Forall (fun f => f ≠ out
                   → ∃ header body, fs w !! f = Some (Table (header :: body)))
         csv_files1 →
  (fold_each csv_files1 ∅ (merge_source fields out) w).1
  = (fold_each csv_files2 ∅ (merge_source fields out) w).1.
Proof.
  intros Hsame HF1.
  assert (HF2 : Forall (fun f => f ≠ out
                   → ∃ header body, fs w !! f = Some (Table (header :: body)))
                  csv_files2).
  { rewrite Forall_forall in HF1. apply Forall_forall. intros f Hf.
    by apply HF1, Hsame. }
  destruct (merge_sources_run fields out csv_files1 ∅ w HF1) as (u1 & evs1 & -> & Hu1 & _).
  destruct (merge_sources_run fields out csv_files2 ∅ w HF2) as (u2 & evs2 & -> & Hu2 & _).
  cbn [fst]. f_equal. apply set_eq. intros r. rewrite Hu1, Hu2.
  split; (intros [?|(f & h & b & Hin & Hrest)]; [by left|]);
    right; exists f, h, b; (split; [by apply Hsame|done]).
Qed.

Lemma merger_ignores_order_and_repetition_witness :
  (fold_each ["a.csv"; "b.csv"; "a.csv"] ∅ (merge_source ["AU"; "TY"] "merged.csv")
     {| fs := {[ "a.csv" := Table [["AU"; "TY"]; ["Smith, J"; "JOUR"]];
                 "b.csv" := Table [["TY"; "AU"]; ["BOOK"; "Doe, A"]] ]};
        trace := [] |}).1
  = (fold_each ["b.csv"; "a.csv"] ∅ (merge_source ["AU"; "TY"] "merged.csv")
       {| fs := {[ "a.csv" := Table [["AU"; "TY"]; ["Smith, J"; "JOUR"]];
                   "b.csv" := Table [["TY"; "AU"]; ["BOOK"; "Doe, A"]] ]};
          trace := [] |}).1.
Proof.
  apply (merger_ignores_order_and_repetition ["AU"; "TY"] "merged.csv"
           ["a.csv"; "b.csv"; "a.csv"] ["b.csv"; "a.csv"]
           {| fs := {[ "a.csv" := Table [["AU"; "TY"]; ["Smith, J"; "JOUR"]];
                       "b.csv" := Table [["TY"; "AU"]; ["BOOK"; "Doe, A"]] ]};
              trace := [] |}).
  - intros f. rewrite !elem_of_cons, !elem_of_nil. tauto.
  - repeat constructor; intros _; eexists _, _; reflexivity.
Defined.

(** X14: when the schema loads, every listed source has a header row and
    the merged output can be opened, the merger writes, under the canonical
    header, rows without repetition that are exactly the data rows of the
    accepted sources. *)
Theorem merged_table_is_deduplicated `{Platform}
    (csv_folder merged_output_csv standards_file : string)
    (srows : list row) (w : world) :
  fs w !! standards_file = Some (Table srows) →
  standards_of_rows srows !! "TY" ≠ None →
  os_glob (path_join csv_folder "*.csv") (fs w) ≠ [] →
  Forall (fun f => f ≠ merged_output_csv
                   → ∃ header body, fs w !! f = Some (Table (header :: body)))
         (os_glob (path_join csv_folder "*.csv") (fs w)) →
  open_error merged_output_csv (fs w) = None →
  ∃ rows,
    fs (merge_csv_files csv_folder merged_output_csv standards_file w).2
    = <[merged_output_csv :=
          written (fields_of (standards_of_rows srows) :: rows)]> (fs w)
    ∧ NoDup rows
    ∧ ∀ r, r ∈ rows ↔
           ∃ f body,
             f ∈ os_glob (path_join csv_folder "*.csv") (fs w)
             ∧ accepted_source (fields_of (standards_of_rows srows))
                               merged_output_csv w f body
             ∧ r ∈ body.
Proof.
  intros Hs HTY Hfiles HF Hopen.
  destruct (load_run standards_file srows w Hs HTY) as (evs & Hload & _).
  set (standards := standards_of_rows srows) in *.
  set (csv_files := os_glob (path_join csv_folder "*.csv") (fs w)) in *.
  destruct (merge_sources_run (fields_of standards) merged_output_csv csv_files ∅
              {| fs := fs w; trace := trace w ++ evs |} HF)
    as (u & evs2 & Hrun & Hu & _).
  exists (elements u). split; [|split].
  - unfold merge_csv_files, try_except. rewrite bind_run, Hload.
    rewrite bind_run. unfold glob at 1. cbn [fs]. fold csv_files.
    rewrite bool_decide_eq_false_2 by done.
    rewrite bind_run. fold standards. rewrite Hrun. rewrite bind_run.
    unfold write_table, open_write. cbn [fs trace]. rewrite Hopen.
    by cbn [fs trace snd print emit].
  - apply NoDup_elements.
  - intros r. rewrite elem_of_elements, Hu. cbn [fs]. split.
    + intros [Hin|(f & header & body & Hin & Hne & Hfile & Hsorted & Hr)].
      * by apply elem_of_empty in Hin.
      * exists f, body. split; [done|]. split; [|done]. split; [done|].
        exists header. split; [done|]. by apply header_accepted_iff.
    + intros (f & body & Hin & (Hne & header & Hfile & Hp) & Hr).
      right. exists f, header, body. repeat split; try done.
      by apply header_accepted_iff.
Qed.

Lemma merged_table_is_deduplicated_witness :
  ∃ rows,
    fs (@merge_csv_files sample_platform "CSV" "merged.csv" "stds.csv"
          {| fs := {[ "stds.csv" := Table [["TY"; "Type"]];
                      "CSV\a.csv" := Table [["TY"]; ["JOUR"]; ["BOOK"]];
                      "CSV\b.csv" := Table [["TY"]; ["JOUR"]] ]};
             trace := [] |}).2
    = <["merged.csv" := written (fields_of (standards_of_rows [["TY"; "Type"]]) :: rows)]>
        {[ "stds.csv" := Table [["TY"; "Type"]];
           "CSV\a.csv" := Table [["TY"]; ["JOUR"]; ["BOOK"]];
           "CSV\b.csv" := Table [["TY"]; ["JOUR"]] ]}
    ∧ NoDup rows
    ∧ ∀ r, r ∈ rows ↔
           ∃ f body,
             f ∈ @os_glob sample_platform (@path_join sample_platform "CSV" "*.csv")
                   {[ "stds.csv" := Table [["TY"; "Type"]];
                      "CSV\a.csv" := Table [["TY"]; ["JOUR"]; ["BOOK"]];
                      "CSV\b.csv" := Table [["TY"]; ["JOUR"]] ]}
             ∧ accepted_source (fields_of (standards_of_rows [["TY"; "Type"]]))
                 "merged.csv"
                 {| fs := {[ "stds.csv" := Table [["TY"; "Type"]];
                             "CSV\a.csv" := Table [["TY"]; ["JOUR"]; ["BOOK"]];
                             "CSV\b.csv" := Table [["TY"]; ["JOUR"]] ]};
                    trace := [] |} f body
             ∧ r ∈ body.
Proof.
  refine (@merged_table_is_deduplicated sample_platform "CSV" "merged.csv" "stds.csv"
            [["TY"; "Type"]]
            {| fs := {[ "stds.csv" := Table [["TY"; "Type"]];
                        "CSV\a.csv" := Table [["TY"]; ["JOUR"]; ["BOOK"]];
                        "CSV\b.csv" := Table [["TY"]; ["JOUR"]] ]};
               trace := [] |} _ _ _ _ _).
  - reflexivity.
  - vm_compute. discriminate.
  - vm_compute. discriminate.
  - replace (@os_glob sample_platform (@path_join sample_platform "CSV" "*.csv") _)
      with ["CSV\a.csv"; "CSV\b.csv"] by (vm_compute; reflexivity).
    repeat constructor; intros _; eexists _, _; reflexivity.
  - reflexivity.
Defined.

(** X15: a listed source that holds no header row (an empty file) stops the
    merger: it reports a failure of the merge and writes nothing, whatever
    the other sources hold. *)
Theorem merger_aborted_by_empty_source `{Platform}
    (csv_folder merged_output_csv standards_file : string)
    (srows : list row) (w : world) :
  fs w !! standards_file = Some (Table srows) →
  standards_of_rows srows !! "TY" ≠ None →
  Exists (fun f => f ≠ merged_output_csv ∧ fs w !! f = Some (Table []))
         (os_glob (path_join csv_folder "*.csv") (fs w)) →
  ∃ e evs,
    merge_csv_files csv_folder merged_output_csv standards_file w
    = (Ok tt,
       {| fs := fs w;
          trace := trace w ++ evs ++ [Print (ErrorMerging merged_output_csv e)] |}).
Proof.
  intros Hs HTY Hex.
  destruct (load_run standards_file srows w Hs HTY) as (evs & Hload & _).
  set (csv_files := os_glob (path_join csv_folder "*.csv") (fs w)) in *.
  destruct (merge_sources_abort (fields_of (standards_of_rows srows)) merged_output_csv
              csv_files ∅ {| fs := fs w; trace := trace w ++ evs |} Hex)
    as (e & evs2 & Hrun).
  exists e, (evs ++ evs2).
  unfold merge_csv_files, try_except. rewrite bind_run, Hload.
  rewrite bind_run. unfold glob at 1. cbn [fs]. fold csv_files.
  rewrite bool_decide_eq_false_2
    by (intros Hnil; rewrite Hnil in Hex; by apply Exists_nil in Hex).
  rewrite bind_run, Hrun. unfold print, emit. cbn [fs trace].
  by rewrite <- !app_assoc.
Qed.

Lemma merger_aborted_by_empty_source_witness :
  ∃ e evs,
    @merge_csv_files sample_platform "CSV" "merged.csv" "stds.csv"
      {| fs := {[ "stds.csv" := Table [["TY"; "Type"]];
                  "CSV\a.csv" := Table [["TY"]; ["JOUR"]];
                  "CSV\b.csv" := Table [] ]};
         trace := [] |}
    = (Ok tt,
       {| fs := {[ "stds.csv" := Table [["TY"; "Type"]];
                   "CSV\a.csv" := Table [["TY"]; ["JOUR"]];
                   "CSV\b.csv" := Table [] ]};
          trace := [] ++ evs ++ [Print (ErrorMerging "merged.csv" e)] |}).
Proof.
  refine (@merger_aborted_by_empty_source sample_platform "CSV" "merged.csv" "stds.csv"
            [["TY"; "Type"]]
            {| fs := {[ "stds.csv" := Table [["TY"; "Type"]];
                        "CSV\a.csv" := Table [["TY"]; ["JOUR"]];
                        "CSV\b.csv" := Table [] ]};
               trace := [] |} _ _ _).
  - reflexivity.
  - vm_compute. discriminate.
  - replace (@os_glob sample_platform (@path_join sample_platform "CSV" "*.csv") _)
      with ["CSV\a.csv"; "CSV\b.csv"] by (vm_compute; reflexivity).
    apply Exists_cons. right. apply Exists_cons. left. split; [discriminate|reflexivity].
Defined.

(** ** What the entry points never do *)

Section Frames.
Context (out : string).

Lemma touches_quiet {A} P (m : M A) : quiet P m → touches_only out m.
Proof. intros Hq w path _. by destruct (Hq w) as [-> _]. Qed.

Lemma touches_bind {A B} (m : M A) (k : A → M B) :
  touches_only out m → (∀ a, touches_only out (k a)) → touches_only out (bind m k).
Proof.
  intros Hm Hk w path Hne. specialize (Hm w path Hne). rewrite bind_run.
  destruct (m w) as [[a|e] w1]; cbn [snd] in *; [|done].
  by rewrite (Hk a w1 path Hne).
Qed.

Lemma touches_try {A} (m : M A) (h : exn → M A) :
  touches_only out m → (∀ e, touches_only out (h e)) → touches_only out (try_except m h).
Proof.
  intros Hm Hh w path Hne. specialize (Hm w path Hne). unfold try_except.
  destruct (m w) as [[a|e] w1]; cbn [snd] in *; [done|].
  by rewrite (Hh e w1 path Hne).
Qed.

Lemma touches_for_each {A} (l : list A) (body : A → M unit) :
  (∀ x, touches_only out (body x)) → touches_only out (for_each l body).
Proof.
  intros Hb. induction l as [|x l IH]; [by intros w path _|].
  rewrite for_each_cons. by apply touches_bind.
Qed.

Lemma touches_fold_each {A S} (l : list A) (acc : S) (body : S → A → M S) :
  (∀ s x, touches_only out (body s x)) → touches_only out (fold_each l acc body).
Proof.
  intros Hb. revert acc. induction l as [|x l IH]; intros acc; [by intros w path _|].
  cbn [fold_each]. by apply touches_bind.
Qed.

Lemma touches_open_write `{Platform} empty : touches_only out (open_write out empty).
Proof.
  intros w path Hne. unfold open_write.
  destruct (open_error out (fs w)); [done|]. cbn. by rewrite lookup_insert_ne.
Qed.

Lemma touches_exhausted err : touches_only out (exhausted err).
Proof. by destruct err. Qed.

Lemma touches_write s : touches_only out (write out s).
Proof. intros w path Hne. cbn. by rewrite lookup_alter_ne. Qed.

Lemma touches_print d : touches_only out (print d).
Proof. by intros w path _. Qed.

Lemma touches_ret {A} (a : A) : touches_only out (ret a).
Proof. by intros w path _. Qed.

Lemma touches_raise {A} e : touches_only out (@raise A e).
Proof. by intros w path _. Qed.

Lemma touches_read_table path : touches_only out (read_table path).
Proof. by apply (touches_quiet (fun _ => True)), quiet_read_table. Qed.

Lemma touches_read_text path : touches_only out (read_text path).
Proof.
  intros w p _. unfold read_text. rewrite bind_run. cbn [emit]. unfold lookup_text.
  cbn [fs]. by destruct (fs w !! path) as [[?|?|?|]|].
Qed.

Lemma touches_load standards_file : touches_only out (load_ris_standards standards_file).
Proof. apply (touches_quiet _ _ (load_quiet standards_file)). Qed.

Lemma touches_getitem d key : touches_only out (getitem d key).
Proof. unfold getitem. destruct (d !! key); [apply touches_ret|apply touches_raise]. Qed.

End Frames.

Ltac frame_tac :=
  repeat first
    [ apply touches_load
    | apply touches_read_table
    | apply touches_read_text
    | apply touches_getitem
    | apply touches_print
    | apply touches_ret
    | apply touches_raise
    | apply touches_exhausted
    | apply touches_open_write
    | apply touches_write
    | apply touches_try; [|intros ?]
    | apply touches_bind; [|intros ?]
    | apply touches_for_each; intros ?
    | apply touches_fold_each; intros ? ?
    | progress case_match ].

(** X16: each entry point changes no file but its own output: the converter
    only [output_csv], the merger only [merged_output_csv], the serializer
    only [output_ris], whatever the store holds and whether the call
    succeeds or fails. *)
Theorem entry_points_write_their_output_only `{Platform} (a b c : string) :
  touches_only c (convert_ris_to_csv a b c)
  ∧ touches_only b (merge_csv_files a b c)
  ∧ touches_only c (convert_csv_to_ris a b c).
Proof.
  split; [|split].
  - unfold convert_ris_to_csv, parse_ris_file, write_table, validate_row.
    frame_tac.
  - unfold merge_csv_files, merge_source, glob, write_table.
    frame_tac. by intros w path _.
  - unfold convert_csv_to_ris, write_reference, write_field.
    frame_tac.
Qed.

(** X17: an output that cannot be opened makes the entry point report the
    exception of [open] and return, the store being as it was: the
    converter after reading its input, the serializer after accepting the
    header of its input, the merger after reading its sources. *)
Theorem unopened_output_is_reported `{Platform} (input standards_file out : string)
    (srows : list row) (e : exn) (w : world) :
  fs w !! standards_file = Some (Table srows) →
  standards_of_rows srows !! "TY" ≠ None →
  open_error out (fs w) = Some e →
  (∀ content,
     fs w !! input = Some (Text content) →
     ∃ evs,
       convert_ris_to_csv input standards_file out w
       = (Ok tt, {| fs := fs w;
                    trace := trace w ++ evs
                             ++ [Print (ErrorConvertingRis input out e)] |}))
  ∧ (∀ header body,
       fs w !! input = Some (Table (header :: body)) →
       Py.sorted header = fields_of (standards_of_rows srows) →
       ∃ evs,
         convert_csv_to_ris input standards_file out w
         = (Ok tt, {| fs := fs w;
                      trace := trace w ++ evs
                               ++ [Print (ErrorConvertingCsv input out e)] |}))
  ∧ (os_glob (path_join input "*.csv") (fs w) ≠ [] →
     Forall (fun f => f ≠ out
                      → ∃ header body, fs w !! f = Some (Table (header :: body)))
            (os_glob (path_join input "*.csv") (fs w)) →
     ∃ evs,
       merge_csv_files input out standards_file w
       = (Ok tt, {| fs := fs w;
                    trace := trace w ++ evs ++ [Print (ErrorMerging out e)] |})).
Proof.
  intros Hs HTY Hopen.
  destruct (load_run standards_file srows w Hs HTY) as (evs & Hload & _).
  split; [|split].
  - intros content Hr.
    exists (evs ++ [OpenRead input;
                    Print (CsvHeaderFields out (fields_of (standards_of_rows srows)))]).
    unfold convert_ris_to_csv, try_except. rewrite bind_run, Hload.
    unfold parse_ris_file, read_text. rewrite !bind_run. cbn [emit fs trace].
    unfold lookup_text. cbn [fs]. rewrite Hr. cbn [ret].
    rewrite bind_run. unfold print at 1. cbn [emit fs trace].
    rewrite bind_run. unfold write_table, open_write. cbn [fs trace]. rewrite Hopen.
    unfold print, emit. cbn [fs trace]. by rewrite <- !app_assoc.
  - intros header body Hc Hhead. exists (evs ++ [OpenRead input]).
    unfold convert_csv_to_ris, try_except. rewrite bind_run, Hload.
    unfold read_table. rewrite !bind_run. cbn [emit fs trace].
    unfold lookup_table. cbn [fs]. rewrite Hc. cbn [fst snd].
    rewrite bool_decide_eq_false_2 by (by intros Hn).
    rewrite bind_run. unfold open_write. cbn [fs trace]. rewrite Hopen.
    unfold print, emit. cbn [fs trace]. by rewrite <- !app_assoc.
  - intros Hfiles HF.
    destruct (merge_sources_run (fields_of (standards_of_rows srows)) out
                (os_glob (path_join input "*.csv") (fs w)) ∅
                {| fs := fs w; trace := trace w ++ evs |} HF)
      as (u & evs2 & Hrun & _).
    exists (evs ++ evs2).
    unfold merge_csv_files, try_except. rewrite bind_run, Hload.
    rewrite bind_run. unfold glob at 1. cbn [fs].
    rewrite bool_decide_eq_false_2 by done.
    rewrite bind_run, Hrun. rewrite bind_run.
    unfold write_table, open_write. cbn [fs trace]. rewrite Hopen.
    unfold print, emit. cbn [fs trace]. by rewrite <- !app_assoc.
Qed.

Lemma unopened_output_is_reported_witness :
  ∃ evs,
    @convert_ris_to_csv sample_platform "a.ris" "stds.csv" "CSV"
      {| fs := {[ "stds.csv" := Table [["TY"; "Type"]];
                  "a.ris" := Text (ris_line "TY" "JOUR" +:+ er_block);
                  "CSV" := Dir ]};
         trace := [] |}
    = (Ok tt,
       {| fs := {[ "stds.csv" := Table [["TY"; "Type"]];
                   "a.ris" := Text (ris_line "TY" "JOUR" +:+ er_block);
                   "CSV" := Dir ]};
          trace := [] ++ evs
                   ++ [Print (ErrorConvertingRis "a.ris" "CSV"
                                (IsADirectoryError "CSV"))] |}).
Proof.
  refine (proj1 (@unopened_output_is_reported sample_platform "a.ris" "stds.csv" "CSV"
                   [["TY"; "Type"]] (IsADirectoryError "CSV")
                   {| fs := {[ "stds.csv" := Table [["TY"; "Type"]];
                               "a.ris" := Text (ris_line "TY" "JOUR" +:+ er_block);
                               "CSV" := Dir ]};
                      trace := [] |} _ _ _)
                (ris_line "TY" "JOUR" +:+ er_block) _).
  - reflexivity.
  - vm_compute. discriminate.
  - reflexivity.
  - reflexivity.
Defined.

(** X18: the orchestrator first makes sure of the output folder, outside
    any handler: when that path holds a file that is no folder, the
    exception of [os.makedirs] leaves [main] and nothing else happens.  When
    the folder is there or can be created and the schema source does not
    exist, or no input file matches, [main] says so and stops: it opens no
    file and changes nothing but the folder it may have created. *)
Theorem main_without_inputs `{Platform} (w : world) :
  (is_Some (fs w !! csv_output_folder) →
   fs w !! csv_output_folder ≠ Some Dir →
   main w = (Raise (FileExistsError csv_output_folder), w))
  ∧ (folder_ready csv_output_folder (fs w) →
     fs w !! standards_path = None →
     main w = (Ok tt, {| fs := <[csv_output_folder := Dir]> (fs w);
                         trace := trace w
                                  ++ [Print (StandardsNotFound standards_path)] |}))
  ∧ (folder_ready csv_output_folder (fs w) →
     is_Some (fs w !! standards_path) →
     os_glob (path_join ris_folder "*.ris")
             (<[csv_output_folder := Dir]> (fs w)) = [] →
     main w = (Ok tt, {| fs := <[csv_output_folder := Dir]> (fs w);
                         trace := trace w ++ [Print (NoRisFiles ris_folder)] |})).
Proof.
  split; [|split].
  - intros Hsome Hnd. unfold main. rewrite bind_run.
    by rewrite (makedirs_blocked _ _ Hsome Hnd).
  - intros Hfolder Hnone. unfold main. rewrite bind_run, (makedirs_run _ _ Hfolder).
    rewrite bind_run. unfold exists_ at 1. cbn [fs].
    rewrite bool_decide_eq_false_2; [done|].
    rewrite lookup_insert_ne by done. rewrite Hnone. by intros [? ?].
  - intros Hfolder Hsome Hglob. unfold main.
    rewrite bind_run, (makedirs_run _ _ Hfolder).
    rewrite bind_run. unfold exists_ at 1. cbn [fs].
    rewrite bool_decide_eq_true_2 by (by rewrite lookup_insert_ne).
    cbn [negb]. rewrite bind_run. unfold glob at 1. cbn [fs]. rewrite Hglob.
    by rewrite bool_decide_eq_true_2.
Qed.

Lemma main_without_inputs_witness :
  @main sample_platform
    {| fs := {[ ".\RIS_stds.csv" := Table [["TY"; "Type"]]; ".\CSV" := Text "" ]};
       trace := [] |}
  = (Raise (FileExistsError csv_output_folder),
     {| fs := {[ ".\RIS_stds.csv" := Table [["TY"; "Type"]]; ".\CSV" := Text "" ]};
        trace := [] |}).
Proof.
  refine (proj1 (@main_without_inputs sample_platform
                   {| fs := {[ ".\RIS_stds.csv" := Table [["TY"; "Type"]];
                               ".\CSV" := Text "" ]};
                      trace := [] |}) _ _).
  - by eexists.
  - discriminate.
Defined.

(** ** The stages, one after the other *)

Section Stages.
Context `{Platform}.

Lemma add_rows_list_to_set (body : list row) :
  foldl (fun (u : gset row) r => u ∪ {[ r ]}) ∅ body = list_to_set body.
Proof.
  apply set_eq. intros r. rewrite add_rows_elem, elem_of_list_to_set.
  split; [|by right]. intros [Hin|?]; [|done]. by apply elem_of_empty in Hin.
Qed.

(** What the merger leaves in the store when it runs to its end. *)
Lemma merge_csv_files_fs csv_folder merged_output_csv standards_file srows w :
  fs w !! standards_file = Some (Table srows) →
  standards_of_rows srows !! "TY" ≠ None →
  os_glob (path_join csv_folder "*.csv") (fs w) ≠ [] →
  Forall (fun f => f ≠ merged_output_csv
                   → ∃ header body, fs w !! f = Some (Table (header :: body)))
         (os_glob (path_join csv_folder "*.csv") (fs w)) →
  open_error merged_output_csv (fs w) = None →
  ∃ u : gset row,
    fs (merge_csv_files csv_folder merged_output_csv standards_file w).2
    = <[merged_output_csv :=
          written (fields_of (standards_of_rows srows) :: elements u)]> (fs w)
    ∧ ∀ r, r ∈ u →
           ∃ f header body,
             f ∈ os_glob (path_join csv_folder "*.csv") (fs w)
             ∧ f ≠ merged_output_csv
             ∧ fs w !! f = Some (Table (header :: body)) ∧ r ∈ body.
Proof.
  intros Hs HTY Hfiles HF Hopen.
  destruct (load_run standards_file srows w Hs HTY) as (evs & Hload & _).
  destruct (merge_sources_run (fields_of (standards_of_rows srows)) merged_output_csv
              (os_glob (path_join csv_folder "*.csv") (fs w)) ∅
              {| fs := fs w; trace := trace w ++ evs |} HF)
    as (u & evs2 & Hrun & Hu & _).
  exists u. split.
  - unfold merge_csv_files, try_except. rewrite bind_run, Hload.
    rewrite bind_run. unfold glob at 1. cbn [fs].
    rewrite bool_decide_eq_false_2 by done.
    rewrite bind_run, Hrun. rewrite bind_run.
    unfold write_table, open_write. cbn [fs trace]. rewrite Hopen.
    by cbn [fs trace snd print emit].
  - intros r Hr. apply Hu in Hr as [Hr|(f & header & body & Hin & Hne & Hfile & _ & Hrb)].
    + by apply elem_of_empty in Hr.
    + by exists f, header, body.
Qed.

(** The rows read back are those of a prefix of the rows written. *)
Lemma read_back_prefix (rows : list row) :
  ∃ n, (read_back rows).1
       = (fun r : row => universal_newlines <$> r) <$> take n rows.
Proof.
  induction rows as [|r rows [n IH]]; [by exists 0|]. cbn [read_back].
  destruct (existsb oversized (universal_newlines <$> r)).
  - by exists 0.
  - exists (S n). cbn [fst take]. by rewrite fmap_cons, IH.
Qed.

Lemma universal_newlines_TY s : universal_newlines s = "TY" → s = "TY".
Proof.
  destruct s as [|c1 [|c2 [|c3 s]]]; cbn [universal_newlines]; try done.
  - by destruct (Ascii.eqb c1 "013").
  - destruct (Ascii.eqb_spec c1 "013") as [->|H1].
    + destruct (Ascii.eqb_spec c2 "010") as [->|H2]; [done|].
      by destruct c2 as [[] [] [] [] [] [] [] []].
    + by destruct (Ascii.eqb c2 "013").
  - destruct (Ascii.eqb_spec c1 "013") as [->|H1].
    + destruct (Ascii.eqb_spec c2 "010") as [->|H2].
      * destruct (Ascii.eqb c3 "013"); [by destruct s as [|[[] [] [] [] [] [] [] []] ?]|done].
      * by destruct c2 as [[] [] [] [] [] [] [] []].
    + destruct (Ascii.eqb_spec c2 "013") as [->|H2].
      * destruct (Ascii.eqb_spec c3 "010") as [->|H3]; [done|].
        by destruct c3 as [[] [] [] [] [] [] [] []].
      * destruct (Ascii.eqb c3 "013"); [by destruct s as [|[[] [] [] [] [] [] [] []] ?]|done].
Qed.

(** A key whose every cell is [v] holds [v], if it is there at all. *)
Lemma cells_all (k g : string → string) (l : list string) (d : dict_row) f v :
  (∀ x, x ∈ l → k x = f → g x = v) →
  d !! f = None ∨ d !! f = Some (Some v) →
  foldl (fun d kv => <[kv.1 := Some kv.2]> d) d (zip (k <$> l) (g <$> l)) !! f = None
  ∨ foldl (fun d kv => <[kv.1 := Some kv.2]> d) d (zip (k <$> l) (g <$> l)) !! f
    = Some (Some v).
Proof.
  revert d. induction l as [|x l IH]; intros d Hall Hd; [done|].
  cbn [fmap list_fmap zip zip_with foldl]. apply IH.
  - intros y Hy. apply Hall. by right.
  - cbn [fst snd]. destruct (decide (k x = f)) as [Hk|Hk].
    + right. rewrite <- Hk, lookup_insert_eq. do 2 f_equal.
      apply Hall; [by left|done].
    + by rewrite lookup_insert_ne.
Qed.

Lemma empty_TY_cell_read_back (fields : list string) (ref : record) :
  cell_of ref "TY" = EmptyString →
  cell (dict_of_row (universal_newlines <$> fields)
                    (universal_newlines <$> project_row fields ref)) "TY"
  = EmptyString.
Proof.
  intros Hty. unfold cell, dict_of_row. rewrite project_row_map.
  change (map (cell_of ref) fields) with (cell_of ref <$> fields).
  rewrite drop_ge by (by rewrite !length_fmap). cbn [foldl].
  rewrite <- list_fmap_compose.
  destruct (cells_all universal_newlines (universal_newlines ∘ cell_of ref) fields
              ∅ "TY" EmptyString) as [-> | ->]; try done.
  - intros x _ Hx. apply universal_newlines_TY in Hx. subst x.
    unfold compose. by rewrite Hty.
  - by left.
Qed.

(** Rows whose [TY] cell is empty leave the output as it is. *)
Lemma skipped_rows_keep_store csv_file fields multi_value out (ds : list dict_row) n w :
  Forall (fun d => cell d "TY" = EmptyString) ds →
  fs (for_each (zip (seq n (length ds)) ds)
        (write_reference csv_file fields multi_value out) w).2 = fs w.
Proof.
  intros HF. revert n w. induction HF as [|d ds Hd _ IH]; intros n w; [done|].
  cbn [length seq zip zip_with]. rewrite for_each_cons, bind_run.
  unfold write_reference at 1. rewrite bind_run. unfold getitem, cell in *.
  destruct (d !! "TY") as [[s|]|]; cbn [ret raise]; [subst s; cbn [String.eqb]|..];
    try done; unfold print, emit; by rewrite IH.
Qed.

(** A table whose rows all have an empty [TY] cell is serialized to nothing:
    an output that held no text holds none afterwards. *)
Lemma serializer_skips_all csv_file standards_file output_ris srows tbl w :
  fs w !! standards_file = Some (Table srows) →
  standards_of_rows srows !! "TY" ≠ None →
  fs w !! output_ris = Some (Text EmptyString) →
  csv_file ≠ output_ris →
  fs w !! csv_file = Some (written tbl) →
  (∀ header body, (read_back tbl).1 = header :: body →
     Forall (fun d => cell d "TY" = EmptyString) (dict_rows header body)) →
  fs (convert_csv_to_ris csv_file standards_file output_ris w).2 = fs w.
Proof.
  intros Hs HTY Hout Hne Hc Hrows.
  destruct (load_run standards_file srows w Hs HTY) as (evs & Hload & _).
  unfold convert_csv_to_ris, try_except. rewrite bind_run, Hload.
  unfold read_table. rewrite !bind_run. cbn [emit fs trace].
  unfold lookup_table. cbn [fs]. rewrite Hc. unfold written.
  destruct (read_back tbl) as [good ok]. cbn [fst snd] in *.
  assert (Hsame : <[output_ris := Text EmptyString]> (fs w) = fs w)
    by by apply insert_id.
  destruct good as [|header body].
  { by destruct ok. }
  specialize (Hrows header body eq_refl).
  apply String.eqb_neq in Hne.
  destruct ok; cbn [fst snd].
  - case_bool_decide; [done|]. rewrite bind_run. unfold open_write. cbn [fs trace].
    destruct (open_error output_ris (fs w)); [done|]. rewrite Hne. cbn [fst snd].
    rewrite bind_run. unfold enumerate1.
    match goal with |- context [for_each ?l ?b ?w0] =>
      pose proof (skipped_rows_keep_store csv_file (fields_of (standards_of_rows srows))
                    (multi_value_fields (standards_of_rows srows)) output_ris
                    (dict_rows header body) 1 w0 Hrows) as Hloop;
      destruct (for_each l b w0) as [[[]|e] w3]
    end; cbn [snd fs] in *; rewrite ?bind_run; cbn [exhausted ret raise];
      unfold print, emit; cbn [fs snd]; congruence.
  - case_bool_decide; [done|]. rewrite bind_run. unfold open_write. cbn [fs trace].
    destruct (open_error output_ris (fs w)); [done|]. rewrite Hne. cbn [fst snd].
    rewrite bind_run. unfold enumerate1.
    match goal with |- context [for_each ?l ?b ?w0] =>
      pose proof (skipped_rows_keep_store csv_file (fields_of (standards_of_rows srows))
                    (multi_value_fields (standards_of_rows srows)) output_ris
                    (dict_rows header body) 1 w0 Hrows) as Hloop;
      destruct (for_each l b w0) as [[[]|e] w3]
    end; cbn [snd fs] in *; rewrite ?bind_run; cbn [exhausted ret raise];
      unfold print, emit; cbn [fs snd]; congruence.
Qed.

End Stages.

(** X19: under one schema the merger accepts the table the converter wrote:
    after a conversion whose output could be opened and holds no cell with
    a carriage return or over the field size limit, the source loop over
    the converter's output returns the set of the rows projected from the
    parsed records. *)
Theorem converter_output_is_merged `{Platform}
    (ris_file standards_file output_csv merged_output_csv : string)
    (srows : list row) (content : string) (w : world) :
  fs w !! standards_file = Some (Table srows) →
  standards_of_rows srows !! "TY" ≠ None →
  fs w !! ris_file = Some (Text content) →
  output_csv ≠ merged_output_csv →
  open_error output_csv (fs w) = None →
  plain_table (fields_of (standards_of_rows srows)
               :: project_rows (fields_of (standards_of_rows srows))
                    (parse_ris_lines (Py.readlines content))) →
  (fold_each [output_csv] ∅
     (merge_source (fields_of (standards_of_rows srows)) merged_output_csv)
     (convert_ris_to_csv ris_file standards_file output_csv w).2).1
  = Ok (list_to_set
          (project_rows (fields_of (standards_of_rows srows))
                        (parse_ris_lines (Py.readlines content)))).
Proof.
  intros Hs HTY Hr Hne Hopen Hplain.
  pose proof (convert_ris_to_csv_run ris_file standards_file output_csv srows content w
                Hs HTY Hr Hopen) as Hfs.
  cbn [fold_each]. rewrite bind_run, merge_source_run. rewrite Hfs, lookup_insert_eq.
  rewrite (written_plain _ Hplain).
  unfold merge_outcome. apply String.eqb_neq in Hne. rewrite Hne.
  rewrite bool_decide_eq_false_2
    by (intros Hn; apply Hn; apply header_accepted_iff; reflexivity).
  cbn [fst snd ret]. by rewrite add_rows_list_to_set.
Qed.

Lemma converter_output_is_merged_witness :
  (fold_each ["a.csv"] ∅
     (merge_source (fields_of (standards_of_rows [["TY"; "Type"]; ["AU"; "Author"]]))
                   "merged.csv")
     (@convert_ris_to_csv sample_platform "a.ris" "stds.csv" "a.csv"
        {| fs := {[ "stds.csv" := Table [["TY"; "Type"]; ["AU"; "Author"]];
                    "a.ris" := Text (ris_line "TY" "JOUR" +:+ er_block
                                     +:+ ris_line "TY" "JOUR" +:+ er_block) ]};
           trace := [] |}).2).1
  = Ok (list_to_set
          (project_rows (fields_of (standards_of_rows [["TY"; "Type"]; ["AU"; "Author"]]))
             (parse_ris_lines
                (Py.readlines (ris_line "TY" "JOUR" +:+ er_block
                               +:+ ris_line "TY" "JOUR" +:+ er_block))))).
Proof.
  apply (@converter_output_is_merged sample_platform "a.ris" "stds.csv" "a.csv"
           "merged.csv" [["TY"; "Type"]; ["AU"; "Author"]]
           (ris_line "TY" "JOUR" +:+ er_block +:+ ris_line "TY" "JOUR" +:+ er_block)
           {| fs := {[ "stds.csv" := Table [["TY"; "Type"]; ["AU"; "Author"]];
                       "a.ris" := Text (ris_line "TY" "JOUR" +:+ er_block
                                        +:+ ris_line "TY" "JOUR" +:+ er_block) ]};
              trace := [] |}).
  - reflexivity.
  - vm_compute. discriminate.
  - reflexivity.
  - discriminate.
  - reflexivity.
  - apply (bool_decide_unpack _). vm_compute. exact I.
Defined.

(** X20: under one schema the serializer accepts the table the merger wrote:
    when the merger runs to its end over sources whose cells, like the
    canonical columns, hold no carriage return and are not over the field
    size limit, when both outputs can be opened and the merged path is
    neither the schema source nor the output of the serializer, serializing
    the merged table writes the blocks of its rows. *)
Theorem merged_table_is_serialized `{Platform}
    (csv_folder merged_output_csv standards_file output_ris : string)
    (srows : list row) (w : world) :
  fs w !! standards_file = Some (Table srows) →
  standards_of_rows srows !! "TY" ≠ None →
  os_glob (path_join csv_folder "*.csv") (fs w) ≠ [] →
  Forall (fun f => f ≠ merged_output_csv
                   → ∃ header body, fs w !! f = Some (Table (header :: body))
                                    ∧ plain_table body)
         (os_glob (path_join csv_folder "*.csv") (fs w)) →
  Forall (fun c => plain c = true) (fields_of (standards_of_rows srows)) →
  merged_output_csv ≠ standards_file →
  merged_output_csv ≠ output_ris →
  open_error merged_output_csv (fs w) = None →
  open_error output_ris
    (fs (merge_csv_files csv_folder merged_output_csv standards_file w).2) = None →
  ∃ rows,
    fs (merge_csv_files csv_folder merged_output_csv standards_file w).2
      !! merged_output_csv
    = Some (Table (fields_of (standards_of_rows srows) :: rows))
    ∧ fs (convert_csv_to_ris merged_output_csv standards_file output_ris
            (merge_csv_files csv_folder merged_output_csv standards_file w).2).2
        !! output_ris
      = Some (Text (ris_text (fields_of (standards_of_rows srows))
                             (multi_value_fields (standards_of_rows srows))
                             (dict_rows (fields_of (standards_of_rows srows)) rows))).
Proof.
  intros Hs HTY Hfiles HF Hfields Hne Hne' Hopen Hopen'.
  assert (HF' : Forall (fun f => f ≠ merged_output_csv
                   → ∃ header body, fs w !! f = Some (Table (header :: body)))
         (os_glob (path_join csv_folder "*.csv") (fs w))).
  { eapply Forall_impl; [exact HF|]. intros f Hf Hfm.
    destruct (Hf Hfm) as (header & body & Hfile & _). by exists header, body. }
  destruct (merge_csv_files_fs csv_folder merged_output_csv standards_file srows w
              Hs HTY Hfiles HF' Hopen) as (u & Hfs & Hu).
  assert (Hplain : plain_table (fields_of (standards_of_rows srows) :: elements u)).
  { constructor; [done|]. apply Forall_forall. intros r Hr%elem_of_elements.
    destruct (Hu r Hr) as (f & header & body & Hin & Hfm & Hfile & Hrb).
    rewrite Forall_forall in HF. destruct (HF f Hin Hfm) as (h' & b' & Hfile' & Hb).
    rewrite Hfile in Hfile'. injection Hfile' as <- <-.
    unfold plain_table in Hb. rewrite Forall_forall in Hb. by apply Hb. }
  rewrite (written_plain _ Hplain) in Hfs.
  exists (elements u). rewrite Hfs at 1. rewrite lookup_insert_eq. split; [done|].
  set (w1 := (merge_csv_files csv_folder merged_output_csv standards_file w).2) in *.
  assert (Hs1 : fs w1 !! standards_file = Some (Table srows))
    by (by rewrite Hfs, lookup_insert_ne).
  assert (Hc1 : fs w1 !! merged_output_csv
                = Some (Table (fields_of (standards_of_rows srows) :: elements u)))
    by (by rewrite Hfs, lookup_insert_eq).
  destruct (convert_csv_to_ris_run merged_output_csv standards_file output_ris srows
              _ _ w1 Hs1 HTY Hc1) as (evs & Hrun & _); [done|].
  rewrite Hrun. cbn [snd].
  rewrite bool_decide_eq_false_2
    by (intros Hn; apply Hn; apply header_accepted_iff; reflexivity).
  unfold with_text. cbn [fs]. by rewrite lookup_insert_eq.
Qed.

Lemma merged_table_is_serialized_witness :
  ∃ rows,
    fs (@merge_csv_files sample_platform "CSV" "merged.csv" "stds.csv"
          {| fs := {[ "stds.csv" := Table [["TY"; "Type"]];
                      "CSV\a.csv" := Table [["TY"]; ["JOUR"]] ]};
             trace := [] |}).2 !! "merged.csv"
    = Some (Table (fields_of (standards_of_rows [["TY"; "Type"]]) :: rows))
    ∧ fs (@convert_csv_to_ris sample_platform "merged.csv" "stds.csv" "out.ris"
            (@merge_csv_files sample_platform "CSV" "merged.csv" "stds.csv"
               {| fs := {[ "stds.csv" := Table [["TY"; "Type"]];
                           "CSV\a.csv" := Table [["TY"]; ["JOUR"]] ]};
                  trace := [] |}).2).2 !! "out.ris"
      = Some (Text (ris_text (fields_of (standards_of_rows [["TY"; "Type"]]))
                             (multi_value_fields (standards_of_rows [["TY"; "Type"]]))
                             (dict_rows (fields_of (standards_of_rows [["TY"; "Type"]]))
                                        rows))).
Proof.
  refine (@merged_table_is_serialized sample_platform "CSV" "merged.csv" "stds.csv"
            "out.ris" [["TY"; "Type"]]
            {| fs := {[ "stds.csv" := Table [["TY"; "Type"]];
                        "CSV\a.csv" := Table [["TY"]; ["JOUR"]] ]};
               trace := [] |} _ _ _ _ _ _ _ _ _).
  - reflexivity.
  - vm_compute. discriminate.
  - vm_compute. discriminate.
  - replace (@os_glob sample_platform (@path_join sample_platform "CSV" "*.csv") _)
      with ["CSV\a.csv"] by (vm_compute; reflexivity).
    repeat constructor. intros _. exists ["TY"], [["JOUR"]].
    split; [reflexivity|]. by repeat constructor.
  - apply (bool_decide_unpack _). vm_compute. exact I.
  - discriminate.
  - discriminate.
  - reflexivity.
  - vm_compute. reflexivity.
Defined.

(** X21: records whose [TY] cell is empty are written to the table by the
    projector and dropped by the serializer: a record set in which every
    [TY] cell is empty comes back from the round trip as no record at all. *)
Theorem empty_TY_records_are_lost (srows : list row) (refs : list record) :
  standards_of_rows srows !! "TY" ≠ None →
  Forall (fun ref => cell_of ref "TY" = EmptyString) refs →
  round_trip srows refs = Ok [].
Proof.
  intros HTY HF. unfold round_trip.
  set (standards := standards_of_rows srows).
  set (tbl := fields_of standards :: project_rows (fields_of standards) refs).
  unfold write_table, open_write.
  replace (open_error "rows.csv" _) with (@None exn) by reflexivity.
  cbn [snd fs trace].
  set (w := {| fs := <["rows.csv" := written tbl]>
                       {[ "stds.csv" := Table srows; "out.ris" := Text EmptyString ]};
               trace := _ |}).
  assert (Hfs : fs (@convert_csv_to_ris sample_platform "rows.csv" "stds.csv" "out.ris" w).2
                = fs w).
  { apply (@serializer_skips_all sample_platform _ _ _ srows tbl); try done.
    intros header body Hread.
    destruct (read_back_prefix tbl) as [n Hn]. rewrite Hn in Hread.
    destruct n as [|n]; [done|]. unfold tbl in Hread. cbn [take] in Hread.
    rewrite fmap_cons in Hread. injection Hread as <- <-.
    unfold dict_rows. apply Forall_fmap, Forall_forall.
    intros r [_ Hr]%list_elem_of_filter. cbn.
    apply list_elem_of_fmap in Hr as (r0 & -> & Hr0).
    apply elem_of_take in Hr0 as (i & Hr0 & _). apply list_elem_of_lookup_2 in Hr0.
    rewrite project_rows_fmap in Hr0.
    apply list_elem_of_fmap in Hr0 as (ref & -> & Href).
    apply empty_TY_cell_read_back.
    rewrite Forall_forall in HF. by apply HF. }
  unfold parse_ris_file, read_text. rewrite !bind_run. cbn [emit fs trace].
  unfold lookup_text. cbn [fs]. rewrite Hfs. by cbn.
Qed.

Lemma empty_TY_records_are_lost_witness :
  round_trip [["TY"; "Type"]; ["AU"; "Author"]]
             (parse_ris_lines ["TY  - "; "AU  - Doe, A"; "ER  - "])
  = Ok [].
Proof.
  apply empty_TY_records_are_lost.
  - vm_compute. discriminate.
  - replace (parse_ris_lines ["TY  - "; "AU  - Doe, A"; "ER  - "])
      with [({[ "TY" := Scalar ""; "AU" := Scalar "Doe, A" ]} : record)]
      by (vm_compute; reflexivity).
    constructor; [reflexivity|constructor].
Defined.
